(** * AI Sentiment Analyzer: key validator and sentiment request adapter

    A shallow embedding of the core of [app.py]: the structural key check
    [_looks_like_openai_key], the client factory [_get_client], the key
    validator [validate_api_key] and the request adapter [analyze_sentiment],
    together with the parts of the Python runtime they call ([str]
    methods, [float], [min]/[max], [json.loads], exceptions and [try]).
    Of the page script [main], the logic is embedded: the session state,
    the key panel, the choice of the model, the examples and the click
    on the analyze button.  Line numbers are those of [app.py].

    Calls to the [openai] package are effects: a computation threads the
    list of calls made so far and ends in a value or in an exception. *)

From Stdlib Require Import List ZArith NArith Ascii String Bool Lia SpecFloat.
Import ListNotations.

(** ** Python strings *)

Module Py.

(** A Python [str] is a sequence of Unicode code points. *)
Definition pystr := list N.

(** The [str] denoted by an ASCII literal of the source. *)
Definition py (s : string) : pystr := map N_of_ascii (list_ascii_of_string s).

(** The same with every apostrophe of the literal read as a quotation mark
    (code point 34), for texts that hold JSON. *)
Definition pyq (s : string) : pystr :=
  map (fun c => if (c =? 39)%N then 34%N else c) (py s).

Fixpoint str_eqb (a b : pystr) : bool :=
  match a, b with
  | [], [] => true
  | x :: a', y :: b' => N.eqb x y && str_eqb a' b'
  | _, _ => false
  end.

(** [x in l] for a list of strings. *)
Definition str_in (x : pystr) (l : list pystr) : bool := existsb (str_eqb x) l.

(** [str.isspace] on one code point: the characters [str.strip()] removes. *)
Definition is_space (c : N) : bool :=
  ((9 <=? c) && (c <=? 13) || (28 <=? c) && (c <=? 32)
   || (c =? 133) || (c =? 160) || (c =? 5760)
   || (8192 <=? c) && (c <=? 8202)
   || (c =? 8232) || (c =? 8233) || (c =? 8239) || (c =? 8287)
   || (c =? 12288))%N.

Fixpoint lstrip (s : pystr) : pystr :=
  match s with
  | [] => []
  | c :: s' => if is_space c then lstrip s' else s
  end.

Definition rstrip (s : pystr) : pystr := rev (lstrip (rev s)).

(** [s.strip()] *)
Definition strip (s : pystr) : pystr := rstrip (lstrip s).

(** [s.startswith(p)] *)
Fixpoint startswith (s p : pystr) {struct p} : bool :=
  match p, s with
  | [], _ => true
  | x :: p', y :: s' => N.eqb x y && startswith s' p'
  | _ :: _, [] => false
  end.

(** [sub in s] *)
Fixpoint contains (sub s : pystr) : bool :=
  startswith s sub || match s with [] => false | _ :: s' => contains sub s' end.

(** [s.find(sub)]: the lowest index where [sub] occurs, or [-1]. *)
Fixpoint find (s sub : pystr) : Z :=
  if startswith s sub then 0%Z
  else match s with
       | [] => (-1)%Z
       | _ :: s' => let i := find s' sub in if (i <? 0)%Z then (-1)%Z else (i + 1)%Z
       end.

(** [s.rfind(sub)]: the highest index where [sub] occurs, or [-1]. *)
Fixpoint rfind (s sub : pystr) : Z :=
  match s with
  | [] => if startswith s sub then 0%Z else (-1)%Z
  | _ :: s' =>
      let i := rfind s' sub in
      if (0 <=? i)%Z then (i + 1)%Z
      else if startswith s sub then 0%Z else (-1)%Z
  end.

(** [s[a:b]] for indices [0 <= a] and [0 <= b] (the only ones the source
    slices with). *)
Definition slice (s : pystr) (a b : Z) : pystr :=
  firstn (Z.to_nat (b - a)) (skipn (Z.to_nat a) s).

(** [len(s)] *)
Definition len (s : pystr) : Z := Z.of_nat (List.length s).

Definition is_ascii (c : N) : bool := (c <? 128)%N.

Definition ascii_lower (c : N) : N :=
  if ((65 <=? c) && (c <=? 90))%N then (c + 32)%N else c.

(** [str(n)] for an [int]. *)
Fixpoint digits_of_pos (fuel : nat) (n : N) (acc : pystr) : pystr :=
  match fuel with
  | O => acc
  | S fuel' =>
      let acc' := (48 + N.modulo n 10)%N :: acc in
      if (n <? 10)%N then acc' else digits_of_pos fuel' (N.div n 10) acc'
  end.

Definition str_of_N (n : N) : pystr := digits_of_pos (S (N.to_nat (N.log2 n))) n [].

Definition str_of_Z (z : Z) : pystr :=
  match z with
  | Zneg p => 45%N :: str_of_N (Npos p)
  | _ => str_of_N (Z.to_N z)
  end.

(** ** Python floats

    A [float] is an IEEE 754 binary64 value; the finite ones are the
    canonical [S754_finite] of precision 53, on which [SFcompare] is the
    IEEE order. *)

Definition pyfloat := spec_float.
Definition prec : Z := 53.
Definition emax : Z := 1024.

(** The literals [0.0] and [1.0]. *)
Definition f_zero : pyfloat := S754_zero false.
Definition f_one : pyfloat := S754_finite false 4503599627370496 (-52).

(** [a < b] and [a <= b] on floats. *)
Definition float_lt (a b : pyfloat) : bool := SFltb a b.
Definition float_le (a b : pyfloat) : bool := SFleb a b.

(** [min(a, b)]: the first argument is kept unless the second is strictly
    smaller. *)
Definition min2 (a b : pyfloat) : pyfloat := if float_lt b a then b else a.

(** [max(a, b)]: the first argument is kept unless the second is strictly
    larger. *)
Definition max2 (a b : pyfloat) : pyfloat := if float_lt a b then b else a.

(** The binary64 value nearest to [m * 10^e], ties to even: what [float]
    makes of a decimal numeral with digits [m] and exponent [e]. *)
Definition float_of_decimal (neg : bool) (m : N) (e : Z) : pyfloat :=
  match m with
  | N0 => S754_zero neg
  | Npos p =>
      match e with
      | Zneg k =>
          SFdiv prec emax (S754_finite neg p 0) (S754_finite false (10 ^ k) 0)
      | _ => binary_round prec emax neg (p * Z.to_pos (10 ^ e)) 0
      end
  end.

(** [float(n)] for an [int]: rounded to nearest, [None] when the result
    does not fit ([OverflowError]). *)
Definition float_of_Z (z : Z) : option pyfloat :=
  match binary_normalize prec emax z 0 false with
  | S754_infinity _ => None
  | f => Some f
  end.

(** *** [float] of a string

    [float(s)] for an ASCII string, after CPython's [PyFloat_FromString]:
    underscores are allowed between digits only and dropped, blanks are
    stripped, and what is left is a signed decimal numeral, [inf],
    [infinity] or [nan] in any letter case.  [None] stands for
    [ValueError]. *)

Definition is_digit (c : N) : bool := ((48 <=? c) && (c <=? 57))%N.

(** The longest run of ASCII digits at the head of the input. *)
Fixpoint span_digits (s : pystr) : pystr * pystr :=
  match s with
  | c :: s' =>
      if is_digit c then let (ds, r) := span_digits s' in (c :: ds, r) else ([], s)
  | [] => ([], [])
  end.

Definition N_of_digits (ds : pystr) : N :=
  fold_left (fun n c => (n * 10 + (c - 48))%N) ds 0%N.

(** The exponent: [e] or [E], an optional sign, at least one digit, else
    nothing. *)
Definition exp_part (s : pystr) : option (Z * pystr) :=
  match s with
  | e :: s' =>
      if ((e =? 101) || (e =? 69))%N then
        let '(neg, s'') :=
          match s' with
          | sg :: t =>
              if (sg =? 45)%N then (true, t)
              else if (sg =? 43)%N then (false, t) else (false, s')
          | [] => (false, s')
          end in
        match span_digits s'' with
        | ([], _) => None
        | (ds, r) =>
            let x := Z.of_N (N_of_digits ds) in
            Some (if neg then (- x)%Z else x, r)
        end
      else None
  | [] => None
  end.

(** The blanks of C's [isspace]. *)
Definition is_blank (c : N) : bool := ((9 <=? c) && (c <=? 13) || (c =? 32))%N.

Fixpoint skip_blanks (s : pystr) : pystr :=
  match s with
  | [] => []
  | c :: s' => if is_blank c then skip_blanks s' else s
  end.

(** The string without its underscores, each of which must stand between
    two digits; [prev] is the character before [s]. *)
Fixpoint drop_underscores (prev : N) (s : pystr) : option pystr :=
  match s with
  | [] => if (prev =? 95)%N then None else Some []
  | c :: s' =>
      if (c =? 95)%N then
        if is_digit prev then drop_underscores c s' else None
      else if (prev =? 95)%N && negb (is_digit c) then None
      else option_map (cons c) (drop_underscores c s')
  end.

(** An unsigned decimal numeral: digits with an optional point, at least
    one digit in all, and an optional exponent. *)
Definition decimal_numeral (neg : bool) (s : pystr) : option (pyfloat * pystr) :=
  let (ip, r1) := span_digits s in
  let '(fd, r2) :=
    match r1 with
    | c :: r => if (c =? 46)%N then span_digits r else ([], r1)
    | [] => ([], r1)
    end in
  match ip ++ fd with
  | [] => None
  | ds =>
      let '(x, r3) :=
        match exp_part r2 with
        | Some (x, r) => (x, r)
        | None => (0%Z, r2)
        end in
      Some (float_of_decimal neg (N_of_digits ds) (x - Z.of_nat (List.length fd)), r3)
  end.

(** [inf], [infinity] or [nan], in any letter case. *)
Definition inf_or_nan (neg : bool) (s : pystr) : option (pyfloat * pystr) :=
  let l := map ascii_lower s in
  if startswith l (py "infinity") then Some (S754_infinity neg, skipn 8 s)
  else if startswith l (py "inf") then Some (S754_infinity neg, skipn 3 s)
  else if startswith l (py "nan") then Some (S754_nan, skipn 3 s)
  else None.

Definition ascii_float (s : pystr) : option pyfloat :=
  match drop_underscores 0 s with
  | None => None
  | Some s1 =>
      let s2 := rev (skip_blanks (rev (skip_blanks s1))) in
      let '(neg, s3) :=
        match s2 with
        | c :: r =>
            if (c =? 45)%N then (true, r) else if (c =? 43)%N then (false, r) else (false, s2)
        | [] => (false, s2)
        end in
      match
        match decimal_numeral neg s3 with
        | Some v => Some v
        | None => inf_or_nan neg s3
        end
      with
      | Some (f, []) => Some f
      | _ => None
      end
  end.

(** ** Exceptions

    The exception classes the program can meet, below [Exception]: the
    built-in ones and those of the [openai] package.  [Exception] itself
    stands for any class with no other modelled base; [APIStatusError]
    also stands for its subclasses other than the two named here. *)

Inductive exn_class :=
  | Exception | RuntimeError | ValueError | TypeError | AttributeError
  | IndexError | OverflowError | JSONDecodeError
  | OpenAIError | APIError | APIStatusError | APIConnectionError
  | APITimeoutError | AuthenticationError | RateLimitError.

Definition exn_class_eq_dec (a b : exn_class) : {a = b} + {a <> b}.
Proof. decide equality. Defined.

(** The proper bases of a class, nearest first. *)
Definition bases (c : exn_class) : list exn_class :=
  match c with
  | Exception => []
  | RuntimeError | ValueError | TypeError | AttributeError
  | IndexError | OverflowError | OpenAIError => [Exception]
  | JSONDecodeError => [ValueError; Exception]
  | APIError => [OpenAIError; Exception]
  | APIStatusError | APIConnectionError => [APIError; OpenAIError; Exception]
  | APITimeoutError => [APIConnectionError; APIError; OpenAIError; Exception]
  | AuthenticationError | RateLimitError =>
      [APIStatusError; APIError; OpenAIError; Exception]
  end.

(** [issubclass(c, d)] *)
Definition issubclass (c d : exn_class) : bool :=
  if exn_class_eq_dec c d then true
  else existsb (fun b => if exn_class_eq_dec b d then true else false) (bases c).

(** A raised exception: its class and its message (both [str(e)] and,
    for the provider's errors, [e.message]). *)
Record exn := mk_exn { exn_cls : exn_class; exn_msg : pystr }.

(** [isinstance(e, c)] *)
Definition isinstance (e : exn) (c : exn_class) : bool := issubclass (exn_cls e) c.

(** The outcome of running a piece of Python: a value, or an exception. *)
Inductive result (A : Type) :=
  | Return (a : A)
  | Raise (e : exn).
Arguments Return {A} a.
Arguments Raise {A} e.

(** ** What is left to the interpreter

    Four built-ins depend on the Unicode database or on the shortest
    decimal form of a float: they are parameters of the model.  [lower]
    and [float] need theirs on strings with non-ASCII characters only. *)

Record runtime := {
  (** [str.lower] on a string with a non-ASCII character *)
  unicode_lower : pystr -> pystr;
  (** [float(s)] on a string with a non-ASCII character; [None] when it
      raises [ValueError] *)
  unicode_float : pystr -> option pyfloat;
  (** [repr(f)] on a float *)
  repr_float : pyfloat -> pystr;
  (** [repr(s)] on a string *)
  repr_str : pystr -> pystr
}.

(** [s.lower()]: ASCII strings are lowered letter by letter. *)
Definition lower (rt : runtime) (s : pystr) : pystr :=
  if forallb is_ascii s then map ascii_lower s else unicode_lower rt s.

(** [float(s)] for a string. *)
Definition float_of_str (rt : runtime) (s : pystr) : option pyfloat :=
  if forallb is_ascii s then ascii_float s else unicode_float rt s.

(** [sep.join(l)] *)
Fixpoint join (sep : pystr) (l : list pystr) : pystr :=
  match l with
  | [] => []
  | [x] => x
  | x :: l' => x ++ sep ++ join sep l'
  end.

End Py.

(** ** JSON values and [json.loads] *)

Module Json.
Import Py.

(** What [json.loads] returns: [None], [bool], [int], [float], [str],
    [list] and [dict] (keys in insertion order, each once). *)
#[local] Set Warnings "-register-all".
Inductive json :=
  | JNull
  | JBool (b : bool)
  | JInt (z : Z)
  | JFloat (f : pyfloat)
  | JStr (s : pystr)
  | JArr (l : list json)
  | JObj (d : list (pystr * json)).

Definition dict := list (pystr * json).

(** [d[k] = v] *)
Fixpoint dict_set (k : pystr) (v : json) (d : dict) : dict :=
  match d with
  | [] => [(k, v)]
  | (k', v') :: d' =>
      if str_eqb k k' then (k', v) :: d' else (k', v') :: dict_set k v d'
  end.

(** [d.get(k, default)] *)
Fixpoint dict_get (d : dict) (k : pystr) (default : json) : json :=
  match d with
  | [] => default
  | (k', v) :: d' => if str_eqb k k' then v else dict_get d' k default
  end.

(** [repr(v)] *)
Fixpoint py_repr (rt : runtime) (v : json) : pystr :=
  match v with
  | JNull => py "None"
  | JBool true => py "True"
  | JBool false => py "False"
  | JInt z => str_of_Z z
  | JFloat f => repr_float rt f
  | JStr s => repr_str rt s
  | JArr l => py "[" ++ join (py ", ") (map (py_repr rt) l) ++ py "]"
  | JObj d =>
      py "{"
      ++ join (py ", ")
           (map (fun kv => repr_str rt (fst kv) ++ py ": " ++ py_repr rt (snd kv)) d)
      ++ py "}"
  end.

(** [str(v)] *)
Definition py_str (rt : runtime) (v : json) : pystr :=
  match v with
  | JStr s => s
  | _ => py_repr rt v
  end.

(** [float(v)] *)
Definition py_float (rt : runtime) (v : json) : result pyfloat :=
  match v with
  | JFloat f => Return f
  | JInt z =>
      match float_of_Z z with
      | Some f => Return f
      | None => Raise (mk_exn OverflowError (py "int too large to convert to float"))
      end
  | JBool b => Return (if b then f_one else f_zero)
  | JStr s =>
      match float_of_str rt s with
      | Some f => Return f
      | None =>
          Raise (mk_exn ValueError (py "could not convert string to float: " ++ repr_str rt s))
      end
  | JNull =>
      Raise (mk_exn TypeError
               (py "float() argument must be a string or a real number, not 'NoneType'"))
  | JArr _ =>
      Raise (mk_exn TypeError
               (py "float() argument must be a string or a real number, not 'list'"))
  | JObj _ =>
      Raise (mk_exn TypeError
               (py "float() argument must be a string or a real number, not 'dict'"))
  end.

(** *** The decoder

    [json.loads] with its default (strict) settings, after the scanner of
    CPython's [json] module.  The interpreter's recursion limit is not
    modelled. *)

(** JSON whitespace: space, tab, line feed, carriage return. *)
Definition is_ws (c : N) : bool :=
  ((c =? 32) || (c =? 9) || (c =? 10) || (c =? 13))%N.

Fixpoint skip_ws (s : pystr) : pystr :=
  match s with
  | [] => []
  | c :: s' => if is_ws c then skip_ws s' else s
  end.

Definition hex_digit (c : N) : option N :=
  if is_digit c then Some (c - 48)%N
  else if ((97 <=? c) && (c <=? 102))%N then Some (c - 87)%N
  else if ((65 <=? c) && (c <=? 70))%N then Some (c - 55)%N
  else None.

Definition hex4 (a b c d : N) : option N :=
  match hex_digit a, hex_digit b, hex_digit c, hex_digit d with
  | Some x, Some y, Some z, Some w => Some (((x * 16 + y) * 16 + z) * 16 + w)%N
  | _, _, _, _ => None
  end.

Definition is_high_surrogate (c : N) : bool := ((55296 <=? c) && (c <=? 56319))%N.
Definition is_low_surrogate (c : N) : bool := ((56320 <=? c) && (c <=? 57343))%N.
Definition join_surrogates (hi lo : N) : N :=
  (65536 + ((hi - 55296) * 1024 + (lo - 56320)))%N.

(** The character a one-letter escape stands for. *)
Definition simple_escape (c : N) : option N :=
  if (c =? 34)%N then Some 34%N          (* quotation mark *)
  else if (c =? 92)%N then Some 92%N     (* backslash *)
  else if (c =? 47)%N then Some 47%N     (* solidus *)
  else if (c =? 98)%N then Some 8%N      (* backspace *)
  else if (c =? 102)%N then Some 12%N    (* form feed *)
  else if (c =? 110)%N then Some 10%N    (* line feed *)
  else if (c =? 114)%N then Some 13%N    (* carriage return *)
  else if (c =? 116)%N then Some 9%N     (* tab *)
  else None.

(** The body of a string literal, from just after its opening quote: the
    decoded string and the input after the closing quote. *)
Fixpoint scanstring (s : pystr) (acc : pystr) : option (pystr * pystr) :=
  match s with
  | [] => None
  | c :: s1 =>
      if (c =? 34)%N then Some (rev acc, s1)
      else if (c =? 92)%N then
        match s1 with
        | [] => None
        | e :: s2 =>
            if (e =? 117)%N then
              match s2 with
              | h1 :: h2 :: h3 :: h4 :: s3 =>
                  match hex4 h1 h2 h3 h4 with
                  | None => None
                  | Some c1 =>
                      match s3 with
                      | b :: u :: g1 :: g2 :: g3 :: g4 :: s4 =>
                          if is_high_surrogate c1 && (b =? 92)%N && (u =? 117)%N then
                            match hex4 g1 g2 g3 g4 with
                            | None => None
                            | Some c2 =>
                                if is_low_surrogate c2
                                then scanstring s4 (join_surrogates c1 c2 :: acc)
                                else scanstring s3 (c1 :: acc)
                            end
                          else scanstring s3 (c1 :: acc)
                      | _ => scanstring s3 (c1 :: acc)
                      end
                  end
              | _ => None
              end
            else
              match simple_escape e with
              | Some c' => scanstring s2 (c' :: acc)
              | None => None
              end
        end
      else if (c <=? 31)%N then None
      else scanstring s1 (c :: acc)
  end.

(** The integer part of a number: [0], or a digit run not starting with [0]. *)
Definition int_part (s : pystr) : option (pystr * pystr) :=
  match s with
  | c :: s' =>
      if (c =? 48)%N then Some ([c], s')
      else if is_digit c then let (ds, r) := span_digits s' in Some (c :: ds, r)
      else None
  | [] => None
  end.

(** The fraction: a point followed by at least one digit, else nothing. *)
Definition frac_part (s : pystr) : option (pystr * pystr) :=
  match s with
  | p :: s' =>
      if (p =? 46)%N then
        match span_digits s' with
        | ([], _) => None
        | (ds, r) => Some (ds, r)
        end
      else None
  | [] => None
  end.

(** A number: an [int] when it has neither fraction nor exponent, else a
    [float]. *)
Definition match_number (s : pystr) : option (json * pystr) :=
  let '(neg, s0) :=
    match s with
    | c :: s' => if (c =? 45)%N then (true, s') else (false, s)
    | [] => (false, s)
    end in
  match int_part s0 with
  | None => None
  | Some (ip, r1) =>
      let '(fp, r2) :=
        match frac_part r1 with
        | Some (ds, r) => (Some ds, r)
        | None => (None, r1)
        end in
      let '(ep, r3) :=
        match exp_part r2 with
        | Some (x, r) => (Some x, r)
        | None => (None, r2)
        end in
      match fp, ep with
      | None, None =>
          let n := Z.of_N (N_of_digits ip) in
          Some (JInt (if neg then (- n)%Z else n), r3)
      | _, _ =>
          let fd := match fp with Some ds => ds | None => [] end in
          let x := match ep with Some x => x | None => 0%Z end in
          Some (JFloat (float_of_decimal neg (N_of_digits (ip ++ fd))
                          (x - Z.of_nat (List.length fd))), r3)
      end
  end.

(** The outcome of scanning one term: the term and the input after it, a
    syntax error, or no recursion budget left. *)
Inductive scan :=
  | Scanned (v : json) (rest : pystr)
  | Invalid
  | Exhausted.

Fixpoint scan_once (fuel : nat) (s : pystr) {struct fuel} : scan :=
  match fuel with
  | O => Exhausted
  | S fuel' =>
      match s with
      | [] => Invalid
      | c :: s' =>
          if (c =? 34)%N then
            match scanstring s' [] with
            | Some (x, rest) => Scanned (JStr x) rest
            | None => Invalid
            end
          else if (c =? 123)%N then
            match skip_ws s' with
            | c' :: r =>
                if (c' =? 125)%N then Scanned (JObj []) r
                else parse_object fuel' (c' :: r) []
            | [] => Invalid
            end
          else if (c =? 91)%N then
            match skip_ws s' with
            | c' :: r =>
                if (c' =? 93)%N then Scanned (JArr []) r
                else parse_array fuel' (c' :: r) []
            | [] => Invalid
            end
          else if startswith s (py "null") then Scanned JNull (skipn 4 s)
          else if startswith s (py "true") then Scanned (JBool true) (skipn 4 s)
          else if startswith s (py "false") then Scanned (JBool false) (skipn 5 s)
          else if startswith s (py "NaN") then Scanned (JFloat S754_nan) (skipn 3 s)
          else if startswith s (py "Infinity")
          then Scanned (JFloat (S754_infinity false)) (skipn 8 s)
          else if startswith s (py "-Infinity")
          then Scanned (JFloat (S754_infinity true)) (skipn 9 s)
          else
            match match_number s with
            | Some (v, rest) => Scanned v rest
            | None => Invalid
            end
      end
  end

(** The elements of a non-empty array, [acc] holding those read so far. *)
with parse_array (fuel : nat) (s : pystr) (acc : list json) {struct fuel} : scan :=
  match fuel with
  | O => Exhausted
  | S fuel' =>
      match scan_once fuel' s with
      | Scanned v rest =>
          match skip_ws rest with
          | c :: r =>
              if (c =? 93)%N then Scanned (JArr (rev (v :: acc))) r
              else if (c =? 44)%N then parse_array fuel' (skip_ws r) (v :: acc)
              else Invalid
          | [] => Invalid
          end
      | other => other
      end
  end

(** The members of a non-empty object, [acc] the dictionary built so far. *)
with parse_object (fuel : nat) (s : pystr) (acc : dict) {struct fuel} : scan :=
  match fuel with
  | O => Exhausted
  | S fuel' =>
      match s with
      | q :: s1 =>
          if (q =? 34)%N then
            match scanstring s1 [] with
            | Some (k, r1) =>
                match skip_ws r1 with
                | c :: r2 =>
                    if (c =? 58)%N then
                      match scan_once fuel' (skip_ws r2) with
                      | Scanned v r3 =>
                          match skip_ws r3 with
                          | c' :: r4 =>
                              if (c' =? 125)%N then Scanned (JObj (dict_set k v acc)) r4
                              else if (c' =? 44)%N
                              then parse_object fuel' (skip_ws r4) (dict_set k v acc)
                              else Invalid
                          | [] => Invalid
                          end
                      | other => other
                      end
                    else Invalid
                | [] => Invalid
                end
            | None => Invalid
            end
          else Invalid
      | [] => Invalid
      end
  end.

(** [json.loads(s)]: one term between optional whitespace; [None] stands
    for [JSONDecodeError]. *)
Definition loads (s : pystr) : option json :=
  match scan_once (2 * List.length s + 1) (skip_ws s) with
  | Scanned v rest =>
      match skip_ws rest with
      | [] => Some v
      | _ :: _ => None
      end
  | _ => None
  end.

End Json.

Import Py Json.

(** ** Effects: provider calls and exceptions *)

(** [resp.choices[i].message], reduced to the two attributes read.
    [reasoning_content] is [None] when the attribute is missing or [None]. *)
Record message := {
  content : option pystr;
  reasoning_content : option pystr
}.

(** A completion response, reduced to the messages of [resp.choices]. *)
Definition completion := list message.

Record request := {
  req_model : pystr;
  req_messages : list (pystr * pystr);   (* role, content *)
  req_temperature : Z
}.

(** The calls that reach the [openai] package. *)
Inductive event :=
  | NewClient (api_key : pystr)                     (* OpenAI(api_key=...) *)
  | ModelsList (api_key : pystr)                    (* client.models.list() *)
  | ChatCompletion (api_key : pystr) (r : request). (* client.chat.completions.create(...) *)

(** The [openai] package as the program sees it: whether its import
    succeeded, and how each call ends. *)
Record provider := {
  openai_installed : bool;
  new_client : pystr -> result unit;
  models_list : pystr -> result unit;
  chat_completions_create : pystr -> request -> result completion
}.

(** A computation: from the calls made so far to an outcome and the calls
    made until then. *)
Definition M (A : Type) : Type := list event -> result A * list event.

Definition ret {A} (a : A) : M A := fun tr => (Return a, tr).

Definition raise {A} (e : exn) : M A := fun tr => (Raise e, tr).

Definition lift {A} (r : result A) : M A := fun tr => (r, tr).

Definition call {A} (ev : event) (r : result A) : M A := fun tr => (r, tr ++ [ev]).

Definition bind {A B} (m : M A) (k : A -> M B) : M B :=
  fun tr =>
    match m tr with
    | (Return a, tr') => k a tr'
    | (Raise e, tr') => (Raise e, tr')
    end.

Notation "x <- m ;; k" := (bind m (fun x => k))
  (at level 61, m at next level, right associativity).

(** The [except] clauses of a [try], in order: the first whose class the
    exception is an instance of handles it; with none, it propagates. *)
Fixpoint dispatch {A} (handlers : list (exn_class * (exn -> M A))) (e : exn) : M A :=
  match handlers with
  | [] => raise e
  | (c, h) :: rest => if isinstance e c then h e else dispatch rest e
  end.

Definition try_except {A} (body : M A) (handlers : list (exn_class * (exn -> M A))) : M A :=
  fun tr =>
    match body tr with
    | (Return a, tr') => (Return a, tr')
    | (Raise e, tr') => dispatch handlers e tr'
    end.

(** The class a name imported from [openai] is bound to: when the import
    failed, every one of them is [Exception] (lines 16-20). *)
Definition imported (p : provider) (c : exn_class) : exn_class :=
  if openai_installed p then c else Exception.

(** ** The program *)

Definition DEFAULT_MODEL : pystr := py "gpt-4o".

Definition RECOMMENDED_MODELS : list (pystr * pystr) :=
  [ (py "gpt-5", py "Next-gen flagship model");
    (py "gpt-5-mini", py "GPT-5 optimized for speed");
    (py "gpt-4.1", py "Best quality, reasoning, safer");
    (py "gpt-4.1-mini", py "Balanced quality/speed");
    (py "gpt-4o", py "Strong vision + reasoning");
    (py "gpt-4o-mini", py "Fast + cost-efficient") ].

Definition SENTIMENT_LABELS : list pystr :=
  [py "Positive"; py "Negative"; py "Neutral"; py "Mixed"].

Record SentimentResult := {
  sentiment : pystr;
  confidence : pyfloat;
  explanation : pystr;
  key_phrases : list pystr
}.

(** [re.match(r"^(sk-|sess-|rk-).+", key)] finds a match: one of the three
    prefixes, then at least one character, which [.] takes unless it is a
    line feed. *)
Definition key_prefix_match (key : pystr) : bool :=
  existsb
    (fun pre =>
       startswith key pre
       && match skipn (List.length pre) key with
          | c :: _ => negb (c =? 10)%N
          | [] => false
          end)
    [py "sk-"; py "sess-"; py "rk-"].

Definition _looks_like_openai_key (key : pystr) : bool :=
  let key := strip key in
  match key with
  | [] => false
  | _ :: _ => key_prefix_match key || (20 <=? len key)%Z
  end.

Record client := { client_key : pystr }.

Definition _get_client (p : provider) (api_key : pystr) : M client :=
  if openai_installed p then
    _ <- call (NewClient api_key) (new_client p api_key) ;;
    ret {| client_key := api_key |}
  else raise (mk_exn RuntimeError (py "openai package is not installed")).

Definition validate_api_key (p : provider) (api_key : pystr) : M (bool * pystr) :=
  if negb (_looks_like_openai_key api_key) then
    ret (false, py "Key format looks incorrect.")
  else
    try_except
      (client <- _get_client p api_key ;;
       _ <- call (ModelsList (client_key client)) (models_list p (client_key client)) ;;
       ret (true, py "Key validated successfully."))
      [ (imported p AuthenticationError,
          fun _ => ret (false, py "Authentication failed: invalid or revoked API key."));
        (imported p RateLimitError,
          fun _ => ret (true, py "Key is valid, but you are rate-limited right now."));
        (imported p APIConnectionError,
          fun _ => ret (false, py "Could not reach OpenAI (network/connectivity issue)."));
        (imported p APIError,
          fun e => ret (false, py "OpenAI API error while validating key: " ++ exn_msg e));
        (imported p OpenAIError,
          fun e => ret (false, py "OpenAI error while validating key: " ++ exn_msg e));
        (Exception,
          fun e => ret (false, py "Unexpected error while validating key: " ++ exn_msg e)) ].

(** [data.get(key, default)]: only a [dict] has the method. *)
Definition py_get (data : json) (key : pystr) (default : json) : result json :=
  let no_get (ty : pystr) :=
    Raise (mk_exn AttributeError
             (py "'" ++ ty ++ py "' object has no attribute 'get'")) in
  match data with
  | JObj d => Return (dict_get d key default)
  | JArr _ => no_get (py "list")
  | JStr _ => no_get (py "str")
  | JInt _ => no_get (py "int")
  | JFloat _ => no_get (py "float")
  | JBool _ => no_get (py "bool")
  | JNull => no_get (py "NoneType")
  end.

(** The [JSONDecodeError] of a failed [json.loads]; its message, which
    names the position of the error, is left empty. *)
Definition decode_error : exn := mk_exn JSONDecodeError [].

(** [json.loads(s)] as a computation. *)
Definition json_loads (s : pystr) : M json :=
  match loads s with
  | Some v => ret v
  | None => raise decode_error
  end.

Definition system_prompt : pystr :=
  py "You are a careful sentiment analysis assistant. Classify sentiment for the user's text into exactly one of: Positive, Negative, Neutral, Mixed. Return strict JSON only (no markdown).".

Definition schema : list (pystr * pystr) :=
  [ (py "sentiment", py "Positive|Negative|Neutral|Mixed");
    (py "confidence", py "number between 0 and 1");
    (py "explanation", py "short explanation (1-3 sentences)");
    (py "key_phrases",
      py "array of 3-8 short phrases from the input that justify the sentiment") ].

(** [json.dumps(d)] for a [dict] of strings none of which needs an escape. *)
Definition json_dumps (d : list (pystr * pystr)) : pystr :=
  py "{"
  ++ join (py ", ") (map (fun kv => pyq "'" ++ fst kv ++ pyq "': '" ++ snd kv ++ pyq "'") d)
  ++ py "}".

Definition user_prompt (text : pystr) : pystr :=
  py "Analyze the sentiment of the following text and return JSON with keys exactly as in this schema: "
  ++ json_dumps schema ++ [10%N; 10%N] ++ py "Text: " ++ text.

Definition is_reasoning_model (rt : runtime) (model : pystr) : bool :=
  startswith (lower rt model) (py "gpt-5")
  || contains (py "reasoning") (lower rt model).

(** [l[0]] *)
Definition first_choice (resp : completion) : result message :=
  match resp with
  | m :: _ => Return m
  | [] => Raise (mk_exn IndexError (py "list index out of range"))
  end.

Definition analyze_sentiment (rt : runtime) (p : provider) (client : client)
    (model text : pystr) : M (SentimentResult * pystr) :=
  let system := system_prompt in
  let user := user_prompt text in
  let messages := [(py "system", system); (py "user", user)] in
  let create (temperature : Z) :=
    let r := {| req_model := model; req_messages := messages;
                req_temperature := temperature |} in
    call (ChatCompletion (client_key client) r)
         (chat_completions_create p (client_key client) r) in
  resp <- (if is_reasoning_model rt model then create 1%Z else create 0%Z) ;;
  msg <- lift (first_choice resp) ;;
  let reasoning :=
    match reasoning_content msg with
    | Some (c :: r) => c :: r
    | _ => []
    end in
  let content := strip (match content msg with Some c => c | None => [] end) in
  data <- try_except (json_loads content)
            [ (JSONDecodeError,
                fun _ =>
                  let start := find content (py "{") in
                  let end_ := rfind content (py "}") in
                  if (start =? -1)%Z || (end_ =? -1)%Z || (end_ <=? start)%Z then
                    raise (mk_exn ValueError (py "Model did not return JSON."))
                  else json_loads (slice content start (end_ + 1))) ] ;;
  s <- lift (py_get data (py "sentiment") (JStr [])) ;;
  let sentiment := strip (py_str rt s) in
  if negb (str_in sentiment SENTIMENT_LABELS) then
    raise (mk_exn ValueError (py "Unexpected sentiment label: " ++ sentiment))
  else
    c <- lift (py_get data (py "confidence") (JFloat f_zero)) ;;
    x <- lift (py_float rt c) ;;
    let confidence := max2 f_zero (min2 f_one x) in
    e <- lift (py_get data (py "explanation") (JStr [])) ;;
    let explanation := strip (py_str rt e) in
    k <- lift (py_get data (py "key_phrases") (JArr [])) ;;
    let key_phrases := match k with JArr l => l | _ => [] end in
    let key_phrases :=
      firstn 12
        (map (fun x => strip (py_str rt x))
           (filter (fun x => match strip (py_str rt x) with [] => false | _ => true end)
              key_phrases)) in
    ret ({| sentiment := sentiment; confidence := confidence;
            explanation := explanation; key_phrases := key_phrases |},
         reasoning).

(** The failure kinds the caller tells apart: one per [except] clause
    around the call of [analyze_sentiment] in [main] (lines 349-359). *)
Inductive failure_kind :=
  | AuthenticationFailed | RateLimited | ConnectionFailed | ProviderError
  | UnexpectedError.

(** The outcome of one click on the analyze button in [main]: the result
    shown, or the kind of failure reported with the text interpolated in
    its message. *)
Definition run_analysis (rt : runtime) (p : provider) (api_key model text : pystr)
  : M (SentimentResult * pystr + failure_kind * pystr) :=
  try_except
    (client <- _get_client p api_key ;;
     r <- analyze_sentiment rt p client model text ;;
     ret (inl r))
    [ (imported p AuthenticationError, fun _ => ret (inr (AuthenticationFailed, [])));
      (imported p RateLimitError, fun _ => ret (inr (RateLimited, [])));
      (imported p APIConnectionError, fun _ => ret (inr (ConnectionFailed, [])));
      (imported p APIError, fun e => ret (inr (ProviderError, exn_msg e)));
      (Exception, fun e => ret (inr (UnexpectedError, exn_msg e))) ].

(** ** The phases of the program

    The provider's part of a validation (lines 68-69); the request of
    lines 95-112, the text and the reasoning read from the reply (lines
    115-119), the decoding of lines 121-127 and the assembly of lines
    129-140, each as a function of its own.  [validation_body] and
    [analyze_sentiment_steps] show that the program is their composition. *)

(** The provider's part of a validation: lines 68-69. *)
Definition validation_call (p : provider) (api_key : pystr) : M unit :=
  client <- _get_client p api_key ;;
  call (ModelsList (client_key client)) (models_list p (client_key client)).

Definition completion_request (rt : runtime) (model text : pystr) : request :=
  {| req_model := model;
     req_messages := [(py "system", system_prompt); (py "user", user_prompt text)];
     req_temperature := if is_reasoning_model rt model then 1%Z else 0%Z |}.

Definition message_text (msg : message) : pystr :=
  strip (match content msg with Some c => c | None => [] end).

Definition message_reasoning (msg : message) : pystr :=
  match reasoning_content msg with
  | Some (c :: r) => c :: r
  | _ => []
  end.

(** The two failures of the adapter's own making. *)
Definition MalformedOutput : exn := mk_exn ValueError (py "Model did not return JSON.").

Definition InvalidLabel (label : pystr) : exn :=
  mk_exn ValueError (py "Unexpected sentiment label: " ++ label).

Definition parse_content (content : pystr) : result json :=
  match loads content with
  | Some data => Return data
  | None =>
      let start := find content (py "{") in
      let end_ := rfind content (py "}") in
      if (start =? -1)%Z || (end_ =? -1)%Z || (end_ <=? start)%Z then Raise MalformedOutput
      else
        match loads (slice content start (end_ + 1)) with
        | Some data => Return data
        | None => Raise decode_error
        end
  end.

Definition non_empty (s : pystr) : bool :=
  match s with
  | [] => false
  | _ :: _ => true
  end.

Definition clamp (x : pyfloat) : pyfloat := max2 f_zero (min2 f_one x).

Definition normalize_phrases (rt : runtime) (v : json) : list pystr :=
  let l := match v with JArr l => l | _ => [] end in
  firstn 12
    (map (fun x => strip (py_str rt x))
       (filter (fun x => non_empty (strip (py_str rt x))) l)).

Definition build_result (rt : runtime) (data : json) : result SentimentResult :=
  match py_get data (py "sentiment") (JStr []) with
  | Raise e => Raise e
  | Return s =>
      let label := strip (py_str rt s) in
      if negb (str_in label SENTIMENT_LABELS) then Raise (InvalidLabel label)
      else
        match py_get data (py "confidence") (JFloat f_zero) with
        | Raise e => Raise e
        | Return c =>
            match py_float rt c with
            | Raise e => Raise e
            | Return x =>
                match py_get data (py "explanation") (JStr []),
                      py_get data (py "key_phrases") (JArr []) with
                | Return e, Return k =>
                    Return {| sentiment := label;
                              confidence := clamp x;
                              explanation := strip (py_str rt e);
                              key_phrases := normalize_phrases rt k |}
                | Raise e, _ => Raise e
                | _, Raise e => Raise e
                end
            end
        end
  end.

(** What the call returns once the text of [msg] is decoded to [data]. *)
Definition finish (rt : runtime) (msg : message) (data : json)
  : result (SentimentResult * pystr) :=
  match build_result rt data with
  | Return r => Return (r, message_reasoning msg)
  | Raise e => Raise e
  end.

(** The outcome of the whole call, given the provider's answer. *)
Definition outcome_of (rt : runtime) (answer : result completion)
  : result (SentimentResult * pystr) :=
  match answer with
  | Raise e => Raise e
  | Return resp =>
      match first_choice resp with
      | Raise e => Raise e
      | Return msg =>
          match parse_content (message_text msg) with
          | Raise e => Raise e
          | Return data => finish rt msg data
          end
      end
  end.

(** ** Vocabulary of the statements *)

(** The three fields read with a default. *)
Definition label_of (rt : runtime) (d : dict) : pystr :=
  strip (py_str rt (dict_get d (py "sentiment") (JStr []))).

Definition confidence_of (d : dict) : json := dict_get d (py "confidence") (JFloat f_zero).

Definition explanation_of (rt : runtime) (d : dict) : pystr :=
  strip (py_str rt (dict_get d (py "explanation") (JStr []))).

Definition phrases_of (d : dict) : json := dict_get d (py "key_phrases") (JArr []).

(** [k in d] *)
Definition has_key (d : dict) (k : pystr) : bool := existsb (fun kv => str_eqb k (fst kv)) d.

(** The provider answers the request of [analyze_sentiment] with a
    completion whose first message is [msg]. *)
Definition answers (rt : runtime) (p : provider) (c : client) (model text : pystr)
    (msg : message) : Prop :=
  exists rest,
    chat_completions_create p (client_key c) (completion_request rt model text)
    = Return (msg :: rest).

(** The confidence of a returned result; [None] when the adapter raised. *)
Definition confidence_in (o : result (SentimentResult * pystr)) : option pyfloat :=
  match o with
  | Return (r, _) => Some (confidence r)
  | Raise _ => None
  end.

(** The class of the exception raised; [None] for a value. *)
Definition raised {A} (o : result A) : option exn_class :=
  match o with
  | Return _ => None
  | Raise e => Some (exn_cls e)
  end.

(** The normal form in the words of the specification: every element
    converted to a string and trimmed, the empty ones dropped, at most 12
    kept in their order; nothing for a value that is not an array. *)
Definition spec_key_phrases (rt : runtime) (v : json) : list pystr :=
  match v with
  | JArr l => firstn 12 (filter non_empty (map (fun x => strip (py_str rt x)) l))
  | _ => []
  end.

Definition is_letter (c : N) : bool :=
  ((65 <=? c) && (c <=? 90) || (97 <=? c) && (c <=? 122))%N.

(** The reasoning-class naming pattern, on the lower-cased identifier: it
    starts with [gpt-5], or [reasoning] occurs in it. *)
Definition reasoning_class (lowered : pystr) : Prop :=
  (exists rest, lowered = py "gpt-5" ++ rest)
  \/ (exists before after, lowered = before ++ py "reasoning" ++ after).

(** ** Closed instances

    A runtime, a provider that answers every completion request with one
    message of a given text, and a client, for the closed examples.  The
    four functions of [plain_runtime] are placeholders: no example reaches
    them, and the two counterexamples are also proved at every runtime. *)

Definition plain_runtime : runtime :=
  {| unicode_lower := fun s => s;
     unicode_float := fun _ => None;
     repr_float := fun _ => [];
     repr_str := fun s => s |}.

(** The one message of such an answer. *)
Definition reply_message (txt : pystr) : message :=
  {| content := Some txt; reasoning_content := None |}.

Definition replying (txt : pystr) : provider :=
  {| openai_installed := true;
     new_client := fun _ => Return tt;
     models_list := fun _ => Return tt;
     chat_completions_create := fun _ _ => Return [reply_message txt] |}.

Definition a_client : client := {| client_key := py "sk-example" |}.

Definition a_model : pystr := py "gpt-4o".

Definition a_text : pystr := py "The product is great but the setup was confusing.".

(** The adapter run on the reply [txt]. *)
Definition analysis_of (txt : pystr) : result (SentimentResult * pystr) :=
  fst (analyze_sentiment plain_runtime (replying txt) a_client a_model a_text []).

(** A reply with fifteen key phrases, one padded and one empty. *)
Definition many_phrases : pystr :=
  pyq "{'sentiment':'Positive','confidence':0.9,'explanation':'ok','key_phrases':[' p1 ','','p2','p3','p4','p5','p6','p7','p8','p9','p10','p11','p12','p13','p14']}".

Definition many_phrases_result : SentimentResult :=
  {| sentiment := py "Positive";
     confidence := S754_finite false 8106479329266893 (-53);
     explanation := py "ok";
     key_phrases := [py "p1"; py "p2"; py "p3"; py "p4"; py "p5"; py "p6"; py "p7";
                     py "p8"; py "p9"; py "p10"; py "p11"; py "p12"] |}.

(** ** The page script

    [main] (lines 143-372) runs from top to bottom on every interaction
    with the page.  One run is a function of what [st.session_state] kept
    from the run before and of what the widgets return in this one; it
    ends with the session state it leaves and the notices it shows.
    Markup, styling and layout are left out, and with them the percentage
    [int(result.confidence * 100)] written into the result card. *)

Definition EXAMPLES : list (pystr * pystr) :=
  [ (py "Positive",
      py "I'm genuinely impressed by how quickly the team resolved my issue. The support agent was patient, clear, and followed up to ensure everything worked.");
    (py "Negative",
      py "I'm frustrated because the delivery was two days late and the package arrived damaged. Customer support kept me waiting and didn't provide a clear resolution.");
    (py "Neutral",
      py "The meeting is scheduled for 3 PM tomorrow. Please share the updated agenda and the final slide deck when you can.");
    (py "Mixed",
      py "The product quality is excellent and the design looks premium, but the setup process was confusing and the instructions were missing key steps.") ].

(** The icons of line 268, by their code points in the source file. *)
Definition sentiment_icons : list (pystr * pystr) :=
  [ (py "Positive", [287; 376; 732; 352]%N);
    (py "Negative", [287; 376; 732]%N);
    (py "Neutral", [287; 376; 732]%N);
    (py "Mixed", [287; 376; 732; 8226]%N) ].

(** The colours of line 318. *)
Definition sentiment_colors : list (pystr * pystr) :=
  [ (py "Positive", py "#10b981");
    (py "Negative", py "#ef4444");
    (py "Neutral", py "#6b7280");
    (py "Mixed", py "#f59e0b") ].

(** The value of a key in a [dict] of strings, if the key is there. *)
Fixpoint table_get (d : list (pystr * pystr)) (k : pystr) : option pystr :=
  match d with
  | [] => None
  | (k', v) :: d' => if str_eqb k k' then Some v else table_get d' k
  end.

(** [d[k]]: a missing key raises [KeyError], for which [Exception] stands,
    with [repr(k)] as its text. *)
Definition getitem (rt : runtime) (d : list (pystr * pystr)) (k : pystr) : result pystr :=
  match table_get d k with
  | Some v => Return v
  | None => Raise (mk_exn Exception (repr_str rt k))
  end.

(** [d.get(k, default)] *)
Definition get_or (d : list (pystr * pystr)) (k default : pystr) : pystr :=
  match table_get d k with
  | Some v => v
  | None => default
  end.

(** The four keys the script keeps in [st.session_state]. *)
Record session_state := {
  api_key : pystr;
  key_valid : bool;
  key_status : pystr;
  input_text : pystr
}.

(** What [st.session_state] holds when a run starts: each key with its
    value, or [None] when the key is not there, as on the first run. *)
Record kept_state := {
  kept_api_key : option pystr;
  kept_key_valid : option bool;
  kept_key_status : option pystr;
  kept_input_text : option pystr
}.

(** Lines 203-210: the keys that are not there get their defaults. *)
Definition init_session (k : kept_state) : session_state :=
  {| api_key := match kept_api_key k with Some v => v | None => [] end;
     key_valid := match kept_key_valid k with Some v => v | None => false end;
     key_status := match kept_key_status k with Some v => v | None => [] end;
     input_text := match kept_input_text k with Some v => v | None => [] end |}.

(** What the widgets of a run return. *)
Record widgets := {
  text_input : pystr;               (* the key field, line 223 *)
  validate_clicked : bool;          (* line 227 *)
  clear_clicked : bool;             (* line 229 *)
  selected_label : pystr;           (* the option picked, line 259 *)
  example_clicked : pystr -> bool;  (* the example button of a label, line 272 *)
  analyze_btn : bool                (* line 288 *)
}.

(** The notices of a run whose choice or text the logic decides. *)
Inductive notice :=
  | KeyStatus (ok : bool) (status : pystr)   (* line 252: [st.success] or [st.error] *)
  | ValidateFirst                            (* line 291 *)
  | TextMissing                              (* line 296 *)
  | TextTooShort                             (* line 298 *)
  | Analysis (r : SentimentResult) (reasoning emoji color : pystr)  (* lines 309-347 *)
  | Failed (k : failure_kind) (detail : pystr).                     (* lines 349-359 *)

(** How a run ends: at [st.rerun()], or at the end of the script. *)
Inductive run :=
  | Rerun (s : session_state)
  | Done (s : session_state) (shown : list notice).

(** The separator between identifier and note in an option label (lines
    257 and 260), by its code points in the source file. *)
Definition label_sep : pystr := [32; 226; 8364; 8221; 32]%N.

(** Line 257. *)
Definition option_labels : list pystr :=
  map (fun m => fst m ++ label_sep ++ snd m) RECOMMENDED_MODELS.

(** The index of the first entry with a given identifier, counting from
    [idx]. *)
Fixpoint index_of (mid : pystr) (l : list (pystr * pystr)) (idx : nat) : option nat :=
  match l with
  | [] => None
  | m :: l' => if str_eqb (fst m) mid then Some idx else index_of mid l' (S idx)
  end.

(** Line 258. *)
Definition default_idx : nat :=
  match index_of DEFAULT_MODEL RECOMMENDED_MODELS 0 with
  | Some idx => idx
  | None => 0%nat
  end.

(** [s.split(sep, 1)] for a separator that is not empty. *)
Definition split_once (s sep : pystr) : list pystr :=
  let i := find s sep in
  if (i <? 0)%Z then [s]
  else [slice s 0 i; skipn (Z.to_nat i + List.length sep) s].

(** Line 260. *)
Definition model_of_label (label : pystr) : pystr :=
  hd [] (split_once label label_sep).

(** The key held, with another verdict on it. *)
Definition with_verdict (s : session_state) (valid : bool) (status : pystr)
  : session_state :=
  {| api_key := api_key s; key_valid := valid; key_status := status;
     input_text := input_text s |}.

(** Lines 237-249: a key that differs from the one held replaces it and
    loses the verdict; a click on the validate button gets a new one. *)
Definition key_panel (p : provider) (w : widgets) (s : session_state) : M session_state :=
  let s :=
    if negb (str_eqb (text_input w) (api_key s)) then
      {| api_key := text_input w; key_valid := false; key_status := [];
         input_text := input_text s |}
    else s in
  if validate_clicked w then
    match strip (text_input w) with
    | [] => ret (with_verdict s false (py "Please enter an API key."))
    | _ :: _ =>
        r <- validate_api_key p (text_input w) ;;
        ret (with_verdict s (fst r) (snd r))
    end
  else ret s.

(** Lines 270-273: the example buttons, one per label in order. *)
Fixpoint example_buttons (rt : runtime) (w : widgets) (labels : list pystr)
    (s : session_state) : result session_state :=
  match labels with
  | [] => Return s
  | label :: rest =>
      match getitem rt sentiment_icons label with
      | Raise e => Raise e
      | Return _ =>
          if example_clicked w label then
            match getitem rt EXAMPLES label with
            | Raise e => Raise e
            | Return example =>
                example_buttons rt w rest
                  {| api_key := api_key s; key_valid := key_valid s;
                     key_status := key_status s; input_text := example |}
            end
          else example_buttons rt w rest s
      end
  end.

(** Lines 279-281: the list of the examples. *)
Fixpoint example_list (rt : runtime) (labels : list pystr) : result unit :=
  match labels with
  | [] => Return tt
  | label :: rest =>
      match getitem rt sentiment_icons label, getitem rt EXAMPLES label with
      | Return _, Return _ => example_list rt rest
      | Raise e, _ => Raise e
      | _, Raise e => Raise e
      end
  end.

(** Lines 293-359: a click on the analyze button.  [x or ""] is [x] for
    the string [x] that the text area holds. *)
Definition analyze_click (rt : runtime) (p : provider) (model : pystr)
    (s : session_state) : M (session_state * notice) :=
  let text := strip (input_text s) in
  match text with
  | [] => ret (s, TextMissing)
  | _ :: _ =>
      if (len text <? 10)%Z then ret (s, TextTooShort)
      else
        try_except
          (client <- _get_client p (api_key s) ;;
           r <- analyze_sentiment rt p client model text ;;
           let color := get_or sentiment_colors (sentiment (fst r)) (py "#6b7280") in
           emoji <- lift (getitem rt sentiment_icons (sentiment (fst r))) ;;
           ret (s, Analysis (fst r) (snd r) emoji color))
          [ (imported p AuthenticationError,
              fun _ => ret (with_verdict s false (key_status s),
                            Failed AuthenticationFailed []));
            (imported p RateLimitError, fun _ => ret (s, Failed RateLimited []));
            (imported p APIConnectionError, fun _ => ret (s, Failed ConnectionFailed []));
            (imported p APIError, fun e => ret (s, Failed ProviderError (exn_msg e)));
            (Exception, fun e => ret (s, Failed UnexpectedError (exn_msg e))) ]
  end.

Definition main (rt : runtime) (p : provider) (w : widgets) (k : kept_state) : M run :=
  let s := init_session k in
  if clear_clicked w then
    ret (Rerun {| api_key := []; key_valid := false; key_status := [];
                  input_text := input_text s |})
  else
    s <- key_panel p w s ;;
    let status :=
      match key_status s with
      | [] => []
      | _ :: _ => [KeyStatus (key_valid s) (key_status s)]
      end in
    let model := model_of_label (selected_label w) in
    s <- lift (example_buttons rt w SENTIMENT_LABELS s) ;;
    _ <- lift (example_list rt SENTIMENT_LABELS) ;;
    let analyze_disabled := negb (key_valid s) in
    let warning := if analyze_disabled then [ValidateFirst] else [] in
    if analyze_btn w then
      r <- analyze_click rt p model s ;;
      ret (Done (fst r) (status ++ warning ++ [snd r]))
    else ret (Done s (status ++ warning)).

(** The two calls of the [try] of lines 305-307. *)
Definition analysis_calls (rt : runtime) (p : provider) (key model text : pystr)
  : M (SentimentResult * pystr) :=
  client <- _get_client p key ;;
  analyze_sentiment rt p client model text.

(** ** Vocabulary of the further properties *)

(** [s] has no whitespace at either end. *)
Definition trimmed (s : pystr) : Prop :=
  is_space (hd 0%N s) = false /\ is_space (last s 0%N) = false.

(** The reasoning attribute of a message as a string: empty when the
    attribute is missing or [None]. *)
Definition reasoning_text (msg : message) : pystr :=
  match reasoning_content msg with
  | Some s => s
  | None => []
  end.

(** The failure kind, and the text written into its notice, that the
    [except] clauses of lines 349-359 give an exception of each class when
    the [openai] import succeeded. *)
Definition reported (e : exn) : failure_kind * pystr :=
  match exn_cls e with
  | AuthenticationError => (AuthenticationFailed, [])
  | RateLimitError => (RateLimited, [])
  | APIConnectionError | APITimeoutError => (ConnectionFailed, [])
  | APIError | APIStatusError => (ProviderError, exn_msg e)
  | _ => (UnexpectedError, exn_msg e)
  end.

(** The key that a call carries. *)
Definition event_key (ev : event) : pystr :=
  match ev with
  | NewClient k | ModelsList k | ChatCompletion k _ => k
  end.

(** A character [json.dumps] writes as it is: printable ASCII other than
    the quotation mark and the backslash. *)
Definition plain_char (c : N) : bool :=
  ((32 <=? c) && (c <=? 126) && negb (c =? 34) && negb (c =? 92))%N.

Definition plain (s : pystr) : bool := forallb plain_char s.

(** One member of an object of strings as [json.dumps] writes it: key and
    value between quotation marks, a colon and a space between them. *)
Definition member_text (kv : pystr * pystr) : pystr :=
  34%N :: fst kv ++ 34%N :: 58%N :: 32%N :: 34%N :: snd kv ++ [34%N].

(** The [dict] that [json.loads] makes of an object of strings. *)
Definition as_object (d : list (pystr * pystr)) : json :=
  JObj (map (fun kv => (fst kv, JStr (snd kv))) d).

(** ** Further closed instances *)

(** A provider whose listing call and completion call end as given. *)
Definition provider_with (listing : result unit) (answer : result completion) : provider :=
  {| openai_installed := true;
     new_client := fun _ => Return tt;
     models_list := fun _ => listing;
     chat_completions_create := fun _ _ => answer |}.

(** The program without the [openai] package: the import of lines 16-20
    failed, and no call reaches a provider. *)
Definition without_openai : provider :=
  {| openai_installed := false;
     new_client := fun _ => Return tt;
     models_list := fun _ => Return tt;
     chat_completions_create := fun _ _ => Return [] |}.

Definition timed_out : exn := mk_exn APITimeoutError (py "Request timed out.").

Definition key_rejected : exn := mk_exn AuthenticationError (py "Incorrect API key provided.").

Definition a_key : pystr := py "sk-example".

(** A session with a validated key and a text to analyze. *)
Definition a_session : session_state :=
  {| api_key := a_key; key_valid := true;
     key_status := py "Key validated successfully."; input_text := a_text |}.

(** A reply with a reasoning trace. *)
Definition reasoned_reply : message :=
  {| content := Some (pyq "{'sentiment':'Positive','confidence':0.9,'explanation':' fine ','key_phrases':[' great ']}");
     reasoning_content := Some (py "The text praises the product.") |}.

(** A session with another text to analyze. *)
Definition with_text (s : session_state) (text : pystr) : session_state :=
  {| api_key := api_key s; key_valid := key_valid s; key_status := key_status s;
     input_text := text |}.

(** A run in which the validate button is clicked on a given key. *)
Definition validating (key : pystr) : widgets :=
  {| text_input := key; validate_clicked := true; clear_clicked := false;
     selected_label := nth default_idx option_labels []; example_clicked := fun _ => false;
     analyze_btn := false |}.

(** A run in which the example button of a given label is clicked. *)
Definition picking (label : pystr) : widgets :=
  {| text_input := a_key; validate_clicked := false; clear_clicked := false;
     selected_label := nth default_idx option_labels [];
     example_clicked := fun l => str_eqb l label;
     analyze_btn := false |}.

(** * Properties *)

(** ** Strings *)

Lemma str_eqb_eq (a b : pystr) : str_eqb a b = true <-> a = b.
Proof.
  revert b; induction a as [|x a IH]; intros [|y b]; cbn; split;
    try discriminate; try reflexivity.
  - intros H. apply andb_true_iff in H as [Hx Hab].
    apply N.eqb_eq in Hx. apply IH in Hab. congruence.
  - intros H. injection H as -> ->. rewrite N.eqb_refl. cbn. apply IH. reflexivity.
Qed.

Lemma str_in_In (x : pystr) (l : list pystr) : str_in x l = true <-> In x l.
Proof.
  unfold str_in. rewrite existsb_exists. split.
  - intros (y & Hy & Heq). apply str_eqb_eq in Heq. subst. exact Hy.
  - intros H. exists x. split; [exact H | apply str_eqb_eq; reflexivity].
Qed.

Lemma str_in_false (x : pystr) (l : list pystr) : str_in x l = false <-> ~ In x l.
Proof.
  rewrite <- str_in_In. destruct (str_in x l); split; congruence.
Qed.

Lemma lstrip_all_space (s : pystr) : forallb is_space s = true -> lstrip s = [].
Proof.
  induction s as [|c s IH]; cbn; [reflexivity|].
  intros H. apply andb_true_iff in H as [Hc Hs]. rewrite Hc. apply IH, Hs.
Qed.

Lemma strip_all_space (s : pystr) : forallb is_space s = true -> strip s = [].
Proof.
  intros H. unfold strip. rewrite (lstrip_all_space s H). reflexivity.
Qed.

Lemma lstrip_head (c : N) (s : pystr) : is_space c = false -> lstrip (c :: s) = c :: s.
Proof. intros H. cbn. rewrite H. reflexivity. Qed.

Lemma lstrip_no_space (s : pystr) :
  Forall (fun c => is_space c = false) s -> lstrip s = s.
Proof.
  intros H. destruct H as [|c s Hc _]; [reflexivity | apply lstrip_head, Hc].
Qed.

(** A string without whitespace is its own [strip()]. *)
Lemma strip_no_space (s : pystr) :
  Forall (fun c => is_space c = false) s -> strip s = s.
Proof.
  intros H. unfold strip, rstrip. rewrite (lstrip_no_space s H).
  rewrite lstrip_no_space; [apply rev_involutive|].
  apply Forall_forall. intros c Hc. apply in_rev in Hc.
  exact (proj1 (Forall_forall _ _) H c Hc).
Qed.

Lemma letter_not_space (c : N) : is_letter c = true -> is_space c = false.
Proof.
  unfold is_letter, is_space. intros H.
  assert (Hr : (65 <= c <= 122)%N).
  { apply orb_true_iff in H as [H|H]; apply andb_true_iff in H as [H1 H2];
      apply N.leb_le in H1, H2; lia. }
  repeat (apply orb_false_intro);
    try (apply N.eqb_neq; lia);
    apply andb_false_iff;
    first [ right; apply N.leb_gt; lia | left; apply N.leb_gt; lia ].
Qed.

(** A character with the lower-case form of a letter is a letter. *)
Lemma same_case_letter (c k : N) :
  ascii_lower c = ascii_lower k -> is_letter k = true -> is_letter c = true.
Proof.
  unfold ascii_lower, is_letter. intros H Hk.
  assert (Hr : (65 <= k <= 90 \/ 97 <= k <= 122)%N).
  { apply orb_true_iff in Hk as [Hk|Hk]; apply andb_true_iff in Hk as [H1 H2];
      apply N.leb_le in H1, H2; [left|right]; lia. }
  assert (Hc : (65 <= c <= 90 \/ 97 <= c <= 122)%N).
  { destruct ((65 <=? c) && (c <=? 90))%N eqn:Ec.
    - apply andb_true_iff in Ec as [H1 H2]. apply N.leb_le in H1, H2. left. lia.
    - right. destruct ((65 <=? k) && (k <=? 90))%N eqn:Ek.
      + apply andb_true_iff in Ek as [H1 H2]. apply N.leb_le in H1, H2. lia.
      + apply andb_false_iff in Ek as [Ek|Ek]; apply N.leb_gt in Ek; lia. }
  apply orb_true_iff.
  destruct Hc as [Hc|Hc]; [left|right]; apply andb_true_iff; split; apply N.leb_le; lia.
Qed.

(** A string that differs from a string of letters in letter case only
    holds no whitespace. *)
Lemma same_case_no_space (s l : pystr) :
  map ascii_lower s = map ascii_lower l ->
  forallb is_letter l = true ->
  Forall (fun c => is_space c = false) s.
Proof.
  revert l; induction s as [|c s IH]; intros [|k l] H Hl; try discriminate H;
    constructor.
  - cbn in H, Hl. injection H as Hc _. apply andb_true_iff in Hl as [Hk _].
    apply letter_not_space, (same_case_letter c k Hc Hk).
  - cbn in H, Hl. injection H as _ Hs. apply andb_true_iff in Hl as [_ Hl].
    exact (IH l Hs Hl).
Qed.

Lemma startswith_char (c y : N) (s : pystr) : startswith (y :: s) [c] = (c =? y)%N.
Proof. cbn. apply andb_true_r. Qed.

Lemma startswith_prefix (s p : pystr) :
  startswith s p = true <-> exists rest, s = p ++ rest.
Proof.
  revert s; induction p as [|x p IH]; intros s; cbn.
  - split; [intros _; exists s; reflexivity | reflexivity].
  - destruct s as [|y s]; [split; [discriminate | intros [rest H]; discriminate H]|].
    rewrite andb_true_iff, N.eqb_eq, IH. split.
    + intros [-> [rest ->]]. exists rest. reflexivity.
    + intros [rest H]. injection H as -> ->. split; [reflexivity | exists rest; reflexivity].
Qed.

Lemma contains_infix (sub s : pystr) :
  contains sub s = true <-> exists before after, s = before ++ sub ++ after.
Proof.
  induction s as [|y s IH]; cbn [contains]; rewrite orb_true_iff, startswith_prefix.
  - split.
    + intros [[rest H]|H]; [|discriminate H]. exists [], rest. exact H.
    + intros (before & after & H). left.
      destruct before; [exists after; exact H | discriminate H].
  - rewrite IH. split.
    + intros [[rest H]|(before & after & ->)].
      * exists [], rest. exact H.
      * exists (y :: before), after. reflexivity.
    + intros (before & after & H). destruct before as [|b before].
      * left. exists after. exact H.
      * right. injection H as _ ->. exists before, after. reflexivity.
Qed.

(** *** Searching for one character *)

Lemma find_absent (c : N) (s : pystr) : ~ In c s -> find s [c] = (-1)%Z.
Proof.
  induction s as [|y s IH]; intros H; [reflexivity|].
  cbn [find]. rewrite startswith_char.
  destruct (N.eqb_spec c y) as [->|_]; [exfalso; apply H; left; reflexivity|].
  rewrite IH by (intros Hin; apply H; right; exact Hin). reflexivity.
Qed.

Lemma find_first (c : N) (pre rest : pystr) :
  ~ In c pre -> find (pre ++ c :: rest) [c] = Z.of_nat (List.length pre).
Proof.
  induction pre as [|y pre IH]; intros H.
  - cbn [app find]. rewrite startswith_char, N.eqb_refl. reflexivity.
  - cbn [app find]. rewrite startswith_char.
    destruct (N.eqb_spec c y) as [->|_]; [exfalso; apply H; left; reflexivity|].
    rewrite IH by (intros Hin; apply H; right; exact Hin).
    destruct (Z.ltb_spec (Z.of_nat (List.length pre)) 0); cbn [List.length]; lia.
Qed.

Lemma rfind_absent (c : N) (s : pystr) : ~ In c s -> rfind s [c] = (-1)%Z.
Proof.
  induction s as [|y s IH]; intros H; [reflexivity|].
  cbn [rfind]. rewrite IH by (intros Hin; apply H; right; exact Hin).
  cbn. rewrite andb_true_r.
  destruct (N.eqb_spec c y) as [->|_]; [exfalso; apply H; left; reflexivity|reflexivity].
Qed.

Lemma rfind_last (c : N) (pre post : pystr) :
  ~ In c post -> rfind (pre ++ c :: post) [c] = Z.of_nat (List.length pre).
Proof.
  intros H. induction pre as [|y pre IH].
  - cbn [app rfind]. rewrite (rfind_absent c post H). cbn.
    rewrite N.eqb_refl. reflexivity.
  - cbn [app rfind]. rewrite IH.
    destruct (Z.leb_spec 0 (Z.of_nat (List.length pre))); cbn [List.length]; lia.
Qed.

Lemma find_from (c : N) (s : pystr) : find s [c] = (-1)%Z \/ (0 <= find s [c])%Z.
Proof.
  induction s as [|y s IH]; [left; reflexivity|].
  cbn [find]. rewrite startswith_char. destruct (c =? y)%N; [right; lia|].
  destruct (Z.ltb_spec (find s [c]) 0); [left; reflexivity | right; lia].
Qed.

(** No occurrence starts inside a prefix that lacks the character. *)
Lemma find_beyond (c : N) (pre rest : pystr) :
  ~ In c pre ->
  find (pre ++ rest) [c] = (-1)%Z
  \/ (Z.of_nat (List.length pre) <= find (pre ++ rest) [c])%Z.
Proof.
  induction pre as [|y pre IH]; intros H; [apply find_from|].
  cbn [app find]. rewrite startswith_char.
  destruct (N.eqb_spec c y) as [->|_]; [exfalso; apply H; left; reflexivity|].
  destruct IH as [IH|IH]; [intros Hin; apply H; right; exact Hin | |].
  - rewrite IH. left. reflexivity.
  - destruct (Z.ltb_spec (find (pre ++ rest) [c]) 0); [left; reflexivity|].
    right. cbn [List.length]. lia.
Qed.

(** The slice from the first [{] to the last [}], both included. *)
Lemma slice_brace_span (pre mid post : pystr) (a b : N) :
  slice (pre ++ a :: mid ++ b :: post)
    (Z.of_nat (List.length pre)) (Z.of_nat (List.length (pre ++ a :: mid)) + 1)
  = a :: mid ++ [b].
Proof.
  unfold slice. rewrite Nat2Z.id.
  rewrite skipn_app, skipn_all, Nat.sub_diag. cbn [app skipn].
  replace (Z.to_nat (Z.of_nat (List.length (pre ++ a :: mid)) + 1
                     - Z.of_nat (List.length pre)))
    with (List.length (a :: mid ++ [b]))
    by (rewrite length_app; cbn [List.length]; rewrite length_app; cbn [List.length]; lia).
  change (a :: mid ++ b :: post) with ((a :: mid) ++ b :: post).
  replace ((a :: mid) ++ b :: post) with ((a :: mid ++ [b]) ++ post)
    by (cbn; rewrite <- app_assoc; reflexivity).
  rewrite firstn_app, firstn_all, Nat.sub_diag. cbn [firstn]. apply app_nil_r.
Qed.

Lemma split_first (c : N) (s : pystr) :
  In c s -> exists pre rest, s = pre ++ c :: rest /\ ~ In c pre.
Proof.
  induction s as [|y s IH]; [intros []|].
  intros H. destruct (N.eq_dec y c) as [->|Hne].
  - exists [], s. split; [reflexivity | intros []].
  - destruct H as [H|H]; [contradiction|].
    destruct (IH H) as (pre & rest & -> & Hpre).
    exists (y :: pre), rest. split; [reflexivity|].
    intros [Hy|Hin]; [contradiction | exact (Hpre Hin)].
Qed.

Lemma split_last (c : N) (s : pystr) :
  In c s -> exists pre post, s = pre ++ c :: post /\ ~ In c post.
Proof.
  intros H. apply in_rev in H.
  destruct (split_first c (rev s) H) as (a & b & Hs & Ha).
  exists (rev b), (rev a). split.
  - rewrite <- (rev_involutive s), Hs, rev_app_distr. cbn [rev].
    rewrite <- app_assoc. reflexivity.
  - intros Hin. apply Ha. apply in_rev. exact Hin.
Qed.

(** Every text either has a span from its first [{] to a later last [}],
    or has no [{], or no [}], or its last [}] before any [{]. *)
Lemma brace_span_dichotomy (s : pystr) :
  (exists pre mid post,
      s = pre ++ py "{" ++ mid ++ py "}" ++ post /\ ~ In 123%N pre /\ ~ In 125%N post)
  \/ (~ In 123%N s
      \/ ~ In 125%N s
      \/ exists a b, s = a ++ py "}" ++ b /\ ~ In 125%N b /\ ~ In 123%N a).
Proof.
  change (py "{") with [123%N]. change (py "}") with [125%N].
  destruct (in_dec N.eq_dec 123%N s) as [Hl|Hl]; [|right; left; exact Hl].
  destruct (split_first _ _ Hl) as (pre & rest & -> & Hpre).
  destruct (in_dec N.eq_dec 125%N rest) as [Hr|Hr].
  - destruct (split_last _ _ Hr) as (mid & post & -> & Hpost).
    left. exists pre, mid, post. repeat split; assumption.
  - right. right.
    destruct (in_dec N.eq_dec 125%N pre) as [Hp|Hp].
    + right. destruct (split_last _ _ Hp) as (a & b & -> & Hb).
      exists a, (b ++ 123%N :: rest). split; [|split].
      * rewrite <- app_assoc. reflexivity.
      * intros Hin. apply in_app_or in Hin as [Hin|[Hin|Hin]];
          [exact (Hb Hin) | discriminate Hin | exact (Hr Hin)].
      * intros Hin. apply Hpre. apply in_or_app. left. exact Hin.
    + left. intros Hin. apply in_app_or in Hin as [Hin|[Hin|Hin]];
        [exact (Hp Hin) | discriminate Hin | exact (Hr Hin)].
Qed.

(** ** Floats *)

Lemma float_lt_le (a b : pyfloat) : float_lt a b = true -> float_le a b = true.
Proof.
  unfold float_lt, float_le, SFltb, SFleb.
  destruct (SFcompare a b) as [[]|]; congruence.
Qed.

Lemma SFcompare_antisym (a b : pyfloat) (c : comparison) :
  SFcompare a b = Some c -> SFcompare b a = Some (CompOpp c).
Proof.
  destruct a as [sa|sa| |sa ma ea], b as [sb|sb| |sb mb eb]; cbn [SFcompare];
    try discriminate;
    try (destruct sa; intros H; injection H as <-; reflexivity);
    try (destruct sb; intros H; injection H as <-; reflexivity);
    try (destruct sa, sb; intros H; injection H as <-; reflexivity).
  intros H. injection H as <-. f_equal.
  rewrite (Z.compare_antisym ea eb), (ZC4 mb ma).
  destruct sa, sb; try reflexivity;
    destruct (ea ?= eb)%Z; cbn [CompOpp]; try reflexivity;
    destruct (Pos.compare_cont Eq ma mb); reflexivity.
Qed.

Lemma float_lt_asym (a b : pyfloat) : float_lt a b = true -> float_lt b a = false.
Proof.
  unfold float_lt, SFltb. destruct (SFcompare a b) as [[]|] eqn:H; try discriminate.
  rewrite (SFcompare_antisym a b Lt H). reflexivity.
Qed.

Lemma float_le_not_lt (a b : pyfloat) : float_le a b = true -> float_lt b a = false.
Proof.
  unfold float_le, float_lt, SFleb, SFltb.
  destruct (SFcompare a b) as [[]|] eqn:H; try discriminate;
    rewrite (SFcompare_antisym a b _ H); reflexivity.
Qed.

Lemma negative_below_one (x : pyfloat) :
  float_le x f_zero = true -> float_lt f_zero x = false -> float_lt x f_one = true.
Proof.
  destruct x as [s|[]| |[] m e]; intros H H0; try reflexivity; try discriminate H; try discriminate H0.
Qed.

(** [max(0.0, min(1.0, x))], case by case. *)
Lemma clamp_cases (x : pyfloat) :
  clamp x = if float_lt x f_one then (if float_lt f_zero x then x else f_zero) else f_one.
Proof.
  unfold clamp, max2, min2. destruct (float_lt x f_one); reflexivity.
Qed.

Lemma clamp_bounds (x : pyfloat) :
  float_le f_zero (clamp x) = true /\ float_le (clamp x) f_one = true.
Proof.
  rewrite clamp_cases.
  destruct (float_lt x f_one) eqn:H1; [|split; reflexivity].
  destruct (float_lt f_zero x) eqn:H0; [|split; reflexivity].
  split; apply float_lt_le; assumption.
Qed.

(** What the clamp does to each float: up to [0.0] it gives [0.0], from
    [1.0] on it gives [1.0], strictly between it gives the float itself. *)
Lemma clamp_spec (x : pyfloat) :
  (float_le x f_zero = true -> clamp x = f_zero)
  /\ (float_le f_one x = true -> clamp x = f_one)
  /\ (float_lt f_zero x = true -> float_lt x f_one = true -> clamp x = x).
Proof.
  rewrite clamp_cases. repeat split.
  - intros H. rewrite (float_le_not_lt x f_zero H).
    rewrite (negative_below_one x H (float_le_not_lt x f_zero H)). reflexivity.
  - intros H. rewrite (float_le_not_lt f_one x H). reflexivity.
  - intros H0 H1. rewrite H1, H0. reflexivity.
Qed.

(** [max(0.0, min(1.0, x))] of a NaN is [1.0]: no comparison with it holds. *)
Lemma clamp_nan : clamp S754_nan = f_one.
Proof. reflexivity. Qed.

(** ** Lists and dictionaries *)

Lemma map_filter_comm {A B} (f : A -> B) (keep : B -> bool) (l : list A) :
  map f (filter (fun x => keep (f x)) l) = filter keep (map f l).
Proof.
  induction l as [|x l IH]; cbn; [reflexivity|].
  destruct (keep (f x)); cbn; rewrite IH; reflexivity.
Qed.

Lemma firstn_filter_prefix {A} (keep : A -> bool) (n : nat) (l : list A) :
  (n <= List.length l)%nat ->
  forallb keep (firstn n l) = true ->
  firstn n (filter keep l) = firstn n l.
Proof.
  revert l; induction n as [|n IH]; intros l Hn Hall; [reflexivity|].
  destruct l as [|x l]; [cbn in Hn; lia|].
  cbn in Hall. apply andb_true_iff in Hall as [Hx Hl].
  cbn. rewrite Hx. cbn. f_equal. apply IH; [cbn in Hn; lia | exact Hl].
Qed.

Lemma dict_get_missing (d : dict) (k : pystr) (default : json) :
  has_key d k = false -> dict_get d k default = default.
Proof.
  induction d as [|[k' v] d IH]; cbn; [reflexivity|].
  intros H. apply orb_false_iff in H as [Hk Hd]. rewrite Hk. apply IH, Hd.
Qed.

(** ** The decoder terminates within its fuel *)

Lemma skip_ws_length (s : pystr) : (List.length (skip_ws s) <= List.length s)%nat.
Proof.
  induction s as [|c s IH]; cbn; [lia|]. destruct (is_ws c); cbn; lia.
Qed.

Lemma scanstring_length (s acc x rest : pystr) :
  scanstring s acc = Some (x, rest) -> (List.length rest < List.length s)%nat.
Proof.
  remember (List.length s) as n eqn:Hn. revert s acc Hn.
  induction n as [n IH] using lt_wf_ind. intros s acc Hn H.
  destruct s as [|c s1]; [discriminate H|]. cbn [scanstring] in H.
  destruct (c =? 34)%N; [injection H as _ <-; subst n; cbn; lia|].
  destruct (c =? 92)%N.
  - destruct s1 as [|e s2]; [discriminate H|].
    destruct (e =? 117)%N.
    + destruct s2 as [|h1 [|h2 [|h3 [|h4 s3]]]]; try discriminate H.
      destruct (hex4 h1 h2 h3 h4) as [c1|]; [|discriminate H].
      assert (Hs3 : forall a, scanstring s3 a = Some (x, rest) -> (List.length rest < n)%nat).
      { intros a Ha. subst n.
        specialize (IH (List.length s3) ltac:(cbn; lia) s3 a eq_refl Ha). cbn. lia. }
      destruct s3 as [|b [|u [|g1 [|g2 [|g3 [|g4 s4]]]]]]; try (apply (Hs3 _ H)).
      destruct (is_high_surrogate c1 && (b =? 92)%N && (u =? 117)%N); [|apply (Hs3 _ H)].
      destruct (hex4 g1 g2 g3 g4) as [c2|]; [|discriminate H].
      destruct (is_low_surrogate c2); [|apply (Hs3 _ H)].
      subst n. specialize (IH (List.length s4) ltac:(cbn; lia) s4 _ eq_refl H). cbn. lia.
    + destruct (simple_escape e); [|discriminate H].
      subst n. specialize (IH (List.length s2) ltac:(cbn; lia) s2 _ eq_refl H). cbn. lia.
  - destruct (c <=? 31)%N; [discriminate H|].
    subst n. specialize (IH (List.length s1) ltac:(cbn; lia) s1 _ eq_refl H). cbn. lia.
Qed.

Lemma span_digits_length (s ds r : pystr) :
  span_digits s = (ds, r) -> (List.length r <= List.length s)%nat.
Proof.
  revert ds r; induction s as [|c s IH]; intros ds r H; cbn in H.
  - injection H as _ <-. lia.
  - destruct (is_digit c).
    + destruct (span_digits s) as [ds' r'] eqn:E. injection H as _ <-.
      specialize (IH ds' r' eq_refl). cbn. lia.
    + injection H as _ <-. lia.
Qed.

Lemma int_part_length (s ip r : pystr) :
  int_part s = Some (ip, r) -> (List.length r < List.length s)%nat.
Proof.
  destruct s as [|c s]; [discriminate|]. cbn.
  destruct (c =? 48)%N; [intros H; injection H as _ <-; lia|].
  destruct (is_digit c); [|discriminate].
  destruct (span_digits s) as [ds r'] eqn:E. intros H. injection H as _ <-.
  apply span_digits_length in E. lia.
Qed.

Lemma frac_part_length (s ds r : pystr) :
  frac_part s = Some (ds, r) -> (List.length r <= List.length s)%nat.
Proof.
  destruct s as [|c s]; [discriminate|]. cbn.
  destruct (c =? 46)%N; [|discriminate].
  destruct (span_digits s) as [[|d ds'] r'] eqn:E; [discriminate|].
  intros H. injection H as _ <-. apply span_digits_length in E. lia.
Qed.

Lemma exp_part_length (s : pystr) (x : Z) (r : pystr) :
  exp_part s = Some (x, r) -> (List.length r <= List.length s)%nat.
Proof.
  destruct s as [|c s]; [discriminate|]. cbn.
  destruct ((c =? 101) || (c =? 69))%N; [|discriminate].
  destruct s as [|sg t].
  - cbn. discriminate.
  - destruct (sg =? 45)%N; [|destruct (sg =? 43)%N];
      match goal with |- context [span_digits ?u] =>
        destruct (span_digits u) as [[|d ds'] r'] eqn:E end;
      try discriminate; intros H; injection H as _ <-;
      apply span_digits_length in E; cbn in *; lia.
Qed.

Lemma match_number_length (s : pystr) (v : json) (r : pystr) :
  match_number s = Some (v, r) -> (List.length r < List.length s)%nat.
Proof.
  unfold match_number.
  set (sg := match s with c :: s' => if (c =? 45)%N then (true, s') else (false, s) | [] => (false, s) end).
  assert (Hsg : (List.length (snd sg) <= List.length s)%nat).
  { unfold sg. destruct s as [|c s']; [cbn; lia|]. destruct (c =? 45)%N; cbn; lia. }
  destruct sg as [neg s0]. cbn [snd] in Hsg.
  destruct (int_part s0) as [[ip r1]|] eqn:Ei; [|discriminate].
  apply int_part_length in Ei.
  destruct (frac_part r1) as [[fd rf]|] eqn:Ef;
    [apply frac_part_length in Ef|];
    match goal with |- context [exp_part ?u] =>
      destruct (exp_part u) as [[x re]|] eqn:Ee end;
    try apply exp_part_length in Ee;
    intros H; injection H as _ <-; lia.
Qed.

Lemma skip_ws_cons_length (s r : pystr) (c : N) :
  skip_ws s = c :: r -> (List.length r < List.length s)%nat.
Proof.
  intros H. pose proof (skip_ws_length s) as Hl. rewrite H in Hl. cbn in Hl. lia.
Qed.

Lemma literal_length (s : pystr) (n : nat) :
  s <> [] -> (0 < n)%nat -> (List.length (skipn n s) < List.length s)%nat.
Proof.
  intros Hs Hn. rewrite length_skipn. destruct s; [contradiction|]. cbn [List.length]. lia.
Qed.

Lemma scanned_rest (v1 v2 : json) (r1 r2 : pystr) :
  Scanned v1 r1 = Scanned v2 r2 -> r2 = r1.
Proof. intros H. injection H as _ <-. reflexivity. Qed.

(** Every term scanned consumes input. *)
Lemma scan_progress (fuel : nat) :
  (forall s v r, scan_once fuel s = Scanned v r -> (List.length r < List.length s)%nat)
  /\ (forall s acc v r, parse_array fuel s acc = Scanned v r ->
        (List.length r < List.length s)%nat)
  /\ (forall s acc v r, parse_object fuel s acc = Scanned v r ->
        (List.length r < List.length s)%nat).
Proof.
  induction fuel as [|fuel (IHs & IHa & IHo)];
    [repeat split; intros; discriminate|].
  refine (conj _ (conj _ _)).
  - intros s v r H. cbn [scan_once] in H.
    destruct s as [|c s']; [discriminate H|].
    destruct (c =? 34)%N.
    { destruct (scanstring s' []) as [[x rest]|] eqn:E; [|discriminate H].
      injection H as _ <-. apply scanstring_length in E. cbn. lia. }
    destruct (c =? 123)%N.
    { destruct (skip_ws s') as [|c' r'] eqn:E; [discriminate H|].
      apply skip_ws_cons_length in E.
      destruct (c' =? 125)%N; [injection H as _ <-; cbn; lia|].
      apply IHo in H. cbn in *. lia. }
    destruct (c =? 91)%N.
    { destruct (skip_ws s') as [|c' r'] eqn:E; [discriminate H|].
      apply skip_ws_cons_length in E.
      destruct (c' =? 93)%N; [injection H as _ <-; cbn; lia|].
      apply IHa in H. cbn in *. lia. }
    repeat match type of H with
           | (if ?b then _ else _) = _ =>
               destruct b;
               [apply scanned_rest in H; subst r; apply literal_length;
                [discriminate | lia]|]
           end.
    destruct (match_number (c :: s')) as [[v' rest]|] eqn:E; [|discriminate H].
    injection H as _ <-. apply match_number_length in E. exact E.
  - intros s acc v r H. cbn [parse_array] in H.
    destruct (scan_once fuel s) as [v' rest| |] eqn:E; try discriminate H.
    apply IHs in E.
    destruct (skip_ws rest) as [|c r'] eqn:Ew; [discriminate H|].
    apply skip_ws_cons_length in Ew.
    destruct (c =? 93)%N; [injection H as _ <-; lia|].
    destruct (c =? 44)%N; [|discriminate H].
    apply IHa in H. pose proof (skip_ws_length r'). lia.
  - intros s acc v r H. cbn [parse_object] in H.
    destruct s as [|q s1]; [discriminate H|].
    destruct (q =? 34)%N; [|discriminate H].
    destruct (scanstring s1 []) as [[k r1]|] eqn:Ek; [|discriminate H].
    apply scanstring_length in Ek.
    destruct (skip_ws r1) as [|c r2] eqn:E1; [discriminate H|].
    apply skip_ws_cons_length in E1.
    destruct (c =? 58)%N; [|discriminate H].
    destruct (scan_once fuel (skip_ws r2)) as [v' r3| |] eqn:Ev; try discriminate H.
    apply IHs in Ev. pose proof (skip_ws_length r2).
    destruct (skip_ws r3) as [|c' r4] eqn:E3; [discriminate H|].
    apply skip_ws_cons_length in E3.
    destruct (c' =? 125)%N; [injection H as _ <-; cbn; lia|].
    destruct (c' =? 44)%N; [|discriminate H].
    apply IHo in H. pose proof (skip_ws_length r4). cbn. lia.
Qed.

(** With fuel above twice the length of the input the scanner never runs
    out of it. *)
Lemma scan_fuel (fuel : nat) :
  (forall s, (2 * List.length s < fuel)%nat -> scan_once fuel s <> Exhausted)
  /\ (forall s acc, (2 * List.length s + 1 < fuel)%nat -> parse_array fuel s acc <> Exhausted)
  /\ (forall s acc, (2 * List.length s + 1 < fuel)%nat -> parse_object fuel s acc <> Exhausted).
Proof.
  induction fuel as [|fuel (IHs & IHa & IHo)];
    [repeat split; intros; lia|].
  refine (conj _ (conj _ _)).
  - intros s Hf. cbn [scan_once].
    destruct s as [|c s']; [discriminate|]. cbn [List.length] in Hf.
    destruct (c =? 34)%N.
    { destruct (scanstring s' []) as [[x rest]|]; discriminate. }
    destruct (c =? 123)%N.
    { destruct (skip_ws s') as [|c' r'] eqn:E; [discriminate|].
      apply skip_ws_cons_length in E.
      destruct (c' =? 125)%N; [discriminate|]. apply IHo. cbn. lia. }
    destruct (c =? 91)%N.
    { destruct (skip_ws s') as [|c' r'] eqn:E; [discriminate|].
      apply skip_ws_cons_length in E.
      destruct (c' =? 93)%N; [discriminate|]. apply IHa. cbn. lia. }
    repeat match goal with
           | |- (if ?b then _ else _) <> _ => destruct b; [discriminate|]
           end.
    destruct (match_number (c :: s')) as [[v' rest]|]; discriminate.
  - intros s acc Hf. cbn [parse_array].
    destruct (scan_once fuel s) as [v' rest| |] eqn:E; [|discriminate|].
    + apply (proj1 (scan_progress fuel)) in E.
      destruct (skip_ws rest) as [|c r'] eqn:Ew; [discriminate|].
      apply skip_ws_cons_length in Ew.
      destruct (c =? 93)%N; [discriminate|].
      destruct (c =? 44)%N; [|discriminate].
      apply IHa. pose proof (skip_ws_length r'). lia.
    + exfalso. apply (IHs s); [lia | exact E].
  - intros s acc Hf. cbn [parse_object].
    destruct s as [|q s1]; [discriminate|]. cbn [List.length] in Hf.
    destruct (q =? 34)%N; [|discriminate].
    destruct (scanstring s1 []) as [[k r1]|] eqn:Ek; [|discriminate].
    apply scanstring_length in Ek.
    destruct (skip_ws r1) as [|c r2] eqn:E1; [discriminate|].
    apply skip_ws_cons_length in E1.
    destruct (c =? 58)%N; [|discriminate].
    pose proof (skip_ws_length r2).
    destruct (scan_once fuel (skip_ws r2)) as [v' r3| |] eqn:Ev; [|discriminate|].
    + apply (proj1 (scan_progress fuel)) in Ev.
      destruct (skip_ws r3) as [|c' r4] eqn:E3; [discriminate|].
      apply skip_ws_cons_length in E3.
      destruct (c' =? 125)%N; [discriminate|].
      destruct (c' =? 44)%N; [|discriminate].
      apply IHo. pose proof (skip_ws_length r4). lia.
    + exfalso. apply (IHs (skip_ws r2)); [lia | exact Ev].
Qed.

(** [loads] gives its scanner fuel enough: a [None] is a syntax error. *)
Lemma loads_fuel (s : pystr) :
  scan_once (2 * List.length s + 1) (skip_ws s) <> Exhausted.
Proof.
  apply (proj1 (scan_fuel _)). pose proof (skip_ws_length s). lia.
Qed.

(** ** The key validator *)

(** The prefix pattern of the pre-check: one of the three prefixes, then a
    character that is not a line feed. *)
Lemma key_prefix_match_spec (key : pystr) :
  key_prefix_match key = true <->
  exists pre c rest,
    In pre [py "sk-"; py "sess-"; py "rk-"] /\ key = pre ++ c :: rest /\ c <> 10%N.
Proof.
  unfold key_prefix_match. rewrite existsb_exists. split.
  - intros (pre & Hin & H). apply andb_true_iff in H as [Hp Hc].
    apply startswith_prefix in Hp as [rest ->].
    rewrite skipn_app, skipn_all, Nat.sub_diag in Hc. cbn [app skipn] in Hc.
    destruct rest as [|c rest]; [discriminate Hc|].
    exists pre, c, rest. repeat split; [exact Hin|].
    apply negb_true_iff, N.eqb_neq in Hc. exact Hc.
  - intros (pre & c & rest & Hin & -> & Hc). exists pre. split; [exact Hin|].
    apply andb_true_iff. split; [apply startswith_prefix; exists (c :: rest); reflexivity|].
    rewrite skipn_app, skipn_all, Nat.sub_diag. cbn [app skipn].
    apply negb_true_iff, N.eqb_neq. exact Hc.
Qed.

(** The pre-check: a stripped key that is not empty and either matches the
    prefix pattern or has at least 20 characters. *)
Lemma looks_like_openai_key_spec (key : pystr) :
  _looks_like_openai_key key = true <->
  strip key <> []
  /\ (key_prefix_match (strip key) = true \/ (20 <= List.length (strip key))%nat).
Proof.
  unfold _looks_like_openai_key, len.
  destruct (strip key) as [|c k]; [split; [discriminate | intros [H _]; contradiction]|].
  rewrite orb_true_iff, Z.leb_le. split.
  - intros H. split; [discriminate|]. destruct H as [H|H]; [left; exact H | right; lia].
  - intros [_ [H|H]]; [left; exact H | right; lia].
Qed.

Lemma all_space_not_key (key : pystr) :
  forallb is_space key = true -> _looks_like_openai_key key = false.
Proof.
  intros H. unfold _looks_like_openai_key. rewrite (strip_all_space key H). reflexivity.
Qed.

(** C2. A credential that fails the structural pre-check, as the empty
    string and every all-whitespace string do, is answered
    [(False, "Key format looks incorrect.")] with no call to the provider:
    the list of calls is left as it was. *)
Theorem validate_api_key_precheck (p : provider) (key : pystr) (tr : list event) :
  _looks_like_openai_key key = false \/ forallb is_space key = true ->
  _looks_like_openai_key key = false
  /\ validate_api_key p key tr = (Return (false, py "Key format looks incorrect."), tr).
Proof.
  intros H.
  assert (Hk : _looks_like_openai_key key = false).
  { destruct H as [H|H]; [exact H | apply all_space_not_key, H]. }
  split; [exact Hk|].
  unfold validate_api_key. rewrite Hk. reflexivity.
Qed.

Lemma validate_api_key_precheck_witness :
  (_looks_like_openai_key (py "   ") = false \/ forallb is_space (py "   ") = true)
  /\ _looks_like_openai_key (py "   ") = false
  /\ validate_api_key (replying []) (py "   ") []
     = (Return (false, py "Key format looks incorrect."), []).
Proof.
  split; [right; reflexivity|].
  apply (validate_api_key_precheck (replying []) (py "   ") []).
  right. reflexivity.
Defined.

(** The [try] of [validate_api_key] runs the provider's part, then returns. *)
Lemma validation_body (p : provider) (key : pystr) (v : bool * pystr) (tr : list event) :
  (client <- _get_client p key ;;
   _ <- call (ModelsList (client_key client)) (models_list p (client_key client)) ;;
   ret v) tr
  = match validation_call p key tr with
    | (Return _, tr') => (Return v, tr')
    | (Raise e, tr') => (Raise e, tr')
    end.
Proof.
  unfold validation_call, bind.
  destruct (_get_client p key tr) as [[cl|e] tr1]; [|reflexivity].
  unfold call. destruct (models_list p (client_key cl)); reflexivity.
Qed.

(** An exception of the provider's part is an instance of the classes
    bound at import only when the import succeeded. *)
Lemma validation_call_raises (p : provider) (key : pystr) (tr tr' : list event) (e : exn) :
  validation_call p key tr = (Raise e, tr') ->
  openai_installed p = false -> exn_cls e = RuntimeError.
Proof.
  unfold validation_call, _get_client, bind. intros H Hi. rewrite Hi in H.
  cbn in H. injection H as <- _. reflexivity.
Qed.

(** The verdict of the [except] clauses of [validate_api_key]. *)
Lemma validation_verdict (p : provider) (e : exn) (tr : list event) :
  (openai_installed p = false -> exn_cls e = RuntimeError) ->
  exists (b : bool) (msg : pystr),
    dispatch
      [ (imported p AuthenticationError,
          fun _ => ret (false, py "Authentication failed: invalid or revoked API key."));
        (imported p RateLimitError,
          fun _ => ret (true, py "Key is valid, but you are rate-limited right now."));
        (imported p APIConnectionError,
          fun _ => ret (false, py "Could not reach OpenAI (network/connectivity issue)."));
        (imported p APIError,
          fun e => ret (false, py "OpenAI API error while validating key: " ++ exn_msg e));
        (imported p OpenAIError,
          fun e => ret (false, py "OpenAI error while validating key: " ++ exn_msg e));
        (Exception,
          fun e => ret (false, py "Unexpected error while validating key: " ++ exn_msg e)) ]
      e tr
    = (Return (b, msg), tr)
    /\ (b = true <-> isinstance e RateLimitError = true).
Proof.
  intros Hi. unfold imported. destruct e as [cls m].
  destruct (openai_installed p).
  - destruct cls; do 2 eexists; (split; [reflexivity|]); cbn; split; congruence.
  - cbn in Hi. rewrite (Hi eq_refl).
    do 2 eexists. split; [reflexivity|]. cbn. split; congruence.
Qed.

(** C3. [validate_api_key] always returns a pair, whatever the credential
    and however the provider's part ends; the flag is [True] exactly when
    the credential passes the pre-check and the provider's part either
    succeeds or ends in a [RateLimitError]. *)
Theorem validate_api_key_total (p : provider) (key : pystr) (tr : list event) :
  exists (b : bool) (msg : pystr) (tr' : list event),
    validate_api_key p key tr = (Return (b, msg), tr')
    /\ (b = true <->
        _looks_like_openai_key key = true
        /\ (fst (validation_call p key tr) = Return tt
            \/ exists e, fst (validation_call p key tr) = Raise e
                         /\ isinstance e RateLimitError = true)).
Proof.
  unfold validate_api_key.
  destruct (_looks_like_openai_key key) eqn:Hk; cbn [negb].
  2:{ do 3 eexists. split; [reflexivity|]. split; [discriminate|]. intros [H _]. discriminate H. }
  unfold try_except. rewrite validation_body.
  destruct (validation_call p key tr) as [[[]|e] tr1] eqn:Hv; cbn [fst].
  - do 3 eexists. split; [reflexivity|]. split; [|reflexivity].
    intros _. split; [reflexivity|]. left. reflexivity.
  - destruct (validation_verdict p e tr1 (validation_call_raises p key tr tr1 e Hv))
      as (b & msg & Hd & Hb).
    exists b, msg, tr1. split; [exact Hd|]. rewrite Hb. split.
    + intros H. split; [reflexivity|]. right. exists e. split; [reflexivity|exact H].
    + intros [_ [H|(e' & He & H)]]; [discriminate H|].
      injection He as <-. exact H.
Qed.

(** ** The structure of [analyze_sentiment] *)

(** The assembly of lines 129-140, field by field. *)
Ltac assemble :=
  destruct (py_get _ (py "sentiment") _); [|reflexivity];
  destruct (negb _); [reflexivity|];
  destruct (py_get _ (py "confidence") _); [|reflexivity];
  destruct (py_float _ _); [|reflexivity];
  destruct (py_get _ (py "explanation") _); [|reflexivity];
  destruct (py_get _ (py "key_phrases") _); reflexivity.

(** The reading and decoding of the reply, lines 115-127. *)
Ltac read_reply p c :=
  destruct (chat_completions_create p (client_key c) _) as [resp|e]; [|reflexivity];
  destruct (first_choice resp) as [msg|e]; [|reflexivity];
  unfold try_except, json_loads, parse_content, message_text, finish,
    message_reasoning, build_result;
  cbn zeta;
  destruct (loads (strip match content msg with Some c0 => c0 | None => [] end));
  [ unfold ret at 1; cbv beta iota; assemble | ];
  unfold raise at 1; cbv beta iota;
  cbn [dispatch];
  change (isinstance decode_error JSONDecodeError) with true; cbv beta iota;
  destruct (_ || _ || _); [reflexivity|];
  destruct (loads (slice _ _ _)); [|reflexivity];
  unfold ret at 1; cbv beta iota; assemble.

Lemma normalize_phrases_length (rt : runtime) (v : json) :
  (List.length (normalize_phrases rt v) <= 12)%nat.
Proof.
  unfold normalize_phrases. rewrite length_firstn. apply Nat.le_min_l.
Qed.

(** The comprehension of line 138 computes the normal form of the
    specification. *)
Lemma normalize_phrases_spec (rt : runtime) (v : json) :
  normalize_phrases rt v = spec_key_phrases rt v.
Proof.
  unfold normalize_phrases, spec_key_phrases.
  destruct v; try reflexivity.
  rewrite (map_filter_comm (fun x => strip (py_str rt x)) non_empty). reflexivity.
Qed.

Lemma build_result_object (rt : runtime) (d : dict) :
  build_result rt (JObj d)
  = if str_in (label_of rt d) SENTIMENT_LABELS then
      match py_float rt (confidence_of d) with
      | Return x =>
          Return {| sentiment := label_of rt d;
                    confidence := clamp x;
                    explanation := explanation_of rt d;
                    key_phrases := normalize_phrases rt (phrases_of d) |}
      | Raise e => Raise e
      end
    else Raise (InvalidLabel (label_of rt d)).
Proof.
  unfold build_result, label_of, confidence_of, explanation_of, phrases_of. cbn [py_get].
  destruct (str_in _ SENTIMENT_LABELS); cbn [negb]; reflexivity.
Qed.

Lemma build_result_not_object (rt : runtime) (data : json) :
  (forall d, data <> JObj d) ->
  exists m, build_result rt data = Raise (mk_exn AttributeError m).
Proof.
  intros H. destruct data; try (eexists; reflexivity).
  exfalso. apply (H d). reflexivity.
Qed.

Lemma build_result_inv (rt : runtime) (data : json) (r : SentimentResult) :
  build_result rt data = Return r ->
  exists d x,
    data = JObj d
    /\ str_in (label_of rt d) SENTIMENT_LABELS = true
    /\ py_float rt (confidence_of d) = Return x
    /\ r = {| sentiment := label_of rt d;
              confidence := clamp x;
              explanation := explanation_of rt d;
              key_phrases := normalize_phrases rt (phrases_of d) |}.
Proof.
  intros H. destruct data; try discriminate H.
  rewrite build_result_object in H.
  destruct (str_in _ _) eqn:Hl; [|discriminate H].
  destruct (py_float _ _) as [x|e] eqn:Hx; [|discriminate H].
  injection H as <-. exists d, x. repeat split; assumption.
Qed.

(** The decoding of lines 121-127, case by case: a text that is JSON
    decodes directly; one that is not decodes through its span from the
    first [{] (code point 123) to the last [}] (code point 125), and fails
    where there is no such span. *)
Lemma parse_content_cases (content : pystr) :
  (forall data, loads content = Some data -> parse_content content = Return data)
  /\ (loads content = None ->
      (forall pre mid post,
          content = pre ++ py "{" ++ mid ++ py "}" ++ post ->
          ~ In 123%N pre -> ~ In 125%N post ->
          parse_content content
          = match loads (py "{" ++ mid ++ py "}") with
            | Some data => Return data
            | None => Raise decode_error
            end)
      /\ (~ In 123%N content
          \/ ~ In 125%N content
          \/ (exists a b, content = a ++ py "}" ++ b /\ ~ In 125%N b /\ ~ In 123%N a) ->
          parse_content content = Raise MalformedOutput)).
Proof.
  unfold parse_content. split; [intros data ->; reflexivity|].
  intros ->. split.
  - intros pre mid post -> Hpre Hpost.
    change (py "{") with [123%N]. change (py "}") with [125%N]. cbn [app].
    rewrite (find_first 123 pre _ Hpre).
    replace (pre ++ 123%N :: mid ++ 125%N :: post)
      with ((pre ++ 123%N :: mid) ++ 125%N :: post)
      by (rewrite <- app_assoc; reflexivity).
    rewrite (rfind_last 125 _ post Hpost).
    rewrite <- app_assoc. cbn [app].
    rewrite slice_brace_span.
    replace (_ || _ || _) with false; [reflexivity|].
    symmetry. rewrite length_app. cbn [List.length].
    repeat (apply orb_false_iff; split);
      [apply Z.eqb_neq | apply Z.eqb_neq | apply Z.leb_gt]; lia.
  - change (py "{") with [123%N]. change (py "}") with [125%N].
    intros [H|[H|(a & b & -> & Hb & Ha)]].
    + rewrite (find_absent 123 content H). reflexivity.
    + rewrite (rfind_absent 125 content H). cbn. rewrite orb_true_r. reflexivity.
    + cbn [app]. rewrite (rfind_last 125 a b Hb).
      destruct (find_beyond 123 a (125%N :: b) Ha) as [Hs|Hs].
      * rewrite Hs. reflexivity.
      * replace (_ || _ || _) with true; [reflexivity|].
        symmetry. apply orb_true_iff. right. apply Z.leb_le. exact Hs.
Qed.

Lemma replying_answers (rt : runtime) (txt : pystr) (c : client) (model text : pystr) :
  answers rt (replying txt) c model text (reply_message txt).
Proof. exists []. reflexivity. Qed.

(** No two of the four labels differ in letter case only, and all four are
    made of letters. *)
Lemma labels_distinct_case (l l' : pystr) :
  In l SENTIMENT_LABELS -> In l' SENTIMENT_LABELS ->
  map ascii_lower l' = map ascii_lower l -> l' = l.
Proof.
  unfold SENTIMENT_LABELS. intros Hl Hl'.
  repeat (destruct Hl as [<-|Hl]; [|]); try contradiction;
    repeat (destruct Hl' as [<-|Hl']; [|]); try contradiction;
    intros H; try reflexivity; vm_compute in H; discriminate H.
Qed.

Lemma labels_letters (l : pystr) : In l SENTIMENT_LABELS -> forallb is_letter l = true.
Proof.
  unfold SENTIMENT_LABELS. intros Hl.
  repeat (destruct Hl as [<-|Hl]; [reflexivity|]). contradiction.
Qed.

(** A string that differs from a label in letter case only, and is not
    that label, is its own [strip()] and none of the labels. *)
Lemma case_variant_rejected (s l : pystr) :
  In l SENTIMENT_LABELS -> s <> l -> map ascii_lower s = map ascii_lower l ->
  strip s = s /\ ~ In s SENTIMENT_LABELS.
Proof.
  intros Hl Hne Hcase. split.
  - apply strip_no_space, (same_case_no_space s l Hcase), labels_letters, Hl.
  - intros Hs. apply Hne. exact (labels_distinct_case l s Hl Hs Hcase).
Qed.

(** The program is the composition of its phases, and makes one call. *)
Lemma analyze_sentiment_steps (rt : runtime) (p : provider) (c : client)
    (model text : pystr) (tr : list event) :
  let r := completion_request rt model text in
  analyze_sentiment rt p c model text tr
  = (outcome_of rt (chat_completions_create p (client_key c) r),
     tr ++ [ChatCompletion (client_key c) r]).
Proof.
  unfold analyze_sentiment, completion_request, outcome_of, bind, call, lift.
  cbn zeta.
  destruct (is_reasoning_model rt model); read_reply p c.
Qed.

Section Adapter.

Context (rt : runtime) (p : provider) (c : client) (model text : pystr)
  (tr : list event).

(** What a returned result is made of. *)
Lemma analyze_sentiment_inv (r : SentimentResult) (reasoning : pystr) :
  fst (analyze_sentiment rt p c model text tr) = Return (r, reasoning) ->
  exists msg d x,
    answers rt p c model text msg
    /\ parse_content (message_text msg) = Return (JObj d)
    /\ str_in (label_of rt d) SENTIMENT_LABELS = true
    /\ py_float rt (confidence_of d) = Return x
    /\ r = {| sentiment := label_of rt d;
              confidence := clamp x;
              explanation := explanation_of rt d;
              key_phrases := normalize_phrases rt (phrases_of d) |}
    /\ reasoning = message_reasoning msg.
Proof.
  rewrite analyze_sentiment_steps. cbn [fst]. intros H.
  unfold outcome_of, finish in H.
  destruct (chat_completions_create _ _ _) as [[|msg rest]|e] eqn:Hc; try discriminate H.
  cbn [first_choice] in H.
  destruct (parse_content _) as [data|e] eqn:Hp; [|discriminate H].
  destruct (build_result rt data) as [r0|e] eqn:Hb; [|discriminate H].
  injection H as -> <-.
  apply build_result_inv in Hb as (d & x & -> & Hl & Hx & ->).
  exists msg, d, x. repeat split; try assumption. exists rest. exact Hc.
Qed.

(** *** The data-model invariant *)

(** C1. Whenever [analyze_sentiment] returns, the result's sentiment is one
    of the four labels, its confidence is a number with
    [0.0 <= confidence <= 1.0], and it has at most 12 key phrases. *)
Theorem analyze_sentiment_invariant (r : SentimentResult) (reasoning : pystr) :
  fst (analyze_sentiment rt p c model text tr) = Return (r, reasoning) ->
  In (sentiment r) SENTIMENT_LABELS
  /\ float_le f_zero (confidence r) = true
  /\ float_le (confidence r) f_one = true
  /\ (List.length (key_phrases r) <= 12)%nat.
Proof.
  intros H.
  apply analyze_sentiment_inv in H as (msg & d & x & _ & _ & Hl & _ & -> & _).
  cbn [sentiment confidence key_phrases].
  split; [apply str_in_In; exact Hl|].
  split; [apply clamp_bounds|].
  split; [apply clamp_bounds|].
  apply normalize_phrases_length.
Qed.

(** *** The key phrases *)

(** C5. The key phrases of a result are the supplied elements converted
    to strings and trimmed, without the empty ones, cut to the first 12 in
    their order; a value that is not an array gives none; an array with
    more than 12 non-empty entries gives exactly 12 of them, which are the
    first 12 elements trimmed when none of those is empty. *)
Theorem key_phrases_normalized (r : SentimentResult) (reasoning : pystr) :
  fst (analyze_sentiment rt p c model text tr) = Return (r, reasoning) ->
  exists msg d,
    answers rt p c model text msg
    /\ parse_content (message_text msg) = Return (JObj d)
    /\ key_phrases r = spec_key_phrases rt (phrases_of d)
    /\ ((forall l, phrases_of d <> JArr l) -> key_phrases r = [])
    /\ (forall l, phrases_of d = JArr l ->
          let trimmed := map (fun x => strip (py_str rt x)) l in
          key_phrases r = firstn 12 (filter non_empty trimmed)
          /\ ((12 < List.length (filter non_empty trimmed))%nat ->
              List.length (key_phrases r) = 12%nat)
          /\ ((12 < List.length l)%nat ->
              forallb non_empty (firstn 12 trimmed) = true ->
              key_phrases r = firstn 12 trimmed)).
Proof.
  intros H.
  apply analyze_sentiment_inv in H as (msg & d & x & Ha & Hp & _ & _ & -> & _).
  exists msg, d. cbn [key_phrases]. rewrite normalize_phrases_spec.
  refine (conj Ha (conj Hp (conj eq_refl (conj _ _)))).
  - intros Hn. destruct (phrases_of d) as [| | | | |l|]; try reflexivity.
    exfalso. apply (Hn l). reflexivity.
  - intros l ->. cbn [spec_key_phrases].
    set (trimmed := map (fun x => strip (py_str rt x)) l).
    refine (conj eq_refl (conj _ _)).
    + intros Hlen. rewrite length_firstn. lia.
    + intros Hlen Hall. apply firstn_filter_prefix; [|exact Hall].
      unfold trimmed. rewrite length_map. lia.
Qed.

(** *** The temperature *)

(** C8. [analyze_sentiment] issues exactly one completion request, for the
    given model, with temperature 1 (the provider's default) when the
    identifier is of the reasoning class and temperature 0 otherwise;
    [gpt-5-mini] gets 1 and [gpt-4o-mini] gets 0. *)
Theorem temperature_policy :
  (exists req,
      snd (analyze_sentiment rt p c model text tr) = tr ++ [ChatCompletion (client_key c) req]
      /\ req_model req = model
      /\ (reasoning_class (lower rt model) -> req_temperature req = 1%Z)
      /\ (~ reasoning_class (lower rt model) -> req_temperature req = 0%Z))
  /\ snd (analyze_sentiment rt p c (py "gpt-5-mini") text tr)
     = tr ++ [ChatCompletion (client_key c)
                {| req_model := py "gpt-5-mini";
                   req_messages := [(py "system", system_prompt); (py "user", user_prompt text)];
                   req_temperature := 1 |}]
  /\ snd (analyze_sentiment rt p c (py "gpt-4o-mini") text tr)
     = tr ++ [ChatCompletion (client_key c)
                {| req_model := py "gpt-4o-mini";
                   req_messages := [(py "system", system_prompt); (py "user", user_prompt text)];
                   req_temperature := 0 |}].
Proof.
  assert (Hclass : is_reasoning_model rt model = true <-> reasoning_class (lower rt model)).
  { unfold is_reasoning_model, reasoning_class.
    rewrite orb_true_iff, startswith_prefix, contains_infix. reflexivity. }
  refine (conj _ (conj _ _)).
  - exists (completion_request rt model text).
    rewrite analyze_sentiment_steps. cbn [snd req_model req_temperature completion_request].
    refine (conj eq_refl (conj eq_refl (conj _ _))).
    + intros H. apply Hclass in H. rewrite H. reflexivity.
    + intros H. destruct (is_reasoning_model rt model); [|reflexivity].
      exfalso. apply H, Hclass. reflexivity.
  - rewrite analyze_sentiment_steps. reflexivity.
  - rewrite analyze_sentiment_steps. reflexivity.
Qed.

(** Of the models of the catalogue, the two [gpt-5] ones are requested
    with temperature 1 and the other four with temperature 0. *)
Lemma catalogue_temperatures :
  map (fun m => req_temperature (completion_request rt (fst m) text)) RECOMMENDED_MODELS
  = [1; 1; 0; 0; 0; 0]%Z.
Proof. reflexivity. Qed.

Section Answered.

Context (msg : message).
Hypothesis Hanswers : answers rt p c model text msg.

(** With an answer in hand, the outcome is that of decoding and assembly. *)
Lemma analyze_sentiment_answered :
  fst (analyze_sentiment rt p c model text tr)
  = match parse_content (message_text msg) with
    | Return data => finish rt msg data
    | Raise e => Raise e
    end.
Proof.
  destruct Hanswers as [rest H]. rewrite analyze_sentiment_steps. cbn [fst].
  unfold outcome_of. rewrite H. cbn [first_choice].
  destruct (parse_content (message_text msg)); reflexivity.
Qed.

(** *** Decoding the reply *)

(** C6. The adapter decodes the whole (stripped) text first; when that
    fails it decodes the span from the first [{] (code point 123) to the
    last [}] (code point 125), and where the text has no such span (no [{],
    no [}], or its last [}] before any [{]) it fails with
    [ValueError("Model did not return JSON.")]; the text
    [Sure! {...} Thanks] is decoded through its span. *)
Theorem brace_span_fallback :
  let content := message_text msg in
  let out := fst (analyze_sentiment rt p c model text tr) in
  (forall data, loads content = Some data -> out = finish rt msg data)
  /\ (loads content = None ->
      (forall pre mid post,
          content = pre ++ py "{" ++ mid ++ py "}" ++ post ->
          ~ In 123%N pre -> ~ In 125%N post ->
          out = match loads (py "{" ++ mid ++ py "}") with
                | Some data => finish rt msg data
                | None => Raise decode_error
                end)
      /\ (~ In 123%N content
          \/ ~ In 125%N content
          \/ (exists a b, content = a ++ py "}" ++ b /\ ~ In 125%N b /\ ~ In 123%N a) ->
          out = Raise MalformedOutput))
  /\ loads (pyq "Sure! {'sentiment':'Positive','confidence':0.9,'explanation':'ok','key_phrases':[]} Thanks")
     = None
  /\ analysis_of
       (pyq "Sure! {'sentiment':'Positive','confidence':0.9,'explanation':'ok','key_phrases':[]} Thanks")
     = Return ({| sentiment := py "Positive";
                  confidence := S754_finite false 8106479329266893 (-53);
                  explanation := py "ok";
                  key_phrases := [] |}, []).
Proof.
  intros content out.
  assert (Hout : out = match parse_content content with
                       | Return data => finish rt msg data
                       | Raise e => Raise e
                       end)
    by apply analyze_sentiment_answered.
  destruct (parse_content_cases content) as [Hdirect Hspan].
  refine (conj _ (conj _ (conj _ _))).
  - intros data H. rewrite Hout, (Hdirect data H). reflexivity.
  - intros H. destruct (Hspan H) as [Hvalid Hinvalid]. split.
    + intros pre mid post Hc Hpre Hpost.
      rewrite Hout, (Hvalid pre mid post Hc Hpre Hpost).
      destruct (loads (py "{" ++ mid ++ py "}")); reflexivity.
    + intros Hno. rewrite Hout, (Hinvalid Hno). reflexivity.
  - vm_compute. reflexivity.
  - vm_compute. reflexivity.
Qed.

(** *** A reply that is JSON but no object *)

(** C10. When the text decodes directly to a value that is not an object,
    reading its fields raises [AttributeError]: neither of the adapter's
    own two failures; among the [except] clauses around the call in
    [main], only the last, [except Exception], takes it. *)
Theorem non_object_reply_raises (data : json) :
  loads (message_text msg) = Some data ->
  (forall d, data <> JObj d) ->
  let out := fst (analyze_sentiment rt p c model text tr) in
  exists m,
    out = Raise (mk_exn AttributeError m)
    /\ out <> Raise MalformedOutput
    /\ (forall label, out <> Raise (InvalidLabel label))
    /\ isinstance (mk_exn AttributeError m) AuthenticationError = false
    /\ isinstance (mk_exn AttributeError m) RateLimitError = false
    /\ isinstance (mk_exn AttributeError m) APIConnectionError = false
    /\ isinstance (mk_exn AttributeError m) APIError = false
    /\ isinstance (mk_exn AttributeError m) Exception = true
    /\ (openai_installed p = true -> new_client p (client_key c) = Return tt ->
        fst (run_analysis rt p (client_key c) model text tr)
        = Return (inr (UnexpectedError, m))).
Proof.
  intros Hl Hn out.
  destruct (build_result_not_object rt data Hn) as [m Hm].
  assert (Hraise : forall tr0,
             fst (analyze_sentiment rt p c model text tr0)
             = Raise (mk_exn AttributeError m)).
  { intros tr0. destruct Hanswers as [rest H].
    rewrite analyze_sentiment_steps. cbn [fst].
    unfold outcome_of. rewrite H. cbn [first_choice].
    rewrite (proj1 (parse_content_cases _) data Hl). unfold finish. rewrite Hm.
    reflexivity. }
  exists m. unfold out. rewrite (Hraise tr).
  refine (conj eq_refl (conj _ (conj _ (conj eq_refl (conj eq_refl (conj eq_refl
            (conj eq_refl (conj eq_refl _)))))))).
  - discriminate.
  - intros label. discriminate.
  - intros Hi Hc. unfold run_analysis, try_except, _get_client, bind, call, imported.
    rewrite Hi, Hc. unfold ret at 1. cbv beta iota.
    replace {| client_key := client_key c |} with c by (destruct c; reflexivity).
    rewrite (surjective_pairing (analyze_sentiment rt p c model text _)).
    rewrite (Hraise (tr ++ [NewClient (client_key c)])). reflexivity.
Qed.

Section Object.

Context (d : dict).
Hypothesis Hobject : parse_content (message_text msg) = Return (JObj d).

Lemma analyze_sentiment_object :
  fst (analyze_sentiment rt p c model text tr) = finish rt msg (JObj d).
Proof. rewrite analyze_sentiment_answered, Hobject. reflexivity. Qed.

(** With a valid label, the outcome rests on the confidence alone. *)
Lemma analyze_sentiment_labelled :
  str_in (label_of rt d) SENTIMENT_LABELS = true ->
  fst (analyze_sentiment rt p c model text tr)
  = match py_float rt (confidence_of d) with
    | Return x =>
        Return ({| sentiment := label_of rt d;
                   confidence := clamp x;
                   explanation := explanation_of rt d;
                   key_phrases := normalize_phrases rt (phrases_of d) |},
                message_reasoning msg)
    | Raise e => Raise e
    end.
Proof.
  intros Hl. rewrite analyze_sentiment_object. unfold finish.
  rewrite build_result_object, Hl. destruct (py_float _ _); reflexivity.
Qed.

(** *** The confidence *)

(** C4, amended. The confidence of the result is [float] of the supplied
    value clamped into [0,1]: up to [0.0] gives [0.0], from [1.0] on gives
    [1.0] (so [1.5] yields [1.0] and [-0.2] yields [0.0]), and a missing
    field gives [0.0]; a value [float] rejects makes the adapter raise
    what [float] raised ([TypeError] for [null], a list or an object,
    [ValueError] for a string that is no number). *)
Theorem confidence_clamped :
  str_in (label_of rt d) SENTIMENT_LABELS = true ->
  let out := fst (analyze_sentiment rt p c model text tr) in
  (forall x, py_float rt (confidence_of d) = Return x ->
     confidence_in out = Some (clamp x)
     /\ (float_le x f_zero = true -> confidence_in out = Some f_zero)
     /\ (float_le f_one x = true -> confidence_in out = Some f_one)
     /\ (float_lt f_zero x = true -> float_lt x f_one = true -> confidence_in out = Some x))
  /\ (has_key d (py "confidence") = false -> confidence_in out = Some f_zero)
  /\ (forall e, py_float rt (confidence_of d) = Raise e -> out = Raise e)
  /\ (match confidence_of d with JNull | JArr _ | JObj _ => True | _ => False end ->
      raised out = Some TypeError)
  /\ (forall s, confidence_of d = JStr s -> float_of_str rt s = None ->
      raised out = Some ValueError)
  /\ confidence_in
       (analysis_of (pyq "{'sentiment':'Positive','confidence':1.5,'explanation':'ok','key_phrases':[]}"))
     = Some f_one
  /\ confidence_in
       (analysis_of (pyq "{'sentiment':'Negative','confidence':-0.2,'explanation':'ok','key_phrases':[]}"))
     = Some f_zero.
Proof.
  intros Hl out.
  assert (Hout : out = match py_float rt (confidence_of d) with
                       | Return x =>
                           Return ({| sentiment := label_of rt d;
                                      confidence := clamp x;
                                      explanation := explanation_of rt d;
                                      key_phrases := normalize_phrases rt (phrases_of d) |},
                                   message_reasoning msg)
                       | Raise e => Raise e
                       end)
    by (apply analyze_sentiment_labelled; assumption).
  refine (conj _ (conj _ (conj _ (conj _ (conj _ (conj _ _)))))).
  - intros x H. rewrite Hout, H. cbn [confidence_in confidence].
    refine (conj eq_refl (conj _ (conj _ _))).
    + intros Hx. f_equal. apply clamp_spec, Hx.
    + intros Hx. f_equal. apply clamp_spec, Hx.
    + intros H0 H1. f_equal. apply clamp_spec; assumption.
  - intros Hk. rewrite Hout. unfold confidence_of.
    rewrite (dict_get_missing d _ _ Hk). reflexivity.
  - intros e He. rewrite Hout, He. reflexivity.
  - intros Hv. rewrite Hout. destruct (confidence_of d); try contradiction; reflexivity.
  - intros s Hs Hf. rewrite Hout, Hs. cbn [py_float]. rewrite Hf. reflexivity.
  - vm_compute. reflexivity.
  - vm_compute. reflexivity.
Qed.

(** *** The sentiment label *)

(** C7, amended. When the sentiment field, converted to a string and
    trimmed, is not one of the four labels, as when the field is absent or
    is ["Angry"], the adapter raises
    [ValueError("Unexpected sentiment label: ...")]; and the label of a
    result it returns is that trimmed text, never another. *)
Theorem invalid_label_raises :
  let out := fst (analyze_sentiment rt p c model text tr) in
  (~ In (label_of rt d) SENTIMENT_LABELS -> out = Raise (InvalidLabel (label_of rt d)))
  /\ (has_key d (py "sentiment") = false -> out = Raise (InvalidLabel []))
  /\ (forall r reasoning, out = Return (r, reasoning) ->
        sentiment r = label_of rt d /\ In (label_of rt d) SENTIMENT_LABELS)
  /\ analysis_of (pyq "{'sentiment':'Angry','confidence':0.9,'explanation':'ok','key_phrases':[]}")
     = Raise (InvalidLabel (py "Angry")).
Proof.
  intros out.
  assert (Hout : out = finish rt msg (JObj d)) by apply analyze_sentiment_object.
  unfold finish in Hout.
  assert (Hbad : ~ In (label_of rt d) SENTIMENT_LABELS ->
                 out = Raise (InvalidLabel (label_of rt d))).
  { intros Hl. apply str_in_false in Hl.
    rewrite Hout, build_result_object, Hl. reflexivity. }
  refine (conj Hbad (conj _ (conj _ _))).
  - intros Hk.
    assert (Hlabel : label_of rt d = []).
    { unfold label_of. rewrite (dict_get_missing d _ _ Hk). reflexivity. }
    rewrite <- Hlabel. apply Hbad. rewrite Hlabel.
    apply str_in_false. reflexivity.
  - intros r reasoning Hr. rewrite Hr in Hout.
    destruct (build_result rt (JObj d)) as [r0|e] eqn:Hr0; [|discriminate Hout].
    injection Hout as -> _.
    apply build_result_inv in Hr0 as (d0 & x & Hd & Hl & _ & ->).
    injection Hd as <-. split; [reflexivity | apply str_in_In, Hl].
  - vm_compute. reflexivity.
Qed.

(** C9. Label validation ignores surrounding whitespace and respects
    letter case: a field that is a label once trimmed passes and is
    stored trimmed (["  Positive "] gives [Positive]); a field that
    differs from a label in letter case only (["positive"]) makes the
    adapter raise the invalid-label error. *)
Theorem label_validation_whitespace_case (s : pystr) :
  dict_get d (py "sentiment") (JStr []) = JStr s ->
  let out := fst (analyze_sentiment rt p c model text tr) in
  (In (strip s) SENTIMENT_LABELS ->
     out = match py_float rt (confidence_of d) with
           | Return x =>
               Return ({| sentiment := strip s;
                          confidence := clamp x;
                          explanation := explanation_of rt d;
                          key_phrases := normalize_phrases rt (phrases_of d) |},
                       message_reasoning msg)
           | Raise e => Raise e
           end)
  /\ (forall l, In l SENTIMENT_LABELS -> s <> l ->
        map ascii_lower s = map ascii_lower l ->
        out = Raise (InvalidLabel s))
  /\ analysis_of (pyq "{'sentiment':'  Positive ','confidence':0.9,'explanation':'ok','key_phrases':[]}")
     = Return ({| sentiment := py "Positive";
                  confidence := S754_finite false 8106479329266893 (-53);
                  explanation := py "ok";
                  key_phrases := [] |}, [])
  /\ analysis_of (pyq "{'sentiment':'positive','confidence':0.9,'explanation':'ok','key_phrases':[]}")
     = Raise (InvalidLabel (py "positive")).
Proof.
  intros Hs out.
  assert (Hlabel : label_of rt d = strip s) by (unfold label_of; rewrite Hs; reflexivity).
  refine (conj _ (conj _ (conj _ _))).
  - intros Hin. unfold out.
    rewrite analyze_sentiment_labelled, Hlabel; [reflexivity|].
    rewrite Hlabel. apply str_in_In, Hin.
  - intros l Hl Hne Hcase.
    destruct (case_variant_rejected s l Hl Hne Hcase) as [Hstrip Hnot].
    unfold out. rewrite analyze_sentiment_object. unfold finish.
    rewrite build_result_object, Hlabel, Hstrip.
    apply str_in_false in Hnot. rewrite Hnot. reflexivity.
  - vm_compute. reflexivity.
  - vm_compute. reflexivity.
Qed.

End Object.

End Answered.

End Adapter.

(** ** The theorems at closed instances *)

Lemma analyze_sentiment_invariant_witness :
  analysis_of (pyq "{'sentiment':'Mixed','confidence':0.73,'explanation':'...','key_phrases':['a','b']}")
  = Return ({| sentiment := py "Mixed";
               confidence := S754_finite false 6575255455960924 (-53);
               explanation := py "...";
               key_phrases := [py "a"; py "b"] |}, [])
  /\ In (py "Mixed") SENTIMENT_LABELS
  /\ float_le f_zero (S754_finite false 6575255455960924 (-53)) = true
  /\ float_le (S754_finite false 6575255455960924 (-53)) f_one = true
  /\ (List.length [py "a"; py "b"] <= 12)%nat.
Proof.
  split; [vm_compute; reflexivity|].
  apply (analyze_sentiment_invariant plain_runtime
           (replying (pyq "{'sentiment':'Mixed','confidence':0.73,'explanation':'...','key_phrases':['a','b']}"))
           a_client a_model a_text []
           {| sentiment := py "Mixed";
              confidence := S754_finite false 6575255455960924 (-53);
              explanation := py "...";
              key_phrases := [py "a"; py "b"] |} []).
  vm_compute. reflexivity.
Defined.

(** C4, as stated, fails: a reply whose confidence is [null] makes the
    adapter raise [TypeError], and one whose confidence is the string
    ["high"] makes it raise [ValueError]; neither returns a result with
    confidence 0. *)
Lemma non_numeric_confidence_raises :
  analysis_of (pyq "{'sentiment':'Neutral','confidence':null,'explanation':'ok','key_phrases':[]}")
  = Raise (mk_exn TypeError
             (py "float() argument must be a string or a real number, not 'NoneType'"))
  /\ confidence_in
       (analysis_of (pyq "{'sentiment':'Neutral','confidence':null,'explanation':'ok','key_phrases':[]}"))
     <> Some f_zero
  /\ raised
       (analysis_of (pyq "{'sentiment':'Neutral','confidence':'high','explanation':'ok','key_phrases':[]}"))
     = Some ValueError
  /\ confidence_in
       (analysis_of (pyq "{'sentiment':'Neutral','confidence':'high','explanation':'ok','key_phrases':[]}"))
     <> Some f_zero.
Proof.
  repeat split; try (vm_compute; reflexivity); vm_compute; discriminate.
Qed.

Lemma every_runtime_rejects_non_numeric (rt : runtime) :
  fst (analyze_sentiment rt
         (replying (pyq "{'sentiment':'Neutral','confidence':null,'explanation':'ok','key_phrases':[]}"))
         a_client a_model a_text [])
  = Raise (mk_exn TypeError
             (py "float() argument must be a string or a real number, not 'NoneType'"))
  /\ raised
       (fst (analyze_sentiment rt
               (replying (pyq "{'sentiment':'Neutral','confidence':'high','explanation':'ok','key_phrases':[]}"))
               a_client a_model a_text []))
     = Some ValueError.
Proof. split; vm_compute; reflexivity. Qed.

Lemma confidence_clamped_witness :
  answers plain_runtime (replying (pyq "{'sentiment':'Neutral','explanation':'ok'}"))
    a_client a_model a_text (reply_message (pyq "{'sentiment':'Neutral','explanation':'ok'}"))
  /\ parse_content (message_text (reply_message (pyq "{'sentiment':'Neutral','explanation':'ok'}")))
     = Return (JObj [(py "sentiment", JStr (py "Neutral")); (py "explanation", JStr (py "ok"))])
  /\ str_in (label_of plain_runtime
               [(py "sentiment", JStr (py "Neutral")); (py "explanation", JStr (py "ok"))])
       SENTIMENT_LABELS = true
  /\ confidence_in (analysis_of (pyq "{'sentiment':'Neutral','explanation':'ok'}")) = Some f_zero.
Proof.
  assert (Hp : parse_content
                 (message_text (reply_message (pyq "{'sentiment':'Neutral','explanation':'ok'}")))
               = Return (JObj [(py "sentiment", JStr (py "Neutral"));
                               (py "explanation", JStr (py "ok"))]))
    by (vm_compute; reflexivity).
  assert (Hl : str_in (label_of plain_runtime
                         [(py "sentiment", JStr (py "Neutral"));
                          (py "explanation", JStr (py "ok"))])
                 SENTIMENT_LABELS = true)
    by (vm_compute; reflexivity).
  refine (conj (replying_answers _ _ _ _ _) (conj Hp (conj Hl _))).
  exact (proj1 (proj2 (confidence_clamped plain_runtime _ a_client a_model a_text [] _
                         (replying_answers _ _ _ _ _) _ Hp Hl))
           eq_refl).
Defined.

Lemma key_phrases_normalized_witness :
  analysis_of many_phrases = Return (many_phrases_result, [])
  /\ exists msg d,
       answers plain_runtime (replying many_phrases) a_client a_model a_text msg
       /\ parse_content (message_text msg) = Return (JObj d)
       /\ key_phrases many_phrases_result = spec_key_phrases plain_runtime (phrases_of d)
       /\ ((forall l, phrases_of d <> JArr l) -> key_phrases many_phrases_result = [])
       /\ (forall l, phrases_of d = JArr l ->
             let trimmed := map (fun x => strip (py_str plain_runtime x)) l in
             key_phrases many_phrases_result = firstn 12 (filter non_empty trimmed)
             /\ ((12 < List.length (filter non_empty trimmed))%nat ->
                 List.length (key_phrases many_phrases_result) = 12%nat)
             /\ ((12 < List.length l)%nat ->
                 forallb non_empty (firstn 12 trimmed) = true ->
                 key_phrases many_phrases_result = firstn 12 trimmed)).
Proof.
  split; [vm_compute; reflexivity|].
  apply (key_phrases_normalized plain_runtime (replying many_phrases) a_client a_model
           a_text [] many_phrases_result []).
  vm_compute. reflexivity.
Defined.

Lemma brace_span_fallback_witness :
  answers plain_runtime (replying (py "I cannot classify this text.")) a_client a_model a_text
    (reply_message (py "I cannot classify this text."))
  /\ loads (message_text (reply_message (py "I cannot classify this text."))) = None
  /\ ~ In 123%N (message_text (reply_message (py "I cannot classify this text.")))
  /\ analysis_of (py "I cannot classify this text.") = Raise MalformedOutput.
Proof.
  assert (Hn : loads (message_text (reply_message (py "I cannot classify this text."))) = None)
    by (vm_compute; reflexivity).
  assert (Hb : ~ In 123%N (message_text (reply_message (py "I cannot classify this text.")))).
  { vm_compute. intros H.
    repeat (destruct H as [H|H]; [discriminate H|]). exact H. }
  refine (conj (replying_answers _ _ _ _ _) (conj Hn (conj Hb _))).
  exact (proj2
           (proj1 (proj2 (brace_span_fallback plain_runtime _ a_client a_model a_text [] _
                            (replying_answers _ _ _ _ _)))
              Hn)
           (or_introl Hb)).
Defined.

(** C7, as stated, fails: the field [" Positive"] is none of the four
    labels, yet the adapter returns a result, with the label trimmed. *)
Lemma padded_label_returns :
  parse_content
    (message_text
       (reply_message (pyq "{'sentiment':' Positive','confidence':0.9,'explanation':'ok','key_phrases':[]}")))
  = Return (JObj [ (py "sentiment", JStr (py " Positive"));
                   (py "confidence", JFloat (S754_finite false 8106479329266893 (-53)));
                   (py "explanation", JStr (py "ok"));
                   (py "key_phrases", JArr []) ])
  /\ ~ In (py " Positive") SENTIMENT_LABELS
  /\ analysis_of (pyq "{'sentiment':' Positive','confidence':0.9,'explanation':'ok','key_phrases':[]}")
     = Return ({| sentiment := py "Positive";
                  confidence := S754_finite false 8106479329266893 (-53);
                  explanation := py "ok";
                  key_phrases := [] |}, []).
Proof.
  split; [vm_compute; reflexivity|].
  split; [|vm_compute; reflexivity].
  apply str_in_false. vm_compute. reflexivity.
Qed.

Lemma every_runtime_accepts_padded_label (rt : runtime) :
  fst (analyze_sentiment rt
         (replying (pyq "{'sentiment':' Positive','confidence':0.9,'explanation':'ok','key_phrases':[]}"))
         a_client a_model a_text [])
  = Return ({| sentiment := py "Positive";
               confidence := S754_finite false 8106479329266893 (-53);
               explanation := py "ok";
               key_phrases := [] |}, []).
Proof. vm_compute. reflexivity. Qed.

Lemma invalid_label_raises_witness :
  answers plain_runtime (replying (pyq "{'sentiment':'Furious','confidence':0.5}"))
    a_client a_model a_text (reply_message (pyq "{'sentiment':'Furious','confidence':0.5}"))
  /\ parse_content (message_text (reply_message (pyq "{'sentiment':'Furious','confidence':0.5}")))
     = Return (JObj [ (py "sentiment", JStr (py "Furious"));
                      (py "confidence", JFloat (S754_finite false 4503599627370496 (-53))) ])
  /\ ~ In (py "Furious") SENTIMENT_LABELS
  /\ analysis_of (pyq "{'sentiment':'Furious','confidence':0.5}")
     = Raise (InvalidLabel (py "Furious")).
Proof.
  assert (Hp : parse_content
                 (message_text (reply_message (pyq "{'sentiment':'Furious','confidence':0.5}")))
               = Return (JObj [ (py "sentiment", JStr (py "Furious"));
                                (py "confidence",
                                  JFloat (S754_finite false 4503599627370496 (-53))) ]))
    by (vm_compute; reflexivity).
  assert (Hl : ~ In (py "Furious") SENTIMENT_LABELS)
    by (apply str_in_false; vm_compute; reflexivity).
  refine (conj (replying_answers _ _ _ _ _) (conj Hp (conj Hl _))).
  exact (proj1 (invalid_label_raises plain_runtime _ a_client a_model a_text [] _
                  (replying_answers _ _ _ _ _) _ Hp)
           Hl).
Defined.

Lemma label_validation_whitespace_case_witness :
  answers plain_runtime (replying (pyq "{'sentiment':'NEGATIVE','confidence':0.5}"))
    a_client a_model a_text (reply_message (pyq "{'sentiment':'NEGATIVE','confidence':0.5}"))
  /\ parse_content (message_text (reply_message (pyq "{'sentiment':'NEGATIVE','confidence':0.5}")))
     = Return (JObj [ (py "sentiment", JStr (py "NEGATIVE"));
                      (py "confidence", JFloat (S754_finite false 4503599627370496 (-53))) ])
  /\ dict_get [ (py "sentiment", JStr (py "NEGATIVE"));
                (py "confidence", JFloat (S754_finite false 4503599627370496 (-53))) ]
       (py "sentiment") (JStr [])
     = JStr (py "NEGATIVE")
  /\ In (py "Negative") SENTIMENT_LABELS
  /\ py "NEGATIVE" <> py "Negative"
  /\ map ascii_lower (py "NEGATIVE") = map ascii_lower (py "Negative")
  /\ analysis_of (pyq "{'sentiment':'NEGATIVE','confidence':0.5}")
     = Raise (InvalidLabel (py "NEGATIVE")).
Proof.
  assert (Hp : parse_content
                 (message_text (reply_message (pyq "{'sentiment':'NEGATIVE','confidence':0.5}")))
               = Return (JObj [ (py "sentiment", JStr (py "NEGATIVE"));
                                (py "confidence",
                                  JFloat (S754_finite false 4503599627370496 (-53))) ]))
    by (vm_compute; reflexivity).
  assert (Hin : In (py "Negative") SENTIMENT_LABELS) by (right; left; reflexivity).
  assert (Hne : py "NEGATIVE" <> py "Negative") by (vm_compute; discriminate).
  refine (conj (replying_answers _ _ _ _ _)
            (conj Hp (conj eq_refl (conj Hin (conj Hne (conj eq_refl _)))))).
  exact (proj1 (proj2 (label_validation_whitespace_case plain_runtime _ a_client a_model
                         a_text [] _ (replying_answers _ _ _ _ _) _ Hp
                         (py "NEGATIVE") eq_refl))
           (py "Negative") Hin Hne eq_refl).
Defined.

Lemma non_object_reply_raises_witness :
  answers plain_runtime (replying (py "[1, 2]")) a_client a_model a_text
    (reply_message (py "[1, 2]"))
  /\ loads (message_text (reply_message (py "[1, 2]"))) = Some (JArr [JInt 1; JInt 2])
  /\ (forall d, JArr [JInt 1; JInt 2] <> JObj d)
  /\ raised (analysis_of (py "[1, 2]")) = Some AttributeError.
Proof.
  assert (Hl : loads (message_text (reply_message (py "[1, 2]")))
               = Some (JArr [JInt 1; JInt 2]))
    by (vm_compute; reflexivity).
  assert (Hn : forall d, JArr [JInt 1; JInt 2] <> JObj d) by (intros d; discriminate).
  refine (conj (replying_answers _ _ _ _ _) (conj Hl (conj Hn _))).
  destruct (non_object_reply_raises plain_runtime _ a_client a_model a_text [] _
              (replying_answers _ _ _ _ _) _ Hl Hn)
    as (m & Hm & _).
  unfold analysis_of. rewrite Hm. reflexivity.
Defined.

(** * Further properties *)

(** ** Trimming *)

Lemma lstrip_pad (l s : pystr) : forallb is_space l = true -> lstrip (l ++ s) = lstrip s.
Proof.
  induction l as [|c l IH]; cbn; [reflexivity|].
  intros H. apply andb_true_iff in H as [Hc Hl]. rewrite Hc. apply IH, Hl.
Qed.

Lemma lstrip_app_keep (l t : pystr) (c : N) :
  is_space c = false -> lstrip (l ++ c :: t) = lstrip l ++ c :: t.
Proof.
  intros Hc. induction l as [|x l IH]; cbn.
  - rewrite Hc. reflexivity.
  - destruct (is_space x); [exact IH | reflexivity].
Qed.

Lemma rstrip_cons (c : N) (s : pystr) : is_space c = false -> rstrip (c :: s) = c :: rstrip s.
Proof.
  intros Hc. unfold rstrip. cbn [rev].
  rewrite (lstrip_app_keep (rev s) [] c Hc), rev_app_distr. reflexivity.
Qed.

Lemma forallb_rev {A} (f : A -> bool) (l : list A) : forallb f (rev l) = forallb f l.
Proof.
  induction l as [|x l IH]; [reflexivity|].
  cbn. rewrite forallb_app, IH. cbn. rewrite andb_true_r. apply andb_comm.
Qed.

Lemma rstrip_pad (s r : pystr) : forallb is_space r = true -> rstrip (s ++ r) = rstrip s.
Proof.
  intros H. unfold rstrip. rewrite rev_app_distr, lstrip_pad; [reflexivity|].
  rewrite forallb_rev. exact H.
Qed.

(** Whitespace around a string does not change its [strip()]. *)
Lemma strip_pad (l s r : pystr) :
  forallb is_space l = true -> forallb is_space r = true ->
  strip (l ++ s ++ r) = strip s.
Proof.
  intros Hl Hr. unfold strip. rewrite (lstrip_pad l _ Hl).
  induction s as [|c s IH]; cbn [app lstrip].
  - rewrite (lstrip_all_space r Hr). reflexivity.
  - destruct (is_space c); [exact IH|].
    change (c :: s ++ r) with ((c :: s) ++ r). apply rstrip_pad, Hr.
Qed.

Lemma lstrip_starts (s : pystr) : is_space (hd 0%N (lstrip s)) = false.
Proof.
  induction s as [|c s IH]; cbn; [reflexivity|].
  destruct (is_space c) eqn:Hc; [exact IH | exact Hc].
Qed.

Lemma lstrip_fixed (s : pystr) : is_space (hd 0%N s) = false -> lstrip s = s.
Proof. destruct s as [|c s]; cbn; [reflexivity|]. intros ->. reflexivity. Qed.

Lemma rstrip_starts (s : pystr) :
  is_space (hd 0%N s) = false -> is_space (hd 0%N (rstrip s)) = false.
Proof.
  destruct s as [|c s]; [reflexivity|]. cbn [hd]. intros Hc.
  rewrite (rstrip_cons c s Hc). exact Hc.
Qed.

Lemma rstrip_ends (s : pystr) : is_space (last (rstrip s) 0%N) = false.
Proof.
  unfold rstrip. generalize (lstrip_starts (rev s)).
  destruct (lstrip (rev s)) as [|c t]; [reflexivity|].
  cbn [hd rev]. rewrite last_last. intros H. exact H.
Qed.

Lemma rstrip_fixed (s : pystr) : is_space (last s 0%N) = false -> rstrip s = s.
Proof.
  intros H. unfold rstrip. rewrite lstrip_fixed; [apply rev_involutive|].
  destruct s as [|c s] using rev_ind; [reflexivity|].
  rewrite last_last in H. rewrite rev_app_distr. exact H.
Qed.

(** A stripped string neither starts nor ends with whitespace. *)
Lemma strip_trimmed (s : pystr) : trimmed (strip s).
Proof.
  unfold trimmed, strip. split; [apply rstrip_starts, lstrip_starts | apply rstrip_ends].
Qed.

Lemma strip_fixed (s : pystr) : trimmed s -> strip s = s.
Proof.
  intros [Hh Hl]. unfold strip. rewrite (lstrip_fixed s Hh). apply rstrip_fixed, Hl.
Qed.

(** [strip()] is idempotent. *)
Lemma strip_idempotent (s : pystr) : strip (strip s) = strip s.
Proof. apply strip_fixed, strip_trimmed. Qed.

Lemma strip_cons_head (c : N) (t : pystr) :
  is_space c = false -> hd 0%N (strip (c :: t)) = c.
Proof.
  intros Hc. unfold strip. rewrite (lstrip_head c t Hc), (rstrip_cons c t Hc). reflexivity.
Qed.

(** ** The key check, further *)

(** X1. [_looks_like_openai_key] accepts a key exactly when, once
    trimmed, it is one of the prefixes [sk-], [sess-], [rk-] followed by at
    least one character that is not a line feed, or it has 20 characters
    or more, whatever they are.  An accepted key has at least 4 characters
    once trimmed; a bare prefix is rejected. *)
Theorem key_check_shape (key : pystr) :
  (_looks_like_openai_key key = true <->
   (exists pre c rest,
       In pre [py "sk-"; py "sess-"; py "rk-"] /\ strip key = pre ++ c :: rest /\ c <> 10%N)
   \/ (20 <= List.length (strip key))%nat)
  /\ (_looks_like_openai_key key = true -> (4 <= List.length (strip key))%nat)
  /\ (In (strip key) [py "sk-"; py "sess-"; py "rk-"] -> _looks_like_openai_key key = false).
Proof.
  assert (Hshape : _looks_like_openai_key key = true <->
            (exists pre c rest,
                In pre [py "sk-"; py "sess-"; py "rk-"]
                /\ strip key = pre ++ c :: rest /\ c <> 10%N)
            \/ (20 <= List.length (strip key))%nat).
  { rewrite looks_like_openai_key_spec, key_prefix_match_spec. split.
    - intros [_ H]. exact H.
    - intros H. split; [|exact H].
      destruct H as [(pre & c & rest & _ & -> & _)|H].
      + destruct pre; discriminate.
      + destruct (strip key); [cbn in H; lia | discriminate]. }
  refine (conj Hshape (conj _ _)).
  - intros H. apply Hshape in H as [(pre & c & rest & Hin & -> & _)|H]; [|lia].
    rewrite length_app. cbn [List.length].
    repeat (destruct Hin as [<-|Hin]; [cbn; lia|]). contradiction.
  - intros Hin. unfold _looks_like_openai_key.
    repeat (destruct Hin as [<-|Hin]; [reflexivity|]). contradiction.
Qed.

(** X2. Whitespace before and after a key does not change the verdict of
    [_looks_like_openai_key]. *)
Theorem key_check_ignores_padding (l key r : pystr) :
  forallb is_space l = true -> forallb is_space r = true ->
  _looks_like_openai_key (l ++ key ++ r) = _looks_like_openai_key key.
Proof.
  intros Hl Hr. unfold _looks_like_openai_key. rewrite (strip_pad l key r Hl Hr). reflexivity.
Qed.

Lemma key_check_ignores_padding_witness :
  forallb is_space (py "  ") = true
  /\ forallb is_space [9%N; 10%N] = true
  /\ _looks_like_openai_key (py "  " ++ py "sk-abc" ++ [9%N; 10%N])
     = _looks_like_openai_key (py "sk-abc").
Proof.
  refine (conj eq_refl (conj eq_refl _)).
  exact (key_check_ignores_padding (py "  ") (py "sk-abc") [9%N; 10%N] eq_refl eq_refl).
Defined.

(** ** The key validator, further *)

Lemma validation_call_trace (p : provider) (key : pystr) (tr : list event) :
  snd (validation_call p key tr)
  = tr ++ (if openai_installed p then
             NewClient key
             :: match new_client p key with
                | Return _ => [ModelsList key]
                | Raise _ => []
                end
           else []).
Proof.
  unfold validation_call, _get_client, bind, call, ret, raise.
  destruct (openai_installed p); [|cbn; rewrite app_nil_r; reflexivity].
  destruct (new_client p key); cbn [snd client_key].
  - rewrite <- app_assoc. reflexivity.
  - reflexivity.
Qed.

Lemma validate_api_key_trace (p : provider) (key : pystr) (tr : list event) :
  snd (validate_api_key p key tr)
  = tr ++ (if _looks_like_openai_key key && openai_installed p then
             NewClient key
             :: match new_client p key with
                | Return _ => [ModelsList key]
                | Raise _ => []
                end
           else []).
Proof.
  unfold validate_api_key.
  destruct (_looks_like_openai_key key); cbn [negb andb];
    [|cbn; rewrite app_nil_r; reflexivity].
  unfold try_except. rewrite validation_body.
  rewrite <- validation_call_trace.
  destruct (validation_call p key tr) as [[[]|e] tr1] eqn:Hv; [reflexivity|].
  destruct (validation_verdict p e tr1 (validation_call_raises p key tr tr1 e Hv))
    as (b & msg & Hd & _).
  rewrite Hd. reflexivity.
Qed.

(** X3. The calls [validate_api_key] makes: none for a key that fails the
    pre-check or when the [openai] package is missing; otherwise the
    construction of a client and, when that succeeds, one listing of the
    models, both with the key as it was given (not trimmed), and nothing
    else, whatever the provider answers: at most two calls, and never a
    completion request. *)
Theorem validate_api_key_calls (p : provider) (key : pystr) (tr : list event) :
  exists made,
    snd (validate_api_key p key tr) = tr ++ made
    /\ made = (if _looks_like_openai_key key && openai_installed p then
                 NewClient key
                 :: match new_client p key with
                    | Return _ => [ModelsList key]
                    | Raise _ => []
                    end
               else [])
    /\ (List.length made <= 2)%nat
    /\ Forall (fun ev => ev = NewClient key \/ ev = ModelsList key) made.
Proof.
  eexists. split; [apply validate_api_key_trace|]. split; [reflexivity|].
  destruct (_looks_like_openai_key key && openai_installed p);
    [|split; [cbn; lia | constructor]].
  destruct (new_client p key); cbn [List.length]; (split; [lia|]).
  - constructor; [left; reflexivity|]. constructor; [right; reflexivity | constructor].
  - constructor; [left; reflexivity | constructor].
Qed.

(** The verdict on an exception of each class when the [openai] import
    succeeded. *)
Lemma installed_verdict (p : provider) (e : exn) (tr : list event) :
  openai_installed p = true ->
  dispatch
    [ (imported p AuthenticationError,
        fun _ => ret (false, py "Authentication failed: invalid or revoked API key."));
      (imported p RateLimitError,
        fun _ => ret (true, py "Key is valid, but you are rate-limited right now."));
      (imported p APIConnectionError,
        fun _ => ret (false, py "Could not reach OpenAI (network/connectivity issue)."));
      (imported p APIError,
        fun e => ret (false, py "OpenAI API error while validating key: " ++ exn_msg e));
      (imported p OpenAIError,
        fun e => ret (false, py "OpenAI error while validating key: " ++ exn_msg e));
      (Exception,
        fun e => ret (false, py "Unexpected error while validating key: " ++ exn_msg e)) ]
    e tr
  = (Return
       match exn_cls e with
       | AuthenticationError =>
           (false, py "Authentication failed: invalid or revoked API key.")
       | RateLimitError => (true, py "Key is valid, but you are rate-limited right now.")
       | APIConnectionError | APITimeoutError =>
           (false, py "Could not reach OpenAI (network/connectivity issue).")
       | APIError | APIStatusError =>
           (false, py "OpenAI API error while validating key: " ++ exn_msg e)
       | OpenAIError => (false, py "OpenAI error while validating key: " ++ exn_msg e)
       | _ => (false, py "Unexpected error while validating key: " ++ exn_msg e)
       end, tr).
Proof.
  intros Hi. unfold imported. rewrite Hi. destruct e as [[] m]; reflexivity.
Qed.

(** X4. The answer of [validate_api_key] for a key that passes the
    pre-check, with the [openai] package at hand: success of the listing
    gives [(True, "Key validated successfully.")], and an exception gives
    the answer of the first [except] clause its class falls under: a
    time-out counts as a connectivity failure, any other status error of
    the API (other than a rejected key or a rate limit) as an API error
    with the error's message, and an exception that is not the package's
    as unexpected. *)
Theorem validate_api_key_verdicts (p : provider) (key : pystr) (tr : list event) :
  openai_installed p = true -> _looks_like_openai_key key = true ->
  fst (validate_api_key p key tr)
  = Return
      match fst (validation_call p key tr) with
      | Return _ => (true, py "Key validated successfully.")
      | Raise e =>
          match exn_cls e with
          | AuthenticationError =>
              (false, py "Authentication failed: invalid or revoked API key.")
          | RateLimitError => (true, py "Key is valid, but you are rate-limited right now.")
          | APIConnectionError | APITimeoutError =>
              (false, py "Could not reach OpenAI (network/connectivity issue).")
          | APIError | APIStatusError =>
              (false, py "OpenAI API error while validating key: " ++ exn_msg e)
          | OpenAIError => (false, py "OpenAI error while validating key: " ++ exn_msg e)
          | _ => (false, py "Unexpected error while validating key: " ++ exn_msg e)
          end
      end.
Proof.
  intros Hi Hk. unfold validate_api_key. rewrite Hk. cbn [negb].
  unfold try_except. rewrite validation_body.
  destruct (validation_call p key tr) as [[[]|e] tr1]; cbn [fst]; [reflexivity|].
  rewrite (installed_verdict p e tr1 Hi). reflexivity.
Qed.

Lemma validate_api_key_verdicts_witness :
  openai_installed (provider_with (Raise timed_out) (Return [])) = true
  /\ _looks_like_openai_key a_key = true
  /\ fst (validate_api_key (provider_with (Raise timed_out) (Return [])) a_key [])
     = Return (false, py "Could not reach OpenAI (network/connectivity issue).").
Proof.
  refine (conj eq_refl (conj eq_refl _)).
  exact (validate_api_key_verdicts (provider_with (Raise timed_out) (Return [])) a_key []
           eq_refl eq_refl).
Defined.

(** X5. Without the [openai] package every name imported from it is bound
    to [Exception], so the first clause, [except AuthenticationError],
    takes the [RuntimeError] of [_get_client]: a key that passes the
    pre-check is answered
    [(False, "Authentication failed: invalid or revoked API key.")], and
    no call is made. *)
Theorem validate_api_key_without_openai (p : provider) (key : pystr) (tr : list event) :
  openai_installed p = false -> _looks_like_openai_key key = true ->
  validate_api_key p key tr
  = (Return (false, py "Authentication failed: invalid or revoked API key."), tr).
Proof.
  intros Hi Hk. unfold validate_api_key. rewrite Hk. cbn [negb].
  unfold try_except, _get_client, bind, imported. rewrite Hi. reflexivity.
Qed.

Lemma validate_api_key_without_openai_witness :
  openai_installed without_openai = false
  /\ _looks_like_openai_key a_key = true
  /\ validate_api_key without_openai a_key []
     = (Return (false, py "Authentication failed: invalid or revoked API key."), []).
Proof.
  refine (conj eq_refl (conj eq_refl _)).
  exact (validate_api_key_without_openai without_openai a_key [] eq_refl eq_refl).
Defined.

(** ** The adapter, further *)

Lemma label_starts_with_letter (l : pystr) :
  In l SENTIMENT_LABELS -> is_letter (hd 0%N l) = true.
Proof.
  unfold SENTIMENT_LABELS. intros H.
  repeat (destruct H as [<-|H]; [reflexivity|]). contradiction.
Qed.

Lemma digits_of_pos_digits (fuel : nat) (n : N) (acc : pystr) :
  forallb is_digit acc = true -> forallb is_digit (digits_of_pos fuel n acc) = true.
Proof.
  revert n acc; induction fuel as [|fuel IH]; intros n acc Hacc; [exact Hacc|].
  cbn [digits_of_pos].
  assert (Hd : forallb is_digit ((48 + n mod 10)%N :: acc) = true).
  { cbn [forallb]. rewrite Hacc, andb_true_r. unfold is_digit.
    pose proof (N.mod_upper_bound n 10 ltac:(discriminate)) as H.
    revert H. generalize (n mod 10)%N. intros k Hk.
    apply andb_true_iff. split; apply N.leb_le; lia. }
  destruct (n <? 10)%N; [exact Hd | apply IH, Hd].
Qed.

Lemma digits_of_pos_cons (fuel : nat) (n : N) (acc : pystr) :
  acc <> [] -> digits_of_pos fuel n acc <> [].
Proof.
  revert n acc; induction fuel as [|fuel IH]; intros n acc Hacc; [exact Hacc|].
  cbn [digits_of_pos]. destruct (n <? 10)%N; [discriminate | apply IH; discriminate].
Qed.

(** [str(n)] of an [int] that is not negative is a non-empty run of
    digits. *)
Lemma str_of_N_digits (n : N) : str_of_N n <> [] /\ forallb is_digit (str_of_N n) = true.
Proof.
  unfold str_of_N. split.
  - cbn [digits_of_pos]. destruct (n <? 10)%N; [discriminate|].
    apply digits_of_pos_cons. discriminate.
  - apply digits_of_pos_digits. reflexivity.
Qed.

Lemma digit_not_space (c : N) : is_digit c = true -> is_space c = false.
Proof.
  unfold is_digit, is_space. intros H.
  apply andb_true_iff in H as [H1 H2]. apply N.leb_le in H1, H2.
  repeat (apply orb_false_intro);
    try (apply N.eqb_neq; lia);
    apply andb_false_iff;
    first [ right; apply N.leb_gt; lia | left; apply N.leb_gt; lia ].
Qed.

Lemma digit_not_letter (c : N) : is_digit c = true -> is_letter c = false.
Proof.
  unfold is_digit, is_letter. intros H.
  apply andb_true_iff in H as [H1 H2]. apply N.leb_le in H1, H2.
  apply orb_false_intro; apply andb_false_iff; left; apply N.leb_gt; lia.
Qed.

(** [str(z)] holds no whitespace and starts with a digit or a minus sign. *)
Lemma str_of_Z_shape (z : Z) :
  Forall (fun c => is_space c = false) (str_of_Z z)
  /\ is_letter (hd 0%N (str_of_Z z)) = false.
Proof.
  assert (Hn : forall n, Forall (fun c => is_space c = false) (str_of_N n)
                         /\ is_letter (hd 0%N (str_of_N n)) = false).
  { intros n. destruct (str_of_N_digits n) as [Hne Hd]. split.
    - apply Forall_forall. intros c Hc. apply digit_not_space.
      exact (proj1 (forallb_forall _ _) Hd c Hc).
    - destruct (str_of_N n) as [|c s]; [contradiction|].
      cbn in Hd. apply andb_true_iff in Hd as [Hc _]. apply digit_not_letter, Hc. }
  destruct z as [|q|q]; cbn [str_of_Z]; try apply Hn.
  split; [constructor; [reflexivity | apply Hn] | reflexivity].
Qed.

(** The text of a value that is neither a string nor a float is none of
    the labels, even trimmed. *)
Lemma non_string_not_label (rt : runtime) (v : json) :
  match v with JNull | JBool _ | JInt _ | JArr _ | JObj _ => True | _ => False end ->
  str_in (strip (py_str rt v)) SENTIMENT_LABELS = false.
Proof.
  intros Hv. destruct v as [|[]|z| | |l|d]; try contradiction; try reflexivity;
    apply str_in_false; intros Hin; apply label_starts_with_letter in Hin;
    cbn [py_str py_repr] in Hin.
  - destruct (str_of_Z_shape z) as [Hs Hl].
    rewrite (strip_no_space _ Hs) in Hin. congruence.
  - change (py "[") with [91%N] in Hin. cbn [app] in Hin.
    rewrite strip_cons_head in Hin by reflexivity. discriminate Hin.
  - change (py "{") with [123%N] in Hin. cbn [app] in Hin.
    rewrite strip_cons_head in Hin by reflexivity. discriminate Hin.
Qed.

Lemma In_firstn {A} (x : A) (n : nat) (l : list A) : In x (firstn n l) -> In x l.
Proof.
  revert l; induction n as [|n IH]; intros [|y l] H; try contradiction.
  destruct H as [H|H]; [left; exact H | right; apply IH, H].
Qed.

Lemma normalize_phrases_In (rt : runtime) (v : json) (ph : pystr) :
  In ph (normalize_phrases rt v) ->
  exists x, ph = strip (py_str rt x) /\ ph <> [].
Proof.
  unfold normalize_phrases. intros H. apply In_firstn in H.
  apply in_map_iff in H as (x & <- & Hx). apply filter_In in Hx as [_ Hx].
  exists x. split; [reflexivity|]. destruct (strip (py_str rt x)); [discriminate Hx | discriminate].
Qed.

Lemma parse_content_blank : parse_content [] = Raise MalformedOutput.
Proof. reflexivity. Qed.

Section Replies.

Context (rt : runtime) (p : provider) (c : client) (model text : pystr)
  (tr : list event).

(** X6. An exception of the completion call leaves [analyze_sentiment] as
    it is, after that one call: the adapter handles none and does not try
    again. *)
Theorem provider_failure_propagates (e : exn) :
  chat_completions_create p (client_key c) (completion_request rt model text) = Raise e ->
  analyze_sentiment rt p c model text tr
  = (Raise e, tr ++ [ChatCompletion (client_key c) (completion_request rt model text)]).
Proof.
  intros H. rewrite analyze_sentiment_steps. cbn zeta. rewrite H. reflexivity.
Qed.

(** X7. A completion with no choice makes [analyze_sentiment] raise the
    [IndexError] of [resp.choices[0]]. *)
Theorem empty_choices_raise :
  chat_completions_create p (client_key c) (completion_request rt model text) = Return [] ->
  fst (analyze_sentiment rt p c model text tr)
  = Raise (mk_exn IndexError (py "list index out of range")).
Proof.
  intros H. rewrite analyze_sentiment_steps. cbn zeta. rewrite H. reflexivity.
Qed.

(** X11. In a result that [analyze_sentiment] returns, the explanation
    has no whitespace at either end, and every key phrase is non-empty
    with no whitespace at either end: trimming any of them again changes
    nothing. *)
Theorem result_texts_trimmed (r : SentimentResult) (reasoning : pystr) :
  fst (analyze_sentiment rt p c model text tr) = Return (r, reasoning) ->
  trimmed (explanation r)
  /\ strip (explanation r) = explanation r
  /\ forall ph, In ph (key_phrases r) -> ph <> [] /\ trimmed ph /\ strip ph = ph.
Proof.
  intros H.
  apply analyze_sentiment_inv in H as (msg & d & x & _ & _ & _ & _ & -> & _).
  cbn [explanation key_phrases]. unfold explanation_of.
  refine (conj (strip_trimmed _) (conj (strip_idempotent _) _)).
  intros ph Hph. apply normalize_phrases_In in Hph as (y & -> & Hne).
  exact (conj Hne (conj (strip_trimmed _) (strip_idempotent _))).
Qed.

(** X12. The reasoning trace that [analyze_sentiment] returns is the
    [reasoning_content] of the first message of the reply, and the empty
    string when that attribute is missing, [None] or empty; it is a
    string in every case, whatever the model. *)
Theorem reasoning_trace_returned (r : SentimentResult) (reasoning : pystr) :
  fst (analyze_sentiment rt p c model text tr) = Return (r, reasoning) ->
  exists msg, answers rt p c model text msg /\ reasoning = reasoning_text msg.
Proof.
  intros H.
  apply analyze_sentiment_inv in H as (msg & d & x & Ha & _ & _ & _ & _ & ->).
  exists msg. split; [exact Ha|].
  unfold message_reasoning, reasoning_text.
  destruct (reasoning_content msg) as [[|]|]; reflexivity.
Qed.

Section Reply.

Context (msg : message).
Hypothesis Hanswers : answers rt p c model text msg.

(** X8. A reply whose content is [None], empty or all whitespace makes
    [analyze_sentiment] raise [ValueError("Model did not return JSON.")]. *)
Theorem blank_reply_is_malformed :
  match content msg with
  | Some s => forallb is_space s = true
  | None => True
  end ->
  fst (analyze_sentiment rt p c model text tr) = Raise MalformedOutput.
Proof.
  intros Hb. rewrite (analyze_sentiment_answered rt p c model text tr msg Hanswers).
  assert (Ht : message_text msg = []).
  { unfold message_text. destruct (content msg); [apply strip_all_space, Hb | reflexivity]. }
  rewrite Ht, parse_content_blank. reflexivity.
Qed.

Section Fields.

Context (d : dict).
Hypothesis Hobject : parse_content (message_text msg) = Return (JObj d).

(** X9. A sentiment field that is [null], a boolean, an integer, an array
    or an object is never taken for a label: its text ([None], [True],
    digits, a bracketed list) is none of the four, and the adapter raises
    the invalid-label error with that text. *)
Theorem non_string_label_rejected :
  match dict_get d (py "sentiment") (JStr []) with
  | JNull | JBool _ | JInt _ | JArr _ | JObj _ => True
  | _ => False
  end ->
  fst (analyze_sentiment rt p c model text tr) = Raise (InvalidLabel (label_of rt d)).
Proof.
  intros Hv.
  rewrite (analyze_sentiment_object rt p c model text tr msg Hanswers d Hobject).
  unfold finish. rewrite build_result_object.
  unfold label_of at 1. rewrite (non_string_not_label rt _ Hv). reflexivity.
Qed.

(** X10. The confidence of the result for the values of the field that
    are no ordinary number: [NaN] gives [1.0] (no comparison with it
    holds, so [min] keeps [1.0]), [Infinity] gives [1.0], [-Infinity]
    gives [0.0], [true] gives [1.0] and [false] gives [0.0], and a string
    that [float] reads as a number counts as that number. *)
Theorem special_confidences :
  str_in (label_of rt d) SENTIMENT_LABELS = true ->
  let out := fst (analyze_sentiment rt p c model text tr) in
  (confidence_of d = JFloat S754_nan -> confidence_in out = Some f_one)
  /\ (confidence_of d = JFloat (S754_infinity false) -> confidence_in out = Some f_one)
  /\ (confidence_of d = JFloat (S754_infinity true) -> confidence_in out = Some f_zero)
  /\ (forall b, confidence_of d = JBool b ->
        confidence_in out = Some (if b then f_one else f_zero))
  /\ (forall s x, confidence_of d = JStr s -> float_of_str rt s = Some x ->
        confidence_in out = Some (clamp x)).
Proof.
  intros Hl out. unfold out.
  rewrite (analyze_sentiment_labelled rt p c model text tr msg Hanswers d Hobject Hl).
  refine (conj _ (conj _ (conj _ (conj _ _)))).
  - intros ->. reflexivity.
  - intros ->. reflexivity.
  - intros ->. reflexivity.
  - intros [] ->; reflexivity.
  - intros s x -> Hx. cbn [py_float]. rewrite Hx. reflexivity.
Qed.

End Fields.

End Reply.

End Replies.

Lemma provider_with_answers (rt : runtime) (listing : result unit) (msg : message)
    (c : client) (model text : pystr) :
  answers rt (provider_with listing (Return [msg])) c model text msg.
Proof. exists []. reflexivity. Qed.

Lemma provider_failure_propagates_witness :
  chat_completions_create (provider_with (Return tt) (Raise timed_out)) (client_key a_client)
    (completion_request plain_runtime a_model a_text)
  = Raise timed_out
  /\ analyze_sentiment plain_runtime (provider_with (Return tt) (Raise timed_out))
       a_client a_model a_text []
     = (Raise timed_out,
        [ChatCompletion (client_key a_client) (completion_request plain_runtime a_model a_text)]).
Proof.
  split; [reflexivity|].
  exact (provider_failure_propagates plain_runtime
           (provider_with (Return tt) (Raise timed_out)) a_client a_model a_text []
           timed_out eq_refl).
Defined.

Lemma empty_choices_raise_witness :
  chat_completions_create (provider_with (Return tt) (Return [])) (client_key a_client)
    (completion_request plain_runtime a_model a_text)
  = Return []
  /\ fst (analyze_sentiment plain_runtime (provider_with (Return tt) (Return []))
            a_client a_model a_text [])
     = Raise (mk_exn IndexError (py "list index out of range")).
Proof.
  split; [reflexivity|].
  exact (empty_choices_raise plain_runtime (provider_with (Return tt) (Return []))
           a_client a_model a_text [] eq_refl).
Defined.

Lemma result_texts_trimmed_witness :
  fst (analyze_sentiment plain_runtime (provider_with (Return tt) (Return [reasoned_reply]))
         a_client a_model a_text [])
  = Return ({| sentiment := py "Positive";
               confidence := S754_finite false 8106479329266893 (-53);
               explanation := py "fine";
               key_phrases := [py "great"] |}, py "The text praises the product.")
  /\ trimmed (py "fine")
  /\ strip (py "fine") = py "fine"
  /\ forall ph, In ph [py "great"] -> ph <> [] /\ trimmed ph /\ strip ph = ph.
Proof.
  split; [vm_compute; reflexivity|].
  apply (result_texts_trimmed plain_runtime
           (provider_with (Return tt) (Return [reasoned_reply])) a_client a_model a_text []
           {| sentiment := py "Positive";
              confidence := S754_finite false 8106479329266893 (-53);
              explanation := py "fine";
              key_phrases := [py "great"] |}
           (py "The text praises the product.")).
  vm_compute. reflexivity.
Defined.

Lemma reasoning_trace_returned_witness :
  fst (analyze_sentiment plain_runtime (provider_with (Return tt) (Return [reasoned_reply]))
         a_client a_model a_text [])
  = Return ({| sentiment := py "Positive";
               confidence := S754_finite false 8106479329266893 (-53);
               explanation := py "fine";
               key_phrases := [py "great"] |}, py "The text praises the product.")
  /\ exists msg,
       answers plain_runtime (provider_with (Return tt) (Return [reasoned_reply]))
         a_client a_model a_text msg
       /\ py "The text praises the product." = reasoning_text msg.
Proof.
  split; [vm_compute; reflexivity|].
  apply (reasoning_trace_returned plain_runtime
           (provider_with (Return tt) (Return [reasoned_reply])) a_client a_model a_text []
           {| sentiment := py "Positive";
              confidence := S754_finite false 8106479329266893 (-53);
              explanation := py "fine";
              key_phrases := [py "great"] |}).
  vm_compute. reflexivity.
Defined.

Lemma blank_reply_is_malformed_witness :
  answers plain_runtime
    (provider_with (Return tt) (Return [{| content := None; reasoning_content := None |}]))
    a_client a_model a_text {| content := None; reasoning_content := None |}
  /\ fst (analyze_sentiment plain_runtime
            (provider_with (Return tt)
               (Return [{| content := None; reasoning_content := None |}]))
            a_client a_model a_text [])
     = Raise MalformedOutput.
Proof.
  refine (conj (provider_with_answers _ _ _ _ _ _) _).
  exact (blank_reply_is_malformed plain_runtime _ a_client a_model a_text []
           {| content := None; reasoning_content := None |}
           (provider_with_answers _ _ _ _ _ _) I).
Defined.

Lemma non_string_label_rejected_witness :
  answers plain_runtime (replying (pyq "{'sentiment':null,'confidence':0.9}"))
    a_client a_model a_text (reply_message (pyq "{'sentiment':null,'confidence':0.9}"))
  /\ parse_content (message_text (reply_message (pyq "{'sentiment':null,'confidence':0.9}")))
     = Return (JObj [ (py "sentiment", JNull);
                      (py "confidence", JFloat (S754_finite false 8106479329266893 (-53))) ])
  /\ analysis_of (pyq "{'sentiment':null,'confidence':0.9}")
     = Raise (InvalidLabel (py "None")).
Proof.
  assert (Hp : parse_content
                 (message_text (reply_message (pyq "{'sentiment':null,'confidence':0.9}")))
               = Return (JObj [ (py "sentiment", JNull);
                                (py "confidence",
                                  JFloat (S754_finite false 8106479329266893 (-53))) ]))
    by (vm_compute; reflexivity).
  refine (conj (replying_answers _ _ _ _ _) (conj Hp _)).
  exact (non_string_label_rejected plain_runtime _ a_client a_model a_text [] _
           (replying_answers _ _ _ _ _)
           [ (py "sentiment", JNull);
             (py "confidence", JFloat (S754_finite false 8106479329266893 (-53))) ]
           Hp I).
Defined.

Lemma special_confidences_witness :
  answers plain_runtime (replying (pyq "{'sentiment':'Neutral','confidence':NaN}"))
    a_client a_model a_text (reply_message (pyq "{'sentiment':'Neutral','confidence':NaN}"))
  /\ parse_content
       (message_text (reply_message (pyq "{'sentiment':'Neutral','confidence':NaN}")))
     = Return (JObj [(py "sentiment", JStr (py "Neutral")); (py "confidence", JFloat S754_nan)])
  /\ confidence_in (analysis_of (pyq "{'sentiment':'Neutral','confidence':NaN}")) = Some f_one.
Proof.
  assert (Hp : parse_content
                 (message_text
                    (reply_message (pyq "{'sentiment':'Neutral','confidence':NaN}")))
               = Return (JObj [ (py "sentiment", JStr (py "Neutral"));
                                (py "confidence", JFloat S754_nan) ]))
    by (vm_compute; reflexivity).
  refine (conj (replying_answers _ _ _ _ _) (conj Hp _)).
  exact (proj1 (special_confidences plain_runtime _ a_client a_model a_text [] _
                  (replying_answers _ _ _ _ _) _ Hp eq_refl)
           eq_refl).
Defined.

(** ** The schema of the prompt *)

Lemma plain_char_scan (c : N) :
  plain_char c = true ->
  (c =? 34)%N = false /\ (c =? 92)%N = false /\ (c <=? 31)%N = false.
Proof.
  unfold plain_char. intros H.
  apply andb_true_iff in H as [H H92]. apply andb_true_iff in H as [H H34].
  apply andb_true_iff in H as [Hlo _].
  apply negb_true_iff in H92, H34. apply N.leb_le in Hlo.
  repeat split; try assumption. apply N.leb_gt. lia.
Qed.

(** The scanner reads back a string written without escapes. *)
Lemma scanstring_plain (s rest acc : pystr) :
  plain s = true -> scanstring (s ++ 34%N :: rest) acc = Some (rev acc ++ s, rest).
Proof.
  revert acc; induction s as [|c s IH]; intros acc Hs.
  - cbn [app scanstring]. rewrite N.eqb_refl, app_nil_r. reflexivity.
  - cbn [plain forallb] in Hs. apply andb_true_iff in Hs as [Hc Hs].
    cbn [app scanstring].
    destruct (plain_char_scan c Hc) as (-> & -> & ->).
    rewrite (IH (c :: acc) Hs). cbn [rev]. rewrite <- app_assoc. reflexivity.
Qed.

Lemma dumps_members (d : list (pystr * pystr)) :
  json_dumps d = 123%N :: join [44%N; 32%N] (map member_text d) ++ [125%N].
Proof. reflexivity. Qed.

Lemma skip_ws_keep (c : N) (r : pystr) : is_ws c = false -> skip_ws (c :: r) = c :: r.
Proof. intros H. cbn [skip_ws]. rewrite H. reflexivity. Qed.

Lemma scan_once_string (fuel : nat) (v rest : pystr) :
  plain v = true -> scan_once (S fuel) (34%N :: v ++ 34%N :: rest) = Scanned (JStr v) rest.
Proof.
  intros Hv. cbn [scan_once]. rewrite N.eqb_refl, (scanstring_plain v rest [] Hv).
  reflexivity.
Qed.

(** One member of an object, up to the comma or the closing brace [c]. *)
Lemma parse_member (fuel : nat) (k v r : pystr) (c : N) (acc : dict) :
  plain k = true -> plain v = true -> is_ws c = false ->
  parse_object (S (S fuel))
    (34%N :: k ++ 34%N :: 58%N :: 32%N :: 34%N :: v ++ 34%N :: c :: r) acc
  = if (c =? 125)%N then Scanned (JObj (dict_set k (JStr v) acc)) r
    else if (c =? 44)%N then parse_object (S fuel) (skip_ws r) (dict_set k (JStr v) acc)
    else Invalid.
Proof.
  intros Hk Hv Hc. cbn [parse_object]. rewrite N.eqb_refl.
  rewrite (scanstring_plain k _ [] Hk).
  rewrite (skip_ws_keep 58 _ eq_refl). rewrite N.eqb_refl.
  change (skip_ws (32%N :: 34%N :: v ++ 34%N :: c :: r))
    with (skip_ws (34%N :: v ++ 34%N :: c :: r)).
  rewrite (skip_ws_keep 34 _ eq_refl).
  rewrite (scan_once_string fuel v (c :: r) Hv).
  rewrite (skip_ws_keep c r Hc). reflexivity.
Qed.

Lemma join_cons (sep x y : pystr) (l : list pystr) :
  join sep (x :: y :: l) = x ++ sep ++ join sep (y :: l).
Proof. reflexivity. Qed.

Lemma parse_members (d : list (pystr * pystr)) :
  forall (k v : pystr) (acc : dict) (rest : pystr) (fuel : nat),
    plain k = true -> plain v = true ->
    forallb (fun kv => plain (fst kv) && plain (snd kv)) d = true ->
    (List.length d + 2 <= fuel)%nat ->
    parse_object fuel
      (join [44%N; 32%N] (map member_text ((k, v) :: d)) ++ 125%N :: rest) acc
    = Scanned
        (JObj (fold_left (fun a kv => dict_set (fst kv) (JStr (snd kv)) a) ((k, v) :: d) acc))
        rest.
Proof.
  induction d as [|[k' v'] d IH]; intros k v acc rest fuel Hk Hv Hd Hf.
  - destruct fuel as [|[|fuel]]; [cbn in Hf; lia | cbn in Hf; lia |].
    cbn [map join fold_left]. unfold member_text. cbn [fst snd app].
    repeat (rewrite <- app_assoc; cbn [app]).
    rewrite (parse_member fuel k v rest 125 acc Hk Hv eq_refl). reflexivity.
  - destruct fuel as [|[|fuel]]; [cbn in Hf; lia | cbn in Hf; lia |].
    cbn [forallb fst snd] in Hd. apply andb_true_iff in Hd as [Hkv Hd].
    apply andb_true_iff in Hkv as [Hk' Hv'].
    specialize (IH k' v' (dict_set k (JStr v) acc) rest (S fuel) Hk' Hv' Hd
                  ltac:(cbn [List.length] in Hf |- *; lia)).
    cbn [map] in IH |- *. rewrite join_cons.
    set (tail := join [44%N; 32%N] _) in *.
    cbn [fold_left fst snd] in IH |- *.
    unfold member_text at 1. cbn [fst snd app]. repeat (rewrite <- app_assoc; cbn [app]).
    rewrite (parse_member fuel k v _ 44 acc Hk Hv eq_refl).
    change ((44 =? 125)%N) with false. change ((44 =? 44)%N) with true. cbv iota.
    assert (Htail : exists t, tail = 34%N :: t).
    { unfold tail, member_text at 1.
      destruct (map member_text d); cbn [join app]; eexists; reflexivity. }
    destruct Htail as [t Ht].
    change (skip_ws (32%N :: tail ++ 125%N :: rest)) with (skip_ws (tail ++ 125%N :: rest)).
    rewrite Ht at 1. cbn [app]. rewrite (skip_ws_keep 34 _ eq_refl).
    change (34%N :: t ++ 125%N :: rest) with ((34%N :: t) ++ 125%N :: rest).
    rewrite <- Ht. exact IH.
Qed.

(** Setting a key that is not there appends it. *)
Lemma dict_set_fresh (k : pystr) (v : json) (acc : dict) :
  ~ In k (map fst acc) -> dict_set k v acc = acc ++ [(k, v)].
Proof.
  induction acc as [|[k' v'] acc IH]; intros H; [reflexivity|].
  cbn [dict_set app]. destruct (str_eqb k k') eqn:He.
  - apply str_eqb_eq in He. exfalso. apply H. left. symmetry. exact He.
  - rewrite IH; [reflexivity|]. intros Hin. apply H. right. exact Hin.
Qed.

Lemma fold_dict_set (d : list (pystr * pystr)) (acc : dict) :
  NoDup (map fst acc ++ map fst d) ->
  fold_left (fun a kv => dict_set (fst kv) (JStr (snd kv)) a) d acc
  = acc ++ map (fun kv => (fst kv, JStr (snd kv))) d.
Proof.
  revert acc; induction d as [|[k v] d IH]; intros acc H.
  - cbn. rewrite app_nil_r. reflexivity.
  - cbn [fold_left map fst snd] in *.
    rewrite dict_set_fresh.
    + rewrite IH.
      * rewrite <- app_assoc. reflexivity.
      * rewrite map_app. cbn [map fst]. rewrite <- app_assoc. exact H.
    + apply NoDup_remove_2 in H. intros Hin. apply H. apply in_or_app. left. exact Hin.
Qed.

Lemma join_length (sep : pystr) (l : list pystr) :
  Forall (fun x => x <> []) l -> (List.length l <= List.length (join sep l))%nat.
Proof.
  induction 1 as [|x l Hx Hl IH]; [apply Nat.le_refl|].
  destruct l as [|y l].
  - destruct x; [contradiction | cbn; lia].
  - rewrite join_cons, !length_app. unfold pystr in *.
    destruct x; [contradiction|]. cbn [List.length] in *. lia.
Qed.

(** X13. [json.loads] reads back what [json.dumps] writes for a [dict] of
    strings that need no escape: the object, with its keys in their
    order.  So the schema that line 93 puts into the prompt is JSON that
    the adapter's own decoder reads as the four keys and their
    descriptions. *)
Theorem dumps_loads_round_trip (d : list (pystr * pystr)) :
  forallb (fun kv => plain (fst kv) && plain (snd kv)) d = true ->
  NoDup (map fst d) ->
  loads (json_dumps d) = Some (as_object d).
Proof.
  intros Hd Hk. destruct d as [|[k v] d]; [reflexivity|].
  rewrite dumps_members. unfold loads, as_object.
  rewrite (skip_ws_keep 123 _ eq_refl).
  set (members := map member_text ((k, v) :: d)).
  assert (Hlen : (List.length ((k, v) :: d) <= List.length (join [44%N; 32%N] members))%nat).
  { unfold members. rewrite <- (length_map member_text ((k, v) :: d)).
    apply join_length. apply Forall_forall. intros x Hx.
    apply in_map_iff in Hx as (kv & <- & _). discriminate. }
  assert (Hm : exists t, join [44%N; 32%N] members = 34%N :: t).
  { unfold members. cbn [map]. unfold member_text at 1.
    destruct (map member_text d); cbn [join app]; eexists; reflexivity. }
  replace (2 * List.length (123%N :: join [44%N; 32%N] members ++ [125%N]) + 1)%nat
    with (S (2 * List.length (123%N :: join [44%N; 32%N] members ++ [125%N])))%nat by lia.
  set (fuel := (2 * List.length (123%N :: join [44%N; 32%N] members ++ [125%N]))%nat).
  assert (Hfuel : (List.length d + 2 <= fuel)%nat).
  { unfold fuel. cbn [List.length] in Hlen |- *. rewrite length_app. cbn [List.length]. lia. }
  clearbody fuel.
  cbn [forallb fst snd] in Hd. apply andb_true_iff in Hd as [Hkv Hd].
  apply andb_true_iff in Hkv as [Hk0 Hv0].
  destruct Hm as [t Ht]. rewrite Ht. cbn [app scan_once].
  change ((123 =? 34)%N) with false. change ((123 =? 123)%N) with true. cbv iota.
  rewrite (skip_ws_keep 34 _ eq_refl).
  change ((34 =? 125)%N) with false. cbv iota.
  change (34%N :: t ++ [125%N]) with ((34%N :: t) ++ [125%N]). rewrite <- Ht.
  unfold members.
  rewrite (parse_members d k v [] [] fuel Hk0 Hv0 Hd Hfuel).
  cbn [skip_ws]. rewrite (fold_dict_set ((k, v) :: d) [] Hk). reflexivity.
Qed.

Lemma schema_keys_distinct : NoDup (map fst schema).
Proof.
  unfold schema. cbn [map fst].
  repeat (apply NoDup_cons;
          [intros H; repeat (destruct H as [H|H]; [discriminate H|]); exact H|]).
  apply NoDup_nil.
Qed.

Lemma dumps_loads_round_trip_witness :
  forallb (fun kv => plain (fst kv) && plain (snd kv)) schema = true
  /\ NoDup (map fst schema)
  /\ loads (json_dumps schema)
     = Some (JObj [ (py "sentiment", JStr (py "Positive|Negative|Neutral|Mixed"));
                    (py "confidence", JStr (py "number between 0 and 1"));
                    (py "explanation", JStr (py "short explanation (1-3 sentences)"));
                    (py "key_phrases",
                      JStr (py "array of 3-8 short phrases from the input that justify the sentiment")) ]).
Proof.
  refine (conj eq_refl (conj schema_keys_distinct _)).
  exact (dumps_loads_round_trip schema eq_refl schema_keys_distinct).
Defined.

(** ** The page script *)

Lemma isinstance_Exception (e : exn) : isinstance e Exception = true.
Proof. destruct e as [[] m]; reflexivity. Qed.

Lemma validate_api_key_returns (p : provider) (key : pystr) (tr : list event) :
  exists (b : bool) (msg : pystr) (tr' : list event),
    validate_api_key p key tr = (Return (b, msg), tr').
Proof.
  unfold validate_api_key.
  destruct (_looks_like_openai_key key); cbn [negb]; [|do 3 eexists; reflexivity].
  unfold try_except. rewrite validation_body.
  destruct (validation_call p key tr) as [[[]|e] tr1] eqn:Hv; [do 3 eexists; reflexivity|].
  destruct (validation_verdict p e tr1 (validation_call_raises p key tr tr1 e Hv))
    as (b & msg & Hd & _).
  exists b, msg, tr1. exact Hd.
Qed.

Lemma validate_api_key_blank (p : provider) (key : pystr) (tr : list event) :
  strip key = [] ->
  validate_api_key p key tr = (Return (false, py "Key format looks incorrect."), tr).
Proof.
  intros H. unfold validate_api_key, _looks_like_openai_key. rewrite H. reflexivity.
Qed.

(** Every label has its icon, its colour and its example, and the example
    is long enough to be analyzed. *)
Lemma label_tables (l : pystr) :
  In l SENTIMENT_LABELS ->
  exists icon color example,
    table_get sentiment_icons l = Some icon
    /\ table_get sentiment_colors l = Some color
    /\ table_get EXAMPLES l = Some example
    /\ (10 <= len (strip example))%Z.
Proof.
  unfold SENTIMENT_LABELS. intros H.
  repeat (destruct H as [<-|H];
          [do 3 eexists; repeat split; try reflexivity; vm_compute; discriminate|]).
  contradiction.
Qed.

Lemma example_list_returns (rt : runtime) : example_list rt SENTIMENT_LABELS = Return tt.
Proof. reflexivity. Qed.

Lemma example_buttons_returns (rt : runtime) (w : widgets) (s : session_state) :
  exists text,
    example_buttons rt w SENTIMENT_LABELS s
    = Return {| api_key := api_key s; key_valid := key_valid s;
                key_status := key_status s; input_text := text |}.
Proof.
  unfold SENTIMENT_LABELS. cbn [example_buttons].
  repeat match goal with
         | |- context [getitem rt ?d ?k] =>
             change (getitem rt d k) with (Return (get_or d k [])); cbv beta iota
         | |- context [example_clicked w ?l] => destruct (example_clicked w l)
         end;
    try (eexists; reflexivity).
  exists (input_text s). destruct s; reflexivity.
Qed.

(** *** The analysis *)

Lemma run_analysis_body (rt : runtime) (p : provider) (key model text : pystr)
    (tr : list event) :
  run_analysis rt p key model text tr
  = match analysis_calls rt p key model text tr with
    | (Return r, tr') => (Return (inl r), tr')
    | (Raise e, tr') =>
        dispatch
          [ (imported p AuthenticationError, fun _ => ret (inr (AuthenticationFailed, [])));
            (imported p RateLimitError, fun _ => ret (inr (RateLimited, [])));
            (imported p APIConnectionError, fun _ => ret (inr (ConnectionFailed, [])));
            (imported p APIError, fun e => ret (inr (ProviderError, exn_msg e)));
            (Exception, fun e => ret (inr (UnexpectedError, exn_msg e))) ]
          e tr'
    end.
Proof.
  unfold run_analysis, analysis_calls, try_except, bind.
  destruct (_get_client p key tr) as [[cl|e] tr1]; [|reflexivity].
  destruct (analyze_sentiment rt p cl model text tr1) as [[r|e] tr2]; reflexivity.
Qed.

Lemma run_analysis_reported (rt : runtime) (p : provider) (key model text : pystr)
    (tr : list event) :
  openai_installed p = true ->
  run_analysis rt p key model text tr
  = match analysis_calls rt p key model text tr with
    | (Return r, tr') => (Return (inl r), tr')
    | (Raise e, tr') => (Return (inr (reported e)), tr')
    end.
Proof.
  intros Hi. rewrite run_analysis_body.
  destruct (analysis_calls rt p key model text tr) as [[r|e] tr1]; [reflexivity|].
  unfold imported, reported. rewrite Hi. destruct e as [[] m]; reflexivity.
Qed.

(** X14. The outcome of a click on the analyze button, with the [openai]
    package at hand: the result when the two calls return, and otherwise
    the failure of the first [except] clause the exception's class falls
    under.  A time-out counts as a connection failure and every status
    error of the API other than a rejected key or a rate limit as a
    provider error; the adapter's own two failures, a reply that does not
    decode, a confidence that [float] rejects and any other exception are
    reported as unexpected, with the exception's text. *)
Theorem run_analysis_classifies (rt : runtime) (p : provider) (key model text : pystr)
    (tr : list event) :
  openai_installed p = true ->
  fst (run_analysis rt p key model text tr)
  = Return match fst (analysis_calls rt p key model text tr) with
           | Return r => inl r
           | Raise e => inr (reported e)
           end
  /\ reported MalformedOutput = (UnexpectedError, py "Model did not return JSON.")
  /\ (forall label,
        reported (InvalidLabel label)
        = (UnexpectedError, py "Unexpected sentiment label: " ++ label))
  /\ (forall cls text,
        In cls [ValueError; TypeError; AttributeError; IndexError; OverflowError;
                JSONDecodeError; RuntimeError; OpenAIError; Exception] ->
        reported (mk_exn cls text) = (UnexpectedError, text)).
Proof.
  intros Hi. rewrite (run_analysis_reported rt p key model text tr Hi).
  refine (conj _ (conj eq_refl (conj (fun _ => eq_refl) _))).
  - destruct (analysis_calls rt p key model text tr) as [[r|e] tr1]; reflexivity.
  - intros cls txt Hin.
    repeat (destruct Hin as [<-|Hin]; [reflexivity|]). contradiction.
Qed.

Lemma run_analysis_classifies_witness :
  openai_installed (provider_with (Return tt) (Raise timed_out)) = true
  /\ fst (run_analysis plain_runtime (provider_with (Return tt) (Raise timed_out))
            a_key a_model a_text [])
     = Return (inr (ConnectionFailed, [])).
Proof.
  split; [reflexivity|].
  exact (proj1 (run_analysis_classifies plain_runtime
                  (provider_with (Return tt) (Raise timed_out)) a_key a_model a_text []
                  eq_refl)).
Defined.

(** X15. Without the [openai] package the click is reported as an
    authentication failure, for the same reason as in
    [validate_api_key], and no call is made. *)
Theorem run_analysis_without_openai (rt : runtime) (p : provider) (key model text : pystr)
    (tr : list event) :
  openai_installed p = false ->
  run_analysis rt p key model text tr = (Return (inr (AuthenticationFailed, [])), tr).
Proof.
  intros Hi. unfold run_analysis, try_except, _get_client, bind, imported.
  rewrite Hi. reflexivity.
Qed.

Lemma run_analysis_without_openai_witness :
  openai_installed without_openai = false
  /\ run_analysis plain_runtime without_openai a_key a_model a_text []
     = (Return (inr (AuthenticationFailed, [])), []).
Proof.
  split; [reflexivity|].
  exact (run_analysis_without_openai plain_runtime without_openai a_key a_model a_text []
           eq_refl).
Defined.

Lemma run_analysis_returns (rt : runtime) (p : provider) (key model text : pystr)
    (tr : list event) :
  exists out tr', run_analysis rt p key model text tr = (Return out, tr').
Proof.
  rewrite run_analysis_body.
  destruct (analysis_calls rt p key model text tr) as [[r|e] tr1]; [do 2 eexists; reflexivity|].
  cbn [dispatch].
  repeat match goal with
         | |- context [if isinstance e ?c then _ else _] =>
             destruct (isinstance e c) eqn:?; [do 2 eexists; reflexivity|]
         end.
  rewrite isinstance_Exception in *. discriminate.
Qed.

(** The label of a result the two calls return is one of the four. *)
Lemma analysis_calls_label (rt : runtime) (p : provider) (key model text : pystr)
    (tr tr' : list event) (r : SentimentResult) (reasoning : pystr) :
  analysis_calls rt p key model text tr = (Return (r, reasoning), tr') ->
  In (sentiment r) SENTIMENT_LABELS.
Proof.
  unfold analysis_calls, bind.
  destruct (_get_client p key tr) as [[cl|e] tr1]; [|discriminate].
  intros H.
  assert (Hf : fst (analyze_sentiment rt p cl model text tr1) = Return (r, reasoning))
    by (rewrite H; reflexivity).
  apply analyze_sentiment_inv in Hf as (msg & d & x & _ & _ & Hl & _ & -> & _).
  apply str_in_In. exact Hl.
Qed.

(** A click on the analyze button with a text of 10 characters or more,
    through the outcome of [run_analysis]: the icon of line 320 is there
    for every result the adapter returns. *)
Lemma analyze_click_run (rt : runtime) (p : provider) (model : pystr) (s : session_state)
    (tr : list event) :
  (10 <= len (strip (input_text s)))%Z ->
  analyze_click rt p model s tr
  = match run_analysis rt p (api_key s) model (strip (input_text s)) tr with
    | (Return (inl r), tr') =>
        (Return (s, Analysis (fst r) (snd r)
                      (get_or sentiment_icons (sentiment (fst r)) [])
                      (get_or sentiment_colors (sentiment (fst r)) (py "#6b7280"))), tr')
    | (Return (inr (AuthenticationFailed, detail)), tr') =>
        (Return (with_verdict s false (key_status s), Failed AuthenticationFailed detail), tr')
    | (Return (inr (k, detail)), tr') => (Return (s, Failed k detail), tr')
    | (Raise e, tr') => (Raise e, tr')
    end.
Proof.
  intros Hlen. unfold analyze_click. cbv zeta.
  destruct (strip (input_text s)) as [|c0 t] eqn:Ht; [cbn in Hlen; lia|].
  destruct (Z.ltb_spec (len (c0 :: t)) 10) as [Hlt|_]; [lia|]. clear Hlen.
  rewrite run_analysis_body. unfold try_except.
  assert (Hbody :
    (client <- _get_client p (api_key s) ;;
     r <- analyze_sentiment rt p client model (c0 :: t) ;;
     emoji <- lift (getitem rt sentiment_icons (sentiment (fst r))) ;;
     ret (s, Analysis (fst r) (snd r) emoji
               (get_or sentiment_colors (sentiment (fst r)) (py "#6b7280")))) tr
    = match analysis_calls rt p (api_key s) model (c0 :: t) tr with
      | (Return r, tr') =>
          (Return (s, Analysis (fst r) (snd r)
                        (get_or sentiment_icons (sentiment (fst r)) [])
                        (get_or sentiment_colors (sentiment (fst r)) (py "#6b7280"))), tr')
      | (Raise e, tr') => (Raise e, tr')
      end).
  { destruct (analysis_calls rt p (api_key s) model (c0 :: t) tr)
      as [[[r reasoning]|e] tr1] eqn:Hc.
    - pose proof (analysis_calls_label _ _ _ _ _ _ _ _ _ Hc) as Hin.
      destruct (label_tables _ Hin) as (icon & color & example & Hi & _).
      revert Hc. unfold analysis_calls, bind.
      destruct (_get_client p (api_key s) tr) as [[cl|e] tr0]; [|discriminate].
      intros ->. cbn [fst snd]. unfold lift, getitem, get_or. rewrite Hi. reflexivity.
    - revert Hc. unfold analysis_calls, bind.
      destruct (_get_client p (api_key s) tr) as [[cl|e0] tr0].
      + intros ->. reflexivity.
      + intros H. injection H as -> ->. reflexivity. }
  rewrite Hbody.
  destruct (analysis_calls rt p (api_key s) model (c0 :: t) tr) as [[r|e] tr1]; [reflexivity|].
  cbn [dispatch].
  repeat match goal with
         | |- context [if isinstance e ?c then _ else _] =>
             destruct (isinstance e c); [reflexivity|]
         end.
  reflexivity.
Qed.

(** X16. A click on the analyze button with a text of fewer than 10
    characters once trimmed shows the notice of a missing or too short
    text, makes no call and leaves the session as it is. *)
Theorem short_text_not_analyzed (rt : runtime) (p : provider) (model : pystr)
    (s : session_state) (tr : list event) :
  (len (strip (input_text s)) < 10)%Z ->
  analyze_click rt p model s tr
  = (Return (s, match strip (input_text s) with
                | [] => TextMissing
                | _ :: _ => TextTooShort
                end), tr).
Proof.
  intros Hlen. unfold analyze_click. cbv zeta.
  destruct (strip (input_text s)) as [|c0 t]; [reflexivity|].
  destruct (Z.ltb_spec (len (c0 :: t)) 10) as [_|Hge]; [reflexivity | lia].
Qed.

Lemma short_text_not_analyzed_witness :
  (len (strip (input_text (with_text a_session (py "  too bad  ")))) < 10)%Z
  /\ analyze_click plain_runtime (replying []) a_model (with_text a_session (py "  too bad  ")) []
     = (Return (with_text a_session (py "  too bad  "), TextTooShort), []).
Proof.
  assert (H : (len (strip (input_text (with_text a_session (py "  too bad  ")))) < 10)%Z)
    by (vm_compute; reflexivity).
  split; [exact H|].
  exact (short_text_not_analyzed plain_runtime (replying []) a_model
           (with_text a_session (py "  too bad  ")) [] H).
Defined.

Lemma analyze_click_returns (rt : runtime) (p : provider) (model : pystr)
    (s : session_state) (tr : list event) :
  exists s' n tr',
    analyze_click rt p model s tr = (Return (s', n), tr')
    /\ (s' = s /\ (forall detail, n <> Failed AuthenticationFailed detail)
        \/ s' = with_verdict s false (key_status s)
           /\ exists detail, n = Failed AuthenticationFailed detail).
Proof.
  destruct (Z.ltb_spec (len (strip (input_text s))) 10) as [Hlt|Hge].
  - unfold analyze_click. cbv zeta.
    destruct (strip (input_text s)) as [|c0 t].
    + do 3 eexists. split; [reflexivity|]. left. split; [reflexivity | discriminate].
    + destruct (Z.ltb_spec (len (c0 :: t)) 10) as [_|Hge]; [|lia].
      do 3 eexists. split; [reflexivity|]. left. split; [reflexivity | discriminate].
  - rewrite (analyze_click_run rt p model s tr Hge).
    destruct (run_analysis_returns rt p (api_key s) model (strip (input_text s)) tr)
      as (out & tr' & ->).
    destruct out as [r|[[] detail]]; do 3 eexists; (split; [reflexivity|]);
      try (left; split; [reflexivity | intros d; discriminate]).
    right. split; [reflexivity | exists detail; reflexivity].
Qed.

(** X17. A click on the analyze button never raises, and of the session
    it changes at most the validity of the key: key, status and text stay,
    and the key is valid afterwards exactly when it was before and the
    click did not end in an authentication failure. *)
Theorem analysis_keeps_session (rt : runtime) (p : provider) (model : pystr)
    (s : session_state) (tr : list event) :
  exists s' n tr',
    analyze_click rt p model s tr = (Return (s', n), tr')
    /\ api_key s' = api_key s
    /\ key_status s' = key_status s
    /\ input_text s' = input_text s
    /\ (key_valid s' = true <->
        key_valid s = true /\ forall detail, n <> Failed AuthenticationFailed detail).
Proof.
  destruct (analyze_click_returns rt p model s tr) as (s' & n & tr' & H & Hs).
  exists s', n, tr'. split; [exact H|].
  destruct Hs as [[-> Hn]|[-> (detail & ->)]].
  - refine (conj eq_refl (conj eq_refl (conj eq_refl _))). split.
    + intros Hv. split; [exact Hv | exact Hn].
    + intros [Hv _]. exact Hv.
  - refine (conj eq_refl (conj eq_refl (conj eq_refl _))). cbn [key_valid with_verdict].
    split; [discriminate|].
    intros [_ Hn]. exfalso. apply (Hn detail). reflexivity.
Qed.

(** X18. When the provider rejects the key during an analysis (an
    [AuthenticationError] from the construction of the client or from the
    completion call), the click marks the key of the session as not
    valid and reports an authentication failure. *)
Theorem rejected_key_is_invalidated (rt : runtime) (p : provider) (model : pystr)
    (s : session_state) (tr : list event) (e : exn) :
  (10 <= len (strip (input_text s)))%Z ->
  openai_installed p = true ->
  fst (analysis_calls rt p (api_key s) model (strip (input_text s)) tr) = Raise e ->
  exn_cls e = AuthenticationError ->
  fst (analyze_click rt p model s tr)
  = Return (with_verdict s false (key_status s), Failed AuthenticationFailed []).
Proof.
  intros Hlen Hi He Hc. rewrite (analyze_click_run rt p model s tr Hlen).
  rewrite (run_analysis_reported rt p (api_key s) model (strip (input_text s)) tr Hi).
  destruct (analysis_calls rt p (api_key s) model (strip (input_text s)) tr) as [o tr'].
  cbn [fst] in He. subst o. unfold reported. rewrite Hc. reflexivity.
Qed.

Lemma rejected_key_is_invalidated_witness :
  (10 <= len (strip (input_text a_session)))%Z
  /\ openai_installed (provider_with (Return tt) (Raise key_rejected)) = true
  /\ fst (analysis_calls plain_runtime (provider_with (Return tt) (Raise key_rejected))
            (api_key a_session) a_model (strip (input_text a_session)) [])
     = Raise key_rejected
  /\ exn_cls key_rejected = AuthenticationError
  /\ fst (analyze_click plain_runtime (provider_with (Return tt) (Raise key_rejected))
            a_model a_session [])
     = Return ({| api_key := a_key; key_valid := false;
                  key_status := py "Key validated successfully."; input_text := a_text |},
               Failed AuthenticationFailed []).
Proof.
  assert (Hlen : (10 <= len (strip (input_text a_session)))%Z) by (vm_compute; discriminate).
  assert (He : fst (analysis_calls plain_runtime
                      (provider_with (Return tt) (Raise key_rejected))
                      (api_key a_session) a_model (strip (input_text a_session)) [])
               = Raise key_rejected)
    by (vm_compute; reflexivity).
  refine (conj Hlen (conj eq_refl (conj He (conj eq_refl _)))).
  exact (rejected_key_is_invalidated plain_runtime
           (provider_with (Return tt) (Raise key_rejected)) a_model a_session []
           key_rejected Hlen eq_refl He eq_refl).
Defined.

(** *** The key panel *)

Lemma key_panel_returns (p : provider) (w : widgets) (s : session_state) (tr : list event) :
  exists (valid : bool) (status : pystr) (tr' : list event),
    key_panel p w s tr
    = (Return {| api_key := text_input w; key_valid := valid; key_status := status;
                 input_text := input_text s |}, tr')
    /\ (validate_clicked w = false ->
        tr' = tr
        /\ valid = key_valid s && str_eqb (text_input w) (api_key s)
        /\ status = if str_eqb (text_input w) (api_key s) then key_status s else [])
    /\ (validate_clicked w = true ->
        strip (text_input w) <> []
        /\ fst (validate_api_key p (text_input w) tr) = Return (valid, status)
        /\ snd (validate_api_key p (text_input w) tr) = tr'
        \/ strip (text_input w) = [] /\ valid = false
           /\ status = py "Please enter an API key." /\ tr' = tr).
Proof.
  unfold key_panel.
  set (s1 := if negb (str_eqb (text_input w) (api_key s)) then _ else s).
  assert (Hs1 : s1 = {| api_key := text_input w;
                        key_valid := key_valid s && str_eqb (text_input w) (api_key s);
                        key_status := if str_eqb (text_input w) (api_key s)
                                      then key_status s else [];
                        input_text := input_text s |}).
  { unfold s1. destruct (str_eqb (text_input w) (api_key s)) eqn:He; cbn [negb].
    - apply str_eqb_eq in He. rewrite He, andb_true_r. destruct s; reflexivity.
    - rewrite andb_false_r. reflexivity. }
  clearbody s1. subst s1.
  destruct (validate_clicked w).
  - destruct (strip (text_input w)) as [|c0 t] eqn:Ht.
    + do 3 eexists. split; [reflexivity|]. split; [discriminate|].
      intros _. right. repeat split; reflexivity.
    + unfold bind.
      destruct (validate_api_key_returns p (text_input w) tr) as (b & msg & tr' & Hv).
      rewrite Hv. do 3 eexists. split; [reflexivity|]. split; [discriminate|].
      intros _. left. split; [discriminate | split; reflexivity].
  - do 3 eexists. split; [reflexivity|]. split; [|discriminate].
    intros _. repeat split; reflexivity.
Qed.

(** X19. After the key panel the session holds the key that is in the
    field, and that key is marked valid in two cases only: the validate
    button was clicked and [validate_api_key] answered [True] for it, or
    the button was not clicked and the key is the one held before, which
    was valid.  A key that was edited loses its verdict and its status;
    and without a click the panel makes no call. *)
Theorem key_panel_verdict (p : provider) (w : widgets) (s : session_state)
    (tr : list event) :
  exists s' tr',
    key_panel p w s tr = (Return s', tr')
    /\ api_key s' = text_input w
    /\ input_text s' = input_text s
    /\ (key_valid s' = true <->
        (validate_clicked w = true
         /\ exists msg, fst (validate_api_key p (text_input w) tr) = Return (true, msg))
        \/ (validate_clicked w = false /\ key_valid s = true /\ text_input w = api_key s))
    /\ (validate_clicked w = false -> tr' = tr)
    /\ (validate_clicked w = false -> text_input w <> api_key s -> key_status s' = []).
Proof.
  destruct (key_panel_returns p w s tr) as (valid & status & tr' & H & Hno & Hyes).
  do 2 eexists. split; [exact H|]. cbn [api_key input_text key_valid key_status].
  refine (conj eq_refl (conj eq_refl (conj _ (conj _ _)))).
  - destruct (validate_clicked w) eqn:Hc.
    + destruct (Hyes eq_refl) as [(_ & Hv & _)|(Hb & -> & _ & _)].
      * split.
        -- intros ->. left. split; [reflexivity|]. exists status. exact Hv.
        -- intros [[_ (msg & Hm)]|[Hf _]]; [|discriminate Hf].
           rewrite Hv in Hm. injection Hm as -> _. reflexivity.
      * split; [discriminate|].
        intros [[_ (msg & Hm)]|[Hf _]]; [|discriminate Hf].
        rewrite (validate_api_key_blank p _ tr Hb) in Hm. discriminate Hm.
    + destruct (Hno eq_refl) as (_ & -> & _). rewrite andb_true_iff, str_eqb_eq. split.
      * intros [Hv He]. right. repeat split; assumption.
      * intros [[Hf _]|(_ & Hv & He)]; [discriminate Hf | split; assumption].
  - intros Hc. apply (Hno Hc).
  - intros Hc Hne. destruct (Hno Hc) as (_ & _ & ->).
    destruct (str_eqb (text_input w) (api_key s)) eqn:He; [|reflexivity].
    apply str_eqb_eq in He. contradiction.
Qed.

(** X20. A click on the validate button with an empty or all-whitespace
    key field is answered ["Please enter an API key."] by the page
    itself: [validate_api_key] is not called, and no call is made. *)
Theorem blank_key_not_sent (p : provider) (w : widgets) (s : session_state)
    (tr : list event) :
  validate_clicked w = true -> forallb is_space (text_input w) = true ->
  key_panel p w s tr
  = (Return {| api_key := text_input w; key_valid := false;
               key_status := py "Please enter an API key.";
               input_text := input_text s |}, tr).
Proof.
  intros Hc Hb.
  destruct (key_panel_returns p w s tr) as (valid & status & tr' & H & _ & Hyes).
  rewrite H. destruct (Hyes Hc) as [(Hne & _)|(_ & -> & -> & ->)]; [|reflexivity].
  exfalso. apply Hne, strip_all_space, Hb.
Qed.

Lemma blank_key_not_sent_witness :
  validate_clicked (validating (py "   ")) = true
  /\ forallb is_space (text_input (validating (py "   "))) = true
  /\ key_panel (replying []) (validating (py "   ")) a_session []
     = (Return {| api_key := py "   "; key_valid := false;
                  key_status := py "Please enter an API key.";
                  input_text := a_text |}, []).
Proof.
  refine (conj eq_refl (conj eq_refl _)).
  exact (blank_key_not_sent (replying []) (validating (py "   ")) a_session []
           eq_refl eq_refl).
Defined.

(** *** The examples *)

(** X21. A click on the example button of a label puts the example of
    that label into the text to analyze and leaves the rest of the
    session as it is; the example has 10 characters or more once trimmed,
    so it passes the length check of the analysis. *)
Theorem example_fills_input (rt : runtime) (w : widgets) (s : session_state)
    (label : pystr) :
  In label SENTIMENT_LABELS ->
  (forall l, example_clicked w l = str_eqb l label) ->
  exists example,
    table_get EXAMPLES label = Some example
    /\ example_buttons rt w SENTIMENT_LABELS s
       = Return {| api_key := api_key s; key_valid := key_valid s;
                   key_status := key_status s; input_text := example |}
    /\ (10 <= len (strip example))%Z.
Proof.
  intros Hin Hw.
  destruct (label_tables label Hin) as (icon & color & example & _ & _ & He & Hlen).
  exists example. refine (conj He (conj _ Hlen)).
  revert He. unfold SENTIMENT_LABELS in *. cbn [example_buttons]. rewrite !Hw.
  repeat (destruct Hin as [<-|Hin]; [intros He; injection He as <-; reflexivity|]).
  contradiction.
Qed.

Lemma example_fills_input_witness :
  In (py "Neutral") SENTIMENT_LABELS
  /\ (forall l, example_clicked (picking (py "Neutral")) l = str_eqb l (py "Neutral"))
  /\ exists example,
       table_get EXAMPLES (py "Neutral") = Some example
       /\ example_buttons plain_runtime (picking (py "Neutral")) SENTIMENT_LABELS a_session
          = Return {| api_key := api_key a_session; key_valid := key_valid a_session;
                      key_status := key_status a_session; input_text := example |}
       /\ (10 <= len (strip example))%Z.
Proof.
  assert (Hin : In (py "Neutral") SENTIMENT_LABELS) by (right; right; left; reflexivity).
  refine (conj Hin (conj (fun l => eq_refl) _)).
  exact (example_fills_input plain_runtime (picking (py "Neutral")) a_session (py "Neutral")
           Hin (fun l => eq_refl)).
Defined.

(** *** The model picked *)

Lemma startswith_sep (c : N) (rest : pystr) :
  hd 0%N rest <> 226%N -> startswith (c :: rest) label_sep = false.
Proof.
  intros H. unfold label_sep. cbn [startswith].
  destruct rest as [|c' rest']; [rewrite andb_false_r; reflexivity|].
  cbn [hd] in H. destruct (N.eqb_spec 226 c') as [Heq|_]; [congruence|].
  cbn. apply andb_false_r.
Qed.

(** The separator is first found right after an ASCII identifier. *)
Lemma find_sep (mid rest : pystr) :
  forallb is_ascii mid = true ->
  find (mid ++ label_sep ++ rest) label_sep = Z.of_nat (List.length mid).
Proof.
  induction mid as [|c mid IH]; intros Ha.
  - reflexivity.
  - cbn [forallb] in Ha. apply andb_true_iff in Ha as [_ Ha].
    cbn [app find]. rewrite startswith_sep.
    + rewrite (IH Ha). destruct (Z.ltb_spec (Z.of_nat (List.length mid)) 0);
        cbn [List.length]; lia.
    + destruct mid as [|c' mid']; [discriminate|].
      cbn [app hd]. cbn [forallb] in Ha. apply andb_true_iff in Ha as [Hc _].
      unfold is_ascii in Hc. apply N.ltb_lt in Hc. lia.
Qed.

(** X22. The identifier that line 260 cuts out of an option label is the
    one line 257 put into it: for every ASCII identifier and every note,
    and so for the six entries of the catalogue; a label without the
    separator is taken whole.  The option selected at first is that of
    [DEFAULT_MODEL], and of the six selectable models the two [gpt-5]
    ones are requested with temperature 1 and the other four with
    temperature 0. *)
Theorem model_of_option_label :
  (forall mid note,
      forallb is_ascii mid = true -> model_of_label (mid ++ label_sep ++ note) = mid)
  /\ (forall label, contains label_sep label = false -> model_of_label label = label)
  /\ map model_of_label option_labels = map fst RECOMMENDED_MODELS
  /\ model_of_label (nth default_idx option_labels []) = DEFAULT_MODEL
  /\ forall rt text,
       map (fun label => req_temperature (completion_request rt (model_of_label label) text))
         option_labels
       = [1; 1; 0; 0; 0; 0]%Z.
Proof.
  refine (conj _ (conj _ (conj _ (conj _ _)))).
  - intros mid note Ha. unfold model_of_label, split_once. cbv zeta.
    rewrite (find_sep mid note Ha).
    destruct (Z.ltb_spec (Z.of_nat (List.length mid)) 0); [lia|].
    cbn [hd]. unfold slice. rewrite Z.sub_0_r, Nat2Z.id. cbn [Z.to_nat skipn].
    rewrite firstn_app, firstn_all, Nat.sub_diag. cbn [firstn]. apply app_nil_r.
  - intros label Hc. unfold model_of_label, split_once. cbv zeta.
    replace (find label label_sep) with (-1)%Z; [reflexivity|].
    symmetry. induction label as [|c label IH].
    + reflexivity.
    + cbn [contains] in Hc. apply orb_false_iff in Hc as [Hs Hc].
      cbn [find]. rewrite Hs, (IH Hc). reflexivity.
  - reflexivity.
  - reflexivity.
  - intros rt text. reflexivity.
Qed.

(** *** The whole run *)

(** X23. A run of the page never raises: no exception of the key
    validation, of the table lookups or of the analysis leaves [main].  A
    click on the clear button ends the run at once with key, verdict and
    status reset and the text kept; and a run in which neither the
    validate button nor the analyze button is clicked makes no call. *)
Theorem main_never_raises (rt : runtime) (p : provider) (w : widgets) (k : kept_state)
    (tr : list event) :
  exists out tr',
    main rt p w k tr = (Return out, tr')
    /\ (clear_clicked w = true ->
        out = Rerun {| api_key := []; key_valid := false; key_status := [];
                       input_text := input_text (init_session k) |}
        /\ tr' = tr)
    /\ (validate_clicked w = false -> analyze_btn w = false -> tr' = tr).
Proof.
  unfold main. cbv zeta.
  destruct (clear_clicked w).
  { do 2 eexists. split; [reflexivity|]. split; [intros _; split; reflexivity|].
    intros _ _. reflexivity. }
  unfold bind at 1.
  destruct (key_panel_returns p w (init_session k) tr)
    as (valid & status & tr1 & -> & Hno & _).
  unfold bind at 1. unfold lift at 1.
  destruct (example_buttons_returns rt w
              {| api_key := text_input w; key_valid := valid; key_status := status;
                 input_text := input_text (init_session k) |}) as (text & ->).
  unfold bind at 1. unfold lift at 1. rewrite example_list_returns.
  cbn [api_key key_valid key_status input_text].
  destruct (analyze_btn w).
  - unfold bind.
    match goal with |- context [analyze_click rt p ?m ?s ?t] =>
      destruct (analyze_click_returns rt p m s t) as (s' & n & tr2 & -> & _) end.
    do 2 eexists. split; [reflexivity|]. split; [discriminate|]. intros _ H. discriminate H.
  - do 2 eexists. split; [reflexivity|]. split; [discriminate|].
    intros Hv _. apply (Hno Hv).
Qed.

(** *** The calls of a run *)

Lemma analysis_calls_trace (rt : runtime) (p : provider) (key model text : pystr)
    (tr : list event) :
  snd (analysis_calls rt p key model text tr)
  = tr ++ (if openai_installed p then
             NewClient key
             :: match new_client p key with
                | Return _ => [ChatCompletion key (completion_request rt model text)]
                | Raise _ => []
                end
           else []).
Proof.
  unfold analysis_calls, _get_client, bind, call, ret, raise.
  destruct (openai_installed p); [|cbn; rewrite app_nil_r; reflexivity].
  destruct (new_client p key); [|reflexivity].
  rewrite analyze_sentiment_steps. cbn [snd client_key].
  rewrite <- app_assoc. reflexivity.
Qed.

Lemma run_analysis_trace (rt : runtime) (p : provider) (key model text : pystr)
    (tr : list event) :
  snd (run_analysis rt p key model text tr) = snd (analysis_calls rt p key model text tr).
Proof.
  rewrite run_analysis_body.
  destruct (analysis_calls rt p key model text tr) as [[r|e] tr1]; [reflexivity|].
  cbn [dispatch].
  repeat match goal with
         | |- context [if isinstance e ?c then _ else _] =>
             destruct (isinstance e c); [reflexivity|]
         end.
  reflexivity.
Qed.

Lemma analyze_click_trace (rt : runtime) (p : provider) (model : pystr) (s : session_state)
    (tr : list event) :
  snd (analyze_click rt p model s tr)
  = tr ++ (if (10 <=? len (strip (input_text s)))%Z && openai_installed p then
             NewClient (api_key s)
             :: match new_client p (api_key s) with
                | Return _ =>
                    [ChatCompletion (api_key s)
                       (completion_request rt model (strip (input_text s)))]
                | Raise _ => []
                end
           else []).
Proof.
  destruct (Z.leb_spec 10 (len (strip (input_text s)))) as [Hge|Hlt]; cbn [andb].
  - rewrite <- analysis_calls_trace, <- run_analysis_trace.
    rewrite (analyze_click_run rt p model s tr Hge).
    destruct (run_analysis rt p (api_key s) model (strip (input_text s)) tr)
      as [[[r|[[] detail]]|e] tr1]; reflexivity.
  - unfold analyze_click. cbv zeta.
    destruct (strip (input_text s)) as [|c0 t]; [cbn; rewrite app_nil_r; reflexivity|].
    destruct (Z.ltb_spec (len (c0 :: t)) 10) as [_|Hge]; [|lia].
    cbn. rewrite app_nil_r. reflexivity.
Qed.

(** X24. The calls of a click on the analyze button: none for a text of
    fewer than 10 characters or without the [openai] package; otherwise
    the construction of a client with the key of the session and, when
    that succeeds, one completion request with that key, for the model
    picked, with the trimmed text in its prompt.  The request is made
    once, whatever its outcome. *)
Theorem analyze_click_calls (rt : runtime) (p : provider) (model : pystr)
    (s : session_state) (tr : list event) :
  exists made,
    snd (analyze_click rt p model s tr) = tr ++ made
    /\ made = (if (10 <=? len (strip (input_text s)))%Z && openai_installed p then
                 NewClient (api_key s)
                 :: match new_client p (api_key s) with
                    | Return _ =>
                        [ChatCompletion (api_key s)
                           {| req_model := model;
                              req_messages :=
                                [ (py "system", system_prompt);
                                  (py "user", user_prompt (strip (input_text s))) ];
                              req_temperature :=
                                if is_reasoning_model rt model then 1%Z else 0%Z |}]
                    | Raise _ => []
                    end
               else [])
    /\ (List.length made <= 2)%nat.
Proof.
  eexists. split; [apply analyze_click_trace|]. split; [reflexivity|].
  destruct ((10 <=? len (strip (input_text s)))%Z && openai_installed p); [|cbn; lia].
  destruct (new_client p (api_key s)); cbn [List.length]; lia.
Qed.

(** X25. Every call of a run carries the key that is in the key field
    during that run; a listing of the models is made only on a click on
    the validate button, and a completion request only on a click on the
    analyze button, for the model of the option picked; a run makes four
    calls at most. *)
Theorem run_calls_use_field_key (rt : runtime) (p : provider) (w : widgets)
    (k : kept_state) (tr : list event) :
  exists made,
    snd (main rt p w k tr) = tr ++ made
    /\ Forall (fun ev => event_key ev = text_input w) made
    /\ (forall key, In (ModelsList key) made -> validate_clicked w = true)
    /\ (forall key r, In (ChatCompletion key r) made ->
          analyze_btn w = true /\ req_model r = model_of_label (selected_label w))
    /\ (List.length made <= 4)%nat.
Proof.
  unfold main. cbv zeta.
  destruct (clear_clicked w).
  { exists []. cbn. rewrite app_nil_r.
    repeat split; try constructor; try contradiction; lia. }
  unfold bind at 1.
  destruct (key_panel_returns p w (init_session k) tr)
    as (valid & status & tr1 & -> & Hno & Hyes).
  assert (Hpanel : exists made1,
             tr1 = tr ++ made1
             /\ Forall (fun ev => ev = NewClient (text_input w)
                                  \/ ev = ModelsList (text_input w)) made1
             /\ (validate_clicked w = false -> made1 = [])
             /\ (List.length made1 <= 2)%nat).
  { destruct (validate_clicked w).
    - destruct (Hyes eq_refl) as [(_ & _ & <-)|(_ & _ & _ & ->)].
      + rewrite validate_api_key_trace. eexists. split; [reflexivity|].
        destruct (_looks_like_openai_key (text_input w) && openai_installed p).
        * destruct (new_client p (text_input w)).
          -- refine (conj _ (conj _ _)); [|discriminate | cbn; lia].
             constructor; [left; reflexivity|].
             constructor; [right; reflexivity | constructor].
          -- refine (conj _ (conj _ _)); [|discriminate | cbn; lia].
             constructor; [left; reflexivity | constructor].
        * refine (conj _ (conj _ _)); [constructor | discriminate | cbn; lia].
      + exists []. rewrite app_nil_r.
        refine (conj eq_refl (conj _ (conj _ _))); [constructor | reflexivity | cbn; lia].
    - destruct (Hno eq_refl) as (-> & _). exists []. rewrite app_nil_r.
      refine (conj eq_refl (conj _ (conj _ _))); [constructor | reflexivity | cbn; lia]. }
  destruct Hpanel as (made1 & -> & Hk1 & Hv1 & Hl1).
  unfold bind at 1. unfold lift at 1.
  destruct (example_buttons_returns rt w
              {| api_key := text_input w; key_valid := valid; key_status := status;
                 input_text := input_text (init_session k) |}) as (text & ->).
  unfold bind at 1. unfold lift at 1. rewrite example_list_returns.
  cbn [api_key key_valid key_status input_text].
  assert (Hfirst : Forall (fun ev => event_key ev = text_input w) made1
                   /\ (forall key, In (ModelsList key) made1 -> validate_clicked w = true)
                   /\ (forall key r, ~ In (ChatCompletion key r) made1)).
  { refine (conj _ (conj _ _)).
    - apply Forall_forall. intros ev Hev.
      destruct (proj1 (Forall_forall _ _) Hk1 ev Hev) as [->| ->]; reflexivity.
    - intros key Hin. destruct (validate_clicked w); [reflexivity|].
      rewrite (Hv1 eq_refl) in Hin. contradiction.
    - intros key r Hin.
      destruct (proj1 (Forall_forall _ _) Hk1 _ Hin) as [H|H]; discriminate H. }
  destruct Hfirst as (Hkey1 & Hlist1 & Hchat1).
  destruct (analyze_btn w).
  - unfold bind.
    match goal with |- context [analyze_click rt p ?m ?s ?t] =>
      pose proof (analyze_click_trace rt p m s t) as Htr;
      destruct (analyze_click_returns rt p m s t) as (s' & n & tr2 & Hret & _)
    end.
    rewrite Hret in Htr |- *. cbn [snd api_key input_text] in Htr |- *. subst tr2.
    match goal with
    | |- context [(tr ++ made1) ++ ?m] => set (made2 := m)
    end.
    exists (made1 ++ made2). unfold ret. cbn [snd]. split; [apply eq_sym, app_assoc|].
    assert (H2 : Forall (fun ev => event_key ev = text_input w) made2
                 /\ (forall key, ~ In (ModelsList key) made2)
                 /\ (forall key r, In (ChatCompletion key r) made2 ->
                       req_model r = model_of_label (selected_label w))
                 /\ (List.length made2 <= 2)%nat).
    { unfold made2. clear made2 Hret.
      destruct ((10 <=? len (strip text))%Z && openai_installed p).
      - destruct (new_client p (text_input w)).
        + refine (conj _ (conj _ (conj _ _))); [repeat constructor | | | cbn; lia].
          * intros key [H|[H|[]]]; discriminate H.
          * intros key r [H|[H|[]]]; [discriminate H|]. injection H as _ <-. reflexivity.
        + refine (conj _ (conj _ (conj _ _))); [repeat constructor | | | cbn; lia].
          * intros key [H|[]]; discriminate H.
          * intros key r [H|[]]; discriminate H.
      - refine (conj _ (conj _ (conj _ _)));
          [constructor | intros key [] | intros key r [] | cbn; lia]. }
    destruct H2 as (Hkey2 & Hlist2 & Hchat2 & Hl2).
    refine (conj _ (conj _ (conj _ _))).
    + apply Forall_app. split; assumption.
    + intros key Hin. apply in_app_or in Hin as [Hin|Hin];
        [exact (Hlist1 key Hin) | exfalso; exact (Hlist2 key Hin)].
    + intros key r Hin. split; [reflexivity|].
      apply in_app_or in Hin as [Hin|Hin];
        [exfalso; exact (Hchat1 key r Hin) | exact (Hchat2 key r Hin)].
    + rewrite length_app. lia.
  - exists made1. cbn [snd]. split; [reflexivity|].
    refine (conj Hkey1 (conj Hlist1 (conj _ _))); [|lia].
    intros key r Hin. exfalso. exact (Hchat1 key r Hin).
Qed.
